(** * ReviewRabbit: the static-analysis engine, embedded and verified

    A shallow embedding of [reviewrabbit/analyzer.py] and
    [reviewrabbit/bug_detector.py], and of what [config.py], [reporter.py],
    [cli.py] and [ai_reviewer.py] compute from the results of the engine.

    Conventions of the embedding.
    - Python [str] is [string]; a character is a code point below 256.
    - Python [int] is [Z]; [len] results are injected with [Z.of_nat].
    - [comment_ratio] is the exact rational [comment_lines / lines_of_code];
      the Python float is the correctly rounded value of that rational, and
      rounding is monotone and fixes [0] and [1].
    - A call that may raise returns a [result]: [Return v] or [Raise e].
    - The three library services the analyzers call are parameters of the
      development: reading a file ([open(...).read()]), [ast.parse] and
      [fnmatch.fnmatchcase].  Regular expressions are given as syntax trees
      with a backtracking matcher ([re_search]).
    - [dict]s iterate in insertion order: the pattern catalogues are
      association lists, the metrics map is a [gmap] keyed by file path. *)

From Stdlib Require Import ZArith QArith Ascii String List Bool Lia Permutation Sorted.
From stdpp Require Import base option list strings gmap pretty.

#[local] Set Warnings "-register-all".

Local Open Scope string_scope.
Local Open Scope list_scope.
Local Open Scope Z_scope.

(** ** Python values *)

Module Py.

(** Outcome of a call: a value, or an exception that leaves the callee. *)
Inductive exn : Type :=
| IndexError
| ValueError (msg : string).

Inductive result (A : Type) : Type :=
| Return (v : A)
| Raise (e : exn).
Arguments Return {A} v.
Arguments Raise {A} e.

Definition bind {A B} (m : result A) (k : A -> result B) : result B :=
  match m with
  | Return v => k v
  | Raise e => Raise e
  end.

Declare Scope py_scope.
Delimit Scope py_scope with py.
Notation "x <- m ;; k" := (bind m (fun x => k))
  (at level 100, m at next level, right associativity) : py_scope.

(** [x or 0] on an optional integer: [None] and [0] are both falsy. *)
Definition or_zero (x : option Z) : Z :=
  match x with
  | Some n => n
  | None => 0
  end.

(** Truthiness of an optional integer. *)
Definition truthy (x : option Z) : bool :=
  match x with
  | Some n => negb (n =? 0)
  | None => false
  end.

(** [l[i]] with Python's negative indices; [None] stands for IndexError. *)
Definition index {A} (l : list A) (i : Z) : option A :=
  let n := Z.of_nat (length l) in
  if (0 <=? i) && (i <? n) then nth_error l (Z.to_nat i)
  else if (- n <=? i) && (i <? 0) then nth_error l (Z.to_nat (n + i))
  else None.

(** *** Characters *)

Definition code (c : ascii) : nat := nat_of_ascii c.

Definition in_range (lo hi : nat) (c : ascii) : bool :=
  (lo <=? code c)%nat && (code c <=? hi)%nat.

(** [str.isspace] on one character, which is also what [\s] matches. *)
Definition isspace (c : ascii) : bool :=
  in_range 9 13 c || in_range 28 32 c || (code c =? 133)%nat || (code c =? 160)%nat.

Definition isdigit (c : ascii) : bool := in_range 48 57 c.

(** What [\w] matches: [str.isalnum] or an underscore. *)
Definition isword (c : ascii) : bool :=
  in_range 48 57 c || in_range 65 90 c || (code c =? 95)%nat || in_range 97 122 c
  || (code c =? 170)%nat || in_range 178 179 c || (code c =? 181)%nat
  || in_range 185 186 c || in_range 188 190 c
  || in_range 192 214 c || in_range 216 246 c || in_range 248 255 c.

(** [str.lower] on one character. *)
Definition lower_char (c : ascii) : ascii :=
  if in_range 65 90 c || in_range 192 214 c || in_range 216 222 c
  then ascii_of_nat (code c + 32)
  else c.

(** [str.upper] on an ASCII letter; other characters never become one of
    the letters the analyzer compares against and are left alone. *)
Definition upper_char (c : ascii) : ascii :=
  if in_range 97 122 c then ascii_of_nat (code c - 32) else c.

Definition newline : ascii := ascii_of_nat 10.
Definition dquote : ascii := ascii_of_nat 34.
Definition squote : ascii := ascii_of_nat 39.

(** *** Strings *)

Fixpoint map_string (f : ascii -> ascii) (s : string) : string :=
  match s with
  | EmptyString => EmptyString
  | String c s' => String (f c) (map_string f s')
  end.

Definition lower : string -> string := map_string lower_char.
Definition upper : string -> string := map_string upper_char.

(** [s.replace(a, b)] for single characters. *)
Definition replace (a b : ascii) : string -> string :=
  map_string (fun c => if Ascii.eqb c a then b else c).

(** [s.split('\n')]: never empty, one more piece than there are newlines. *)
Fixpoint split_lines (s : string) : list string :=
  match s with
  | EmptyString => [EmptyString]
  | String c s' =>
      if Ascii.eqb c newline then EmptyString :: split_lines s'
      else match split_lines s' with
           | l :: ls => String c l :: ls
           | [] => [String c EmptyString]
           end
  end.

Fixpoint lstrip (s : string) : string :=
  match s with
  | EmptyString => EmptyString
  | String c s' => if isspace c then lstrip s' else s
  end.

Fixpoint rstrip (s : string) : string :=
  match s with
  | EmptyString => EmptyString
  | String c s' =>
      match rstrip s' with
      | EmptyString => if isspace c then EmptyString else String c EmptyString
      | r => String c r
      end
  end.

(** [s.strip()] *)
Definition strip (s : string) : string := rstrip (lstrip s).

(** [s.startswith(p)] *)
Fixpoint startswith (p s : string) : bool :=
  match p, s with
  | EmptyString, _ => true
  | String a p', String b s' => Ascii.eqb a b && startswith p' s'
  | String _ _, EmptyString => false
  end.

(** [s.startswith((p1, ..., pn))] *)
Definition startswith_any (ps : list string) (s : string) : bool :=
  existsb (fun p => startswith p s) ps.

(** Truthiness of a string: non-empty. *)
Definition nonempty (s : string) : bool :=
  match s with
  | EmptyString => false
  | String _ _ => true
  end.

(** [str(n)] *)
Definition str_of_nat (n : nat) : string := pretty n.

End Py.

Import Py.

(** ** Data model ([analyzer.py], the two dataclasses) *)

Record CodeIssue : Type := mkIssue {
  file_path : string;
  line_number : Z;
  column : Z;
  severity : string;
  category : string;
  message : string;
  suggestion : option string;
  code_snippet : option string
}.

Record CodeMetrics : Type := mkMetrics {
  m_file_path : string;
  lines_of_code : Z;
  cyclomatic_complexity : Z;
  function_count : Z;
  class_count : Z;
  import_count : Z;
  comment_ratio : Q
}.

(** [CodeMetrics(file_path, 0, 0, 0, 0, 0, 0.0)] *)
Definition zero_metrics (path : string) : CodeMetrics :=
  mkMetrics path 0 0 0 0 0 0%Q.

(** ** Syntax trees ([ast]) *)

Module Ast.

Record pos : Type := mkPos { lineno : Z; col_offset : Z }.

(** [ast.alias]: [import name as asname]. *)
Record alias : Type := mkAlias { name : string; asname : option string }.

(** The value of an [ast.Constant]: a [str], or anything else. *)
Inductive constant : Type :=
| CStr (s : string)
| COther.

(** Node classes that the analyzers only test with [isinstance]. *)
Inductive cls : Type :=
| ClassDef | If | While | For | AsyncFor | OtherClass.

(** A node.  The classes whose fields the analyzers read have a
    constructor of their own; any other class is [Generic], with its child
    nodes in field order (so [Load], [Store], [And], [Pass], ... are
    [Generic OtherClass []]).  A [FunctionDef] carries the three groups of its
    [arguments] object ([posonlyargs], [args], and the rest), so that
    [node.args.args] is always defined. *)
Inductive node : Type :=
| Module (body : list node)
| Import (p : pos) (names : list alias)
| ImportFrom (p : pos) (module : option string) (names : list alias)
| Alias (a : alias)
| FunctionDef (p : pos) (fname : string)
    (posonlyargs args args_rest : list node)
    (body : list node) (decorators_returns : list node)
| Arguments (posonlyargs args args_rest : list node)
| ExceptHandler (p : pos) (type : option node) (body : list node)
| BoolOp (op : node) (values : list node)
| Name (p : pos) (id : string) (ctx : node)
| Attribute (p : pos) (value : node) (attr : string) (ctx : node)
| Constant (p : pos) (value : constant)
| Expr (p : pos) (value : node)
| Generic (c : cls) (children : list node).

(** [ast.iter_child_nodes]: the direct children, in field order. *)
Definition iter_child_nodes (n : node) : list node :=
  match n with
  | Module body => body
  | Import _ names => map Alias names
  | ImportFrom _ _ names => map Alias names
  | Alias _ => []
  | FunctionDef _ _ po ar rest body tail =>
      Arguments po ar rest :: body ++ tail
  | Arguments po ar rest => po ++ ar ++ rest
  | ExceptHandler _ type body =>
      match type with
      | Some t => t :: body
      | None => body
      end
  | BoolOp op values => op :: values
  | Name _ _ ctx => [ctx]
  | Attribute _ value _ ctx => [value; ctx]
  | Constant _ _ => []
  | Expr _ value => [value]
  | Generic _ children => children
  end.

Definition sum_nat (l : list nat) : nat := fold_right Nat.add 0%nat l.

(** Number of nodes that a traversal starting at [n] meets. *)
Fixpoint weight (n : node) : nat :=
  match n with
  | Module body => S (sum_nat (map weight body))
  | Import _ names => S (length names)
  | ImportFrom _ _ names => S (length names)
  | Alias _ => 1
  | FunctionDef _ _ po ar rest body tail =>
      2 + sum_nat (map weight po) + sum_nat (map weight ar) + sum_nat (map weight rest)
      + sum_nat (map weight body) + sum_nat (map weight tail)
  | Arguments po ar rest =>
      S (sum_nat (map weight po) + sum_nat (map weight ar) + sum_nat (map weight rest))
  | ExceptHandler _ type body =>
      S (match type with Some t => weight t | None => 0 end + sum_nat (map weight body))
  | BoolOp op values => S (weight op + sum_nat (map weight values))
  | Name _ _ ctx => S (weight ctx)
  | Attribute _ value _ ctx => S (weight value + weight ctx)
  | Constant _ _ => 1
  | Expr _ value => S (weight value)
  | Generic _ children => S (sum_nat (map weight children))
  end%nat.

(** [ast.walk]: breadth-first, a queue of pending nodes.
<<
    todo = deque([node])
    while todo:
        node = todo.popleft()
        todo.extend(iter_child_nodes(node))
        yield node
>>
    The fuel bounds the number of nodes still to be yielded. *)
Fixpoint walk_queue (fuel : nat) (todo : list node) : list node :=
  match fuel, todo with
  | S fuel', n :: rest => n :: walk_queue fuel' (rest ++ iter_child_nodes n)
  | _, _ => []
  end.

Definition walk (tree : node) : list node := walk_queue (weight tree) [tree].

(** The nodes of a tree in depth-first order: the node, then the nodes
    below each child.  This is the enumeration the specification has in
    mind when it says "every node of the tree". *)
Fixpoint subtrees (n : node) : list node :=
  n :: match n with
       | Module body => flat_map subtrees body
       | Import _ names => map Alias names
       | ImportFrom _ _ names => map Alias names
       | Alias _ => []
       | FunctionDef _ _ po ar rest body tail =>
           Arguments po ar rest
             :: (flat_map subtrees po ++ flat_map subtrees ar ++ flat_map subtrees rest)
             ++ flat_map subtrees body ++ flat_map subtrees tail
       | Arguments po ar rest =>
           flat_map subtrees po ++ flat_map subtrees ar ++ flat_map subtrees rest
       | ExceptHandler _ type body =>
           match type with
           | Some t => subtrees t
           | None => []
           end ++ flat_map subtrees body
       | BoolOp op values => subtrees op ++ flat_map subtrees values
       | Name _ _ ctx => subtrees ctx
       | Attribute _ value _ ctx => subtrees value ++ subtrees ctx
       | Constant _ _ => []
       | Expr _ value => subtrees value
       | Generic _ children => flat_map subtrees children
       end.

End Ast.

Import Ast.

(** ** The environment of one run *)

(** [open(file_path, 'r', encoding='utf-8').read()]: the text, or any
    exception ([OSError], [UnicodeDecodeError], ...) with its [str(e)]. *)
Inductive read_result : Type :=
| ReadOk (content : string)
| ReadError (msg : string).

(** [ast.parse(content, filename=...)]: a tree, a [SyntaxError] with its
    [lineno], [offset] and [msg], or another exception with its [str(e)]. *)
Inductive parse_result : Type :=
| Parsed (tree : node)
| SyntaxError (lineno offset : option Z) (msg : string)
| ParseException (msg : string).

(** ** [class PythonASTAnalyzer] *)

Module PythonASTAnalyzer.

Definition is_Name_with (import_name : string) (n : node) : bool :=
  match n with
  | Name _ id _ => String.eqb id import_name
  | _ => false
  end.

(** [_is_import_used]: some node is the name, or an attribute access on it. *)
Definition _is_import_used (tree : node) (import_name : string) : bool :=
  existsb (fun n =>
             match n with
             | Name _ id _ => String.eqb id import_name
             | Attribute _ value _ _ => is_Name_with import_name value
             | _ => false
             end) (walk tree).

Definition unused_import_issue (path : string) (p : pos) (a : alias) : CodeIssue :=
  mkIssue path (lineno p) (col_offset p) "low" "unused_import"
    ("Unused import: " +:+ name a)
    (Some ("Remove unused import: " +:+ name a)) None.

Definition url_prefixes : list string := ["http"; "https"; "file://"].
Definition todo_prefixes : list string := ["TODO"; "FIXME"; "HACK"; "XXX"].

(** The body of the loop of [_analyze_ast]: what one node appends. *)
Definition node_issues (tree : node) (path : string) (n : node) : list CodeIssue :=
  match n with
  | Import p names =>
      flat_map (fun a => if negb (_is_import_used tree (name a))
                         then [unused_import_issue path p a] else []) names
  | FunctionDef p fname _ args _ body _ =>
      (if (50 <? length body)%nat
       then [mkIssue path (lineno p) (col_offset p) "medium" "code_quality"
               ("Function '" +:+ fname +:+ "' is too long ("
                  +:+ str_of_nat (length body) +:+ " lines)")
               (Some "Consider breaking this function into smaller functions") None]
       else [])
      ++
      (if (7 <? length args)%nat
       then [mkIssue path (lineno p) (col_offset p) "medium" "code_quality"
               ("Function '" +:+ fname +:+ "' has too many parameters ("
                  +:+ str_of_nat (length args) +:+ ")")
               (Some "Consider using a data class or dictionary to group related parameters")
               None]
       else [])
  | Constant p (CStr s) =>
      if (50 <? String.length s)%nat && negb (startswith_any url_prefixes s)
      then [mkIssue path (lineno p) (col_offset p) "low" "best_practices"
              "Consider moving long string to a constant or configuration file"
              (Some "Extract long strings to module-level constants") None]
      else []
  | ExceptHandler p None _ =>
      [mkIssue path (lineno p) (col_offset p) "high" "error_handling"
         "Bare except clause catches all exceptions"
         (Some "Specify the exception type or use 'except Exception as e:'") None]
  | Expr p (Constant _ (CStr s)) =>
      let comment := strip s in
      if startswith_any todo_prefixes (upper comment)
      then [mkIssue path (lineno p) (col_offset p) "info" "documentation"
              ("Code comment: " +:+ comment)
              (Some "Address the TODO/FIXME comment") None]
      else []
  | _ => []
  end.

(** [_analyze_ast]: the issues of every node, in [ast.walk] order. *)
Definition _analyze_ast (tree : node) (path content : string) : list CodeIssue :=
  flat_map (node_issues tree path) (walk tree).

Definition count {A} (f : A -> bool) (l : list A) : Z :=
  Z.of_nat (length (List.filter f l)).

Definition is_FunctionDef (n : node) : bool :=
  match n with FunctionDef _ _ _ _ _ _ _ => true | _ => false end.
Definition is_ClassDef (n : node) : bool :=
  match n with Generic ClassDef _ => true | _ => false end.
Definition is_import (n : node) : bool :=
  match n with Import _ _ | ImportFrom _ _ _ => true | _ => false end.

(** One iteration of the complexity loop of [_calculate_metrics]. *)
Definition complexity_step (complexity : Z) (n : node) : Z :=
  match n with
  | Generic If _ | Generic While _ | Generic For _ | Generic AsyncFor _
  | ExceptHandler _ _ _ => complexity + 1
  | BoolOp _ values => complexity + (Z.of_nat (length values) - 1)
  | _ => complexity
  end.

Definition is_comment_line (line : string) : bool := startswith "#" (strip line).

Definition _calculate_metrics (tree : node) (path content : string) : CodeMetrics :=
  let lines_of_code := count (fun line => nonempty (strip line)) (split_lines content) in
  let comment_lines := count is_comment_line (split_lines content) in
  let comment_ratio :=
    if 0 <? lines_of_code then (inject_Z comment_lines / inject_Z lines_of_code)%Q
    else 0%Q in
  let function_count := count is_FunctionDef (walk tree) in
  let class_count := count is_ClassDef (walk tree) in
  let import_count := count is_import (walk tree) in
  let complexity := fold_left complexity_step (walk tree) 1 in
  mkMetrics path lines_of_code complexity function_count class_count import_count
    comment_ratio.

Section Run.
Variable open_read : string -> read_result.
Variable ast_parse : string -> string -> parse_result.

(** [analyze_file]: the [try] body, then the two handlers.  The snippet
    of the [SyntaxError] handler indexes the lines of the text and is
    evaluated inside the handler, so an [IndexError] there leaves the
    method. *)
Definition analyze_file (path : string) : result (list CodeIssue * CodeMetrics) :=
  match open_read path with
  | ReadError msg =>
      Return ([mkIssue path 0 0 "high" "analysis_error"
                 ("Analysis error: " +:+ msg) None None],
              zero_metrics path)
  | ReadOk content =>
      match ast_parse content path with
      | Parsed tree =>
          Return (_analyze_ast tree path content,
                  _calculate_metrics tree path content)
      | SyntaxError e_lineno e_offset e_msg =>
          (snippet <- (if truthy e_lineno
                       then match index (split_lines content) (or_zero e_lineno - 1) with
                            | Some line => Return (Some line)
                            | None => Raise IndexError
                            end
                       else Return None) ;;
           Return ([mkIssue path (or_zero e_lineno) (or_zero e_offset)
                      "critical" "syntax_error"
                      ("Syntax error: " +:+ e_msg) None snippet],
                   zero_metrics path))%py
      | ParseException msg =>
          Return ([mkIssue path 0 0 "high" "analysis_error"
                     ("Analysis error: " +:+ msg) None None],
                  zero_metrics path)
      end
  end.
End Run.

End PythonASTAnalyzer.

(** ** Regular expressions ([re.search] with [re.IGNORECASE]) *)

Module Re.

(** The constructs that occur in the two pattern catalogues. *)
Inductive regex : Type :=
| Eps
| Chr (c : ascii)
| Dot
| Space
| Word
| Digit
| OneOf (cs : list ascii)
| NoneOf (cs : list ascii)
| Seq (r1 r2 : regex)
| Star (r : regex)
| Plus (r : regex)
| NotAhead (r : regex).

Definition mem (c : ascii) (cs : list ascii) : bool :=
  existsb (fun d => Ascii.eqb (lower_char c) (lower_char d)) cs.

(** One character against a one-character construct. *)
Definition accepts (r : regex) (c : ascii) : bool :=
  match r with
  | Chr d => Ascii.eqb (lower_char c) (lower_char d)
  | Dot => negb (Ascii.eqb c newline)
  | Space => isspace c
  | Word => isword c
  | Digit => isdigit c
  | OneOf cs => mem c cs
  | NoneOf cs => negb (mem c cs)
  | _ => false
  end.

(** Zero or more rounds of [step]; a round that consumes nothing ends the
    repetition, so the text length bounds the number of rounds. *)
Fixpoint repeat_from (step : string -> list string) (fuel : nat) (s : string)
  : list string :=
  s :: match fuel with
       | O => []
       | S fuel' =>
           flat_map (fun s' => if (String.length s' <? String.length s)%nat
                               then repeat_from step fuel' s' else [])
                    (step s)
       end.

(** Every way of matching a prefix of [s]: the list of what is left.
    Backtracking explores all of them, so a match exists exactly when the
    list is not empty. *)
Fixpoint rests (r : regex) (s : string) : list string :=
  match r with
  | Eps => [s]
  | Seq r1 r2 => flat_map (rests r2) (rests r1 s)
  | Star r1 => repeat_from (rests r1) (String.length s) s
  | Plus r1 => flat_map (fun s' => repeat_from (rests r1) (String.length s') s')
                        (rests r1 s)
  | NotAhead r1 =>
      match rests r1 s with
      | [] => [s]
      | _ :: _ => []
      end
  | _ =>
      match s with
      | String c s' => if accepts r c then [s'] else []
      | EmptyString => []
      end
  end.

Definition matches_at (r : regex) (s : string) : bool :=
  match rests r s with
  | [] => false
  | _ :: _ => true
  end.

(** [re.search(r, s, re.IGNORECASE) is not None]: a match at some offset. *)
Fixpoint re_search (r : regex) (s : string) : bool :=
  matches_at r s ||
  match s with
  | EmptyString => false
  | String _ s' => re_search r s'
  end.

(** *** Writing patterns *)

Fixpoint lit (s : string) : regex :=
  match s with
  | EmptyString => Eps
  | String c s' => Seq (Chr c) (lit s')
  end.

Definition cat (rs : list regex) : regex := fold_right Seq Eps rs.

Definition ws : regex := Star Space.
Definition ws1 : regex := Plus Space.
Definition quote : regex := OneOf [dquote; squote].
Definition unquoted : regex := NoneOf [dquote; squote].
Definition any : regex := Star Dot.

End Re.

Import Re.

(** ** The line scanner shared by the two catalogues *)

(** A catalogue: category name to patterns, in insertion order. *)
Definition catalogue : Type := list (string * list regex).

(** [enumerate(lines, start)] *)
Fixpoint enumerate (start : Z) (lines : list string) : list (Z * string) :=
  match lines with
  | [] => []
  | l :: ls => (start, l) :: enumerate (start + 1) ls
  end.

(** The three nested loops of both scanners: categories, then the patterns
    of the category, then the lines; every hit appends one issue. *)
Definition scan (issue_at : string -> Z -> string -> CodeIssue)
    (cat : catalogue) (lines : list string) : list CodeIssue :=
  flat_map (fun entry =>
    flat_map (fun pattern =>
      flat_map (fun il => if re_search pattern (snd il)
                          then [issue_at (fst entry) (fst il) (snd il)] else [])
               (enumerate 1 lines))
      (snd entry))
    cat.

(** [dict.get(key, default)] on a literal dictionary. *)
Fixpoint dict_get (d : list (string * string)) (key default : string) : string :=
  match d with
  | [] => default
  | (k, v) :: d' => if String.eqb k key then v else dict_get d' key default
  end.

(** ** [class SecurityAnalyzer] *)

Module SecurityAnalyzer.

Record t : Type := { security_patterns : catalogue }.

(** [__init__] *)
Definition init : t := {| security_patterns := [
  ("sql_injection", [
     cat [lit "execute"; ws; Chr "("; ws; quote; any; Chr "%"; any; quote];
     cat [lit "cursor.execute"; ws; Chr "("; ws; quote; any; Chr "%"; any; quote];
     cat [lit "query"; ws; Chr "="; ws; quote; any; Chr "%"; any; quote] ]);
  ("command_injection", [
     cat [lit "os.system"; ws; Chr "("];
     cat [lit "subprocess.call"; ws; Chr "("];
     cat [lit "subprocess.run"; ws; Chr "("];
     cat [lit "eval"; ws; Chr "("];
     cat [lit "exec"; ws; Chr "("] ]);
  ("path_traversal", [
     cat [lit "open"; ws; Chr "("; ws; quote; any; lit "../"; any; quote];
     cat [lit "file"; ws; Chr "("; ws; quote; any; lit "../"; any; quote];
     cat [lit "Path"; ws; Chr "("; ws; quote; any; lit "../"; any; quote] ]);
  ("hardcoded_secrets", [
     cat [lit "password"; ws; Chr "="; ws; quote; Plus unquoted; quote];
     cat [lit "api_key"; ws; Chr "="; ws; quote; Plus unquoted; quote];
     cat [lit "secret"; ws; Chr "="; ws; quote; Plus unquoted; quote];
     cat [lit "token"; ws; Chr "="; ws; quote; Plus unquoted; quote] ]);
  ("insecure_random", [
     cat [lit "random.random"; ws; Chr "("];
     cat [lit "random.randint"; ws; Chr "("];
     cat [lit "random.choice"; ws; Chr "("] ]) ] |}.

Definition _get_severity_for_category (category : string) : string :=
  dict_get [ ("sql_injection", "critical"); ("command_injection", "critical");
             ("path_traversal", "high"); ("hardcoded_secrets", "high");
             ("insecure_random", "medium") ] category "medium".

Definition _get_suggestion_for_category (category : string) : string :=
  dict_get [ ("sql_injection", "Use parameterized queries or an ORM to prevent SQL injection");
             ("command_injection", "Use subprocess with shell=False and validate input");
             ("path_traversal", "Validate and sanitize file paths before use");
             ("hardcoded_secrets", "Use environment variables or secure configuration management");
             ("insecure_random", "Use secrets module for cryptographic purposes") ]
           category "Review this code for security implications".

Definition issue_at (path category : string) (i : Z) (line : string) : CodeIssue :=
  mkIssue path i 0 (_get_severity_for_category category)
    ("security_" +:+ category)
    ("Potential " +:+ replace "_" " " category +:+ " vulnerability")
    (Some (_get_suggestion_for_category category))
    (Some (strip line)).

(** The scan proper, on text already read. *)
Definition scan_content (self : t) (path content : string) : list CodeIssue :=
  scan (issue_at path) (security_patterns self) (split_lines content).

(** [analyze_file]: nothing has been appended when the read fails, so the
    handler's issue is then the only one. *)
Definition analyze_file (open_read : string -> read_result) (self : t)
    (path : string) : list CodeIssue :=
  match open_read path with
  | ReadOk content => scan_content self path content
  | ReadError msg =>
      [mkIssue path 0 0 "high" "analysis_error"
         ("Security analysis error: " +:+ msg) None None]
  end.

End SecurityAnalyzer.

(** ** [class AdvancedBugDetector] ([bug_detector.py]) *)

Module AdvancedBugDetector.

Record t : Type := { bug_patterns : catalogue }.

Definition not_as : regex := NotAhead (cat [ws; lit "as"; ws1]).
Definition unclosed : regex := NoneOf [")"%char].

(** [__init__] *)
Definition init : t := {| bug_patterns := [
  ("null_pointer", [
     cat [Chr "."; Plus Word; ws; Chr "("; ws; lit "None"; ws; Chr ")"];
     cat [lit "if"; ws1; Plus Word; ws; lit "=="; ws; lit "None"; ws; Chr ":"];
     cat [lit "if"; ws1; Plus Word; ws; lit "is"; ws; lit "None"; ws; Chr ":"] ]);
  ("resource_leak", [
     cat [lit "open"; ws; Chr "("; Plus unclosed; Chr ")"; not_as];
     cat [lit "file"; ws; Chr "("; Plus unclosed; Chr ")"; not_as];
     cat [lit "requests.get"; ws; Chr "("; Plus unclosed; Chr ")"; not_as] ]);
  ("infinite_loop", [
     cat [lit "while"; ws1; lit "True"; ws; Chr ":"];
     cat [lit "for"; ws1; Plus Word; ws1; lit "in"; ws1; Plus Word; ws; Chr ":";
          any; lit "continue"] ]);
  ("type_confusion", [
     cat [lit "str"; ws; Chr "("; ws; Plus Word; ws; Chr ")"; ws; Chr "+"; ws;
          Plus Digit];
     cat [lit "int"; ws; Chr "("; ws; quote; Star unquoted; quote; ws; Chr ")"] ]);
  ("race_condition", [
     cat [lit "threading.Thread"; ws; Chr "("];
     cat [lit "multiprocessing.Process"; ws; Chr "("] ]) ] |}.

Definition _get_severity_for_bug (category : string) : string :=
  dict_get [ ("null_pointer", "high"); ("resource_leak", "high");
             ("infinite_loop", "critical"); ("type_confusion", "medium");
             ("race_condition", "high") ] category "medium".

Definition _get_suggestion_for_bug (category : string) : string :=
  dict_get [ ("null_pointer", "Add null checks before accessing object methods");
             ("resource_leak", "Use context managers (with statements) for resource management");
             ("infinite_loop", "Add proper loop termination conditions");
             ("type_confusion", "Ensure proper type conversion and validation");
             ("race_condition", "Use proper synchronization mechanisms") ]
           category "Review this code for potential issues".

Definition issue_at (path category : string) (i : Z) (line : string) : CodeIssue :=
  mkIssue path i 0 (_get_severity_for_bug category)
    ("bug_" +:+ category)
    ("Potential " +:+ replace "_" " " category +:+ " bug detected")
    (Some (_get_suggestion_for_bug category))
    (Some (strip line)).

Definition detect_bugs (self : t) (path content : string) : list CodeIssue :=
  scan (issue_at path) (bug_patterns self) (split_lines content).

End AdvancedBugDetector.

(** ** Paths ([pathlib.PurePosixPath], [os.path.join], [os.walk]) *)

Module Pathlib.

(** A parsed path: the root (empty, one slash or two) and the components. *)
Record PurePath : Type := mkPath { root : string; tail : list string }.

#[global] Instance PurePath_eq_dec : EqDecision PurePath.
Proof. solve_decision. Defined.

(** [s.split('/')] *)
Fixpoint split_slash (s : string) : list string :=
  match s with
  | EmptyString => [EmptyString]
  | String c s' =>
      if Ascii.eqb c "/" then EmptyString :: split_slash s'
      else match split_slash s' with
           | l :: ls => String c l :: ls
           | [] => [String c EmptyString]
           end
  end.

(** [Path(s)]: exactly two leading slashes are kept as a root of their
    own, empty components and single dots are dropped. *)
Definition parse (s : string) : PurePath :=
  {| root := if startswith "/" s
             then if startswith "//" s && negb (startswith "///" s) then "//" else "/"
             else "";
     tail := List.filter (fun x => nonempty x && negb (String.eqb x ".")) (split_slash s) |}.

(** [p.parts] *)
Definition parts (p : PurePath) : list string :=
  if nonempty (root p) then root p :: tail p else tail p.

(** [p / d] *)
Definition joinpath (p : PurePath) (d : string) : PurePath :=
  let q := parse d in
  if nonempty (root q) then q
  else {| root := root p; tail := tail p ++ tail q |}.

(** [p.parents]: the proper ancestors, nearest first. *)
Definition parents (p : PurePath) : list PurePath :=
  map (fun i => {| root := root p; tail := take (length (tail p) - 1 - i) (tail p) |})
      (seq 0 (length (tail p))).

(** [p.name] *)
Definition name (p : PurePath) : string := List.last (tail p) "".

(** The text from the last dot on, when there is a dot. *)
Fixpoint from_last_dot (s : string) : option string :=
  match s with
  | EmptyString => None
  | String c s' =>
      match from_last_dot s' with
      | Some t => Some t
      | None => if Ascii.eqb c "." then Some s else None
      end
  end.

(** [p.suffix]: empty unless the last dot is neither first nor last. *)
Definition suffix (p : PurePath) : string :=
  match from_last_dot (name p) with
  | Some t =>
      if (String.length t <? String.length (name p))%nat && (1 <? String.length t)%nat
      then t else ""
  | None => ""
  end.

Section Match.
Variable fnmatchcase : string -> string -> bool.

(** [zip] of the reversed components, every pair matching. *)
Fixpoint all_match (names pats : list string) : bool :=
  match names, pats with
  | n :: names', p :: pats' => fnmatchcase n p && all_match names' pats'
  | _, _ => true
  end.

(** [p.match(pattern)], as [PurePath.match] of CPython 3.11 computes it: a
    relative pattern is matched from the right, component by component; a
    rooted one against the whole path; an empty pattern is an error. *)
Definition path_match (p : PurePath) (pattern : string) : result bool :=
  let pat := parse pattern in
  match parts pat with
  | [] => Raise (ValueError "empty pattern")
  | _ :: pat_tail =>
      if nonempty (root pat) && negb (String.eqb (root pat) (root p))
      then Return false
      else if nonempty (root pat)
      then if negb (length (parts pat) =? length (parts p))%nat then Return false
           else Return (all_match (rev (parts p)) (rev pat_tail))
      else if (length (parts p) <? length (parts pat))%nat then Return false
           else Return (all_match (rev (parts p)) (rev (parts pat)))
  end.
(** [any(p.match(pattern) for pattern in patterns)]: stops at the first
    match, and an error of [match] leaves the loop. *)
Fixpoint any_match (p : PurePath) (patterns : list string) : result bool :=
  match patterns with
  | [] => Return false
  | pattern :: rest =>
      (hit <- path_match p pattern ;;
       if hit then Return true else any_match p rest)%py
  end.
End Match.

(** [os.path.join(a, b)] *)
Definition os_path_join (a b : string) : string :=
  if startswith "/" b then b
  else if negb (nonempty a) || String.eqb (String.substring (String.length a - 1) 1 a) "/"
  then a +:+ b
  else a +:+ "/" +:+ b.

End Pathlib.

Import Pathlib.

(** [fnmatch.fnmatchcase] for patterns made of literals, [*] and [?].  A
    bracket is taken literally, so this agrees with the library on patterns
    without brackets; the analyzer itself is stated for any matcher. *)
Fixpoint fnmatchcase_plain (name pat : string) : bool :=
  match pat with
  | EmptyString => negb (nonempty name)
  | String c pat' =>
      if Ascii.eqb c "*"
      then (fix star (s : string) : bool :=
              fnmatchcase_plain s pat'
              || match s with
                 | EmptyString => false
                 | String _ s' => star s'
                 end) name
      else match name with
           | EmptyString => false
           | String d name' =>
               (Ascii.eqb c "?" || Ascii.eqb c d) && fnmatchcase_plain name' pat'
           end
  end.

(** A directory listing: plain files and subdirectories, in the order in
    which the directory is scanned. *)
Inductive dirent : Type :=
| File (name : string)
| Dir (name : string) (entries : list dirent).

Definition files_of (entries : list dirent) : list string :=
  flat_map (fun e => match e with File f => [f] | Dir _ _ => [] end) entries.

(** [os.walk(top)], top-down, for a caller that filters [dirs] in place with
    [keep root d]: the [(root, files)] of every directory that is reached. *)
Fixpoint os_walk_entry (keep : string -> string -> bool) (parent : string)
    (e : dirent) : list (string * list string) :=
  match e with
  | File _ => []
  | Dir d entries =>
      if keep parent d
      then let root := os_path_join parent d in
           (root, files_of entries) :: flat_map (os_walk_entry keep root) entries
      else []
  end.

Definition os_walk (keep : string -> string -> bool) (top : string)
    (entries : list dirent) : list (string * list string) :=
  (top, files_of entries) :: flat_map (os_walk_entry keep top) entries.

(** ** [ConfigManager.should_analyze_file] ([config.py]) *)

Module ConfigManager.

(** The filter that the command line applies to a single file, on the
    [include] and [exclude] lists of the configuration. *)
Definition should_analyze_file (fnmatchcase : string -> string -> bool)
    (include exclude : list string) (file_path : string) : result bool :=
  let path := parse file_path in
  (include_match <- any_match fnmatchcase path include ;;
   if negb include_match then Return false
   else exclude_match <- any_match fnmatchcase path exclude ;;
        if exclude_match then Return false else Return true)%py.

End ConfigManager.

(** ** [class CodeAnalyzer] *)

Module CodeAnalyzer.

(** [python_analyzer] holds two containers that no method touches; the
    state that matters is the security analyzer and its catalogue. *)
Record t : Type := { security_analyzer : SecurityAnalyzer.t }.

Definition init : t := {| security_analyzer := SecurityAnalyzer.init |}.

(** The dictionary returned by [analyze_directory]. *)
Record report : Type := mkReport {
  issues : list CodeIssue;
  metrics : gmap string CodeMetrics;
  total_files : Z;
  total_issues : Z
}.

Definition default_include : list string := ["*.py"].
Definition default_exclude : list string :=
  ["*/__pycache__/*"; "*/venv/*"; "*/node_modules/*"].

Definition pattern_list (given : option (list string)) (default : list string)
  : list string :=
  match given with
  | Some l => l
  | None => default
  end.

(** [not any(Path(root) / d in Path(p).parents for p in exclude_patterns)] *)
Definition keep_dir (exclude_patterns : list string) (root d : string) : bool :=
  negb (existsb (fun p => bool_decide (joinpath (parse root) d ∈ parents (parse p)))
                exclude_patterns).

Section Run.
Variable open_read : string -> read_result.
Variable ast_parse : string -> string -> parse_result.
Variable fnmatchcase : string -> string -> bool.

(** [analyze_file] *)
Definition analyze_file (self : t) (path : string)
  : result (list CodeIssue * CodeMetrics) :=
  let file_ext := lower (suffix (parse path)) in
  if String.eqb file_ext ".py"
  then (am <- PythonASTAnalyzer.analyze_file open_read ast_parse path ;;
        let security_issues :=
          SecurityAnalyzer.analyze_file open_read (security_analyzer self) path in
        Return (fst am ++ security_issues, snd am))%py
  else Return ([], zero_metrics path).

Definition acc : Type := (list CodeIssue * gmap string CodeMetrics)%type.

(** The body of the inner loop, for one file name of one directory. *)
Definition visit_file (self : t) (include_patterns : list string)
    (root : string) (a : acc) (file : string) : result acc :=
  let file_path := os_path_join root file in
  (selected <- any_match fnmatchcase (parse file_path) include_patterns ;;
   if selected
   then im <- analyze_file self file_path ;;
        Return (fst a ++ fst im, <[file_path := snd im]> (snd a))
   else Return a)%py.

(** A [for] loop whose body may raise. *)
Fixpoint for_each {A S} (body : S -> A -> result S) (l : list A) (s : S) : result S :=
  match l with
  | [] => Return s
  | x :: l' => (s' <- body s x ;; for_each body l' s')%py
  end.

(** [analyze_directory], on the listing [entries] of [directory_path]. *)
Definition analyze_directory (self : t) (directory_path : string)
    (entries : list dirent)
    (include_patterns exclude_patterns : option (list string)) : result report :=
  let include_patterns := pattern_list include_patterns default_include in
  let exclude_patterns := pattern_list exclude_patterns default_exclude in
  (a <- for_each
          (fun a rf => for_each (visit_file self include_patterns (fst rf)) (snd rf) a)
          (os_walk (keep_dir exclude_patterns) directory_path entries)
          ([], ∅) ;;
   Return (mkReport (fst a) (snd a)
             (Z.of_nat (size (snd a))) (Z.of_nat (length (fst a)))))%py.
End Run.

End CodeAnalyzer.

(** ** The specification's wording, for comparison with the code *)

Module Spec.

(** Node kinds that count one decision each. *)
Definition is_decision (n : node) : bool :=
  match n with
  | Generic If _ | Generic While _ | Generic For _ | Generic AsyncFor _ => true
  | ExceptHandler _ _ _ => true
  | _ => false
  end.

(** [N - 1] for a boolean expression with [N] chained operands. *)
Definition extra_operands (n : node) : Z :=
  match n with
  | BoolOp _ values => Z.of_nat (length values) - 1
  | _ => 0
  end.

Definition sum_Z (l : list Z) : Z := fold_right Z.add 0 l.

(** "Start at 1; add 1 for every node of kind if, while, for, async-for or
      exception-handler; for every boolean expression node with N chained
      operands, add N-1", over the nodes of the tree. *)
Definition cyclomatic (tree : node) : Z :=
  1 + Z.of_nat (length (List.filter is_decision (subtrees tree)))
    + sum_Z (map extra_operands (subtrees tree)).

(** What the grammar guarantees of a parsed tree: a boolean expression
    chains at least two operands. *)
Definition parser_shaped (tree : node) : Prop :=
  forall op values, In (BoolOp op values) (subtrees tree) -> (2 <= length values)%nat.

(** For the texts that the run reads, the parser reports a syntax error on
    a line of the text.  (A file is read in text mode, which turns every
    line ending into a newline, so the lines that the parser counts are the
    pieces of [split('\n')].) *)
Definition position_in_text (open_read : string -> read_result)
    (ast_parse : string -> string -> parse_result) : Prop :=
  forall path content ln off msg,
    open_read path = ReadOk content ->
    ast_parse content path = SyntaxError (Some ln) off msg ->
    ln = 0 \/ 1 <= ln <= Z.of_nat (length (split_lines content)).

(** Number of elements of a list that pass a test. *)
Definition hits {A} (f : A -> bool) (l : list A) : nat := length (List.filter f l).

(** The issues of one category on one line. *)
Definition on_line_in_category (i : Z) (cat_name : string) (x : CodeIssue) : bool :=
  (line_number x =? i) && String.eqb (category x) cat_name.

(** A catalogue stands for a dictionary: no category occurs twice. *)
Definition dict_like (cat : catalogue) : Prop := NoDup (map fst cat).

(** Every parsed tree has the shape that the grammar guarantees. *)
Definition grammatical (ast_parse : string -> string -> parse_result) : Prop :=
  forall content path tree, ast_parse content path = Parsed tree -> parser_shaped tree.

(** The counts are not negative; the comment ratio is a fraction, and is 0
    when there is no line of code. *)
Definition counts_in_range (m : CodeMetrics) : Prop :=
  0 <= lines_of_code m /\ 0 <= function_count m /\ 0 <= class_count m
  /\ 0 <= import_count m
  /\ (0 <= comment_ratio m)%Q /\ (comment_ratio m <= 1)%Q
  /\ (lines_of_code m = 0 -> (comment_ratio m == 0)%Q).

(** *** The directory run, described from outside *)

(** Every pattern of the list has at least one component, so that
    [Path.match] accepts it. *)
Definition nonempty_patterns (patterns : list string) : Prop :=
  forall pattern, In pattern patterns -> parts (parse pattern) <> [].

(** The path matches at least one glob of the list. *)
Definition matches_some (fnmatchcase : string -> string -> bool)
    (patterns : list string) (path : string) : bool :=
  existsb (fun pattern =>
             match path_match fnmatchcase (parse path) pattern with
             | Return hit => hit
             | Raise _ => false
             end) patterns.

(** The files that the walk reaches, in the order in which it reaches them. *)
Definition visited_files (exclude_patterns : list string) (directory_path : string)
    (entries : list dirent) : list string :=
  flat_map (fun rf => map (os_path_join (fst rf)) (snd rf))
           (os_walk (CodeAnalyzer.keep_dir exclude_patterns) directory_path entries).

(** What the loop has collected after the given files: their issues one
    after the other, their metrics under their paths. *)
Definition collect (result_of : string -> list CodeIssue * CodeMetrics)
    (paths : list string) (a : CodeAnalyzer.acc) : CodeAnalyzer.acc :=
  fold_left (fun a path => (fst a ++ fst (result_of path),
                            <[path := snd (result_of path)]> (snd a)))
            paths a.

(** The result of one file, for a run in which no analysis raises. *)
Definition result_of (open_read : string -> read_result)
    (ast_parse : string -> string -> parse_result) (self : CodeAnalyzer.t)
    (path : string) : list CodeIssue * CodeMetrics :=
  match CodeAnalyzer.analyze_file open_read ast_parse self path with
  | Return r => r
  | Raise _ => ([], zero_metrics path)
  end.

(** The files of the walk that pass the include filter. *)
Definition selected_files (fnmatchcase : string -> string -> bool)
    (include_patterns exclude_patterns : list string) (directory_path : string)
    (entries : list dirent) : list string :=
  List.filter (matches_some fnmatchcase include_patterns)
              (visited_files exclude_patterns directory_path entries).

(** The issues of a report that are filed under one path. *)
Definition issues_of (path : string) (l : list CodeIssue) : list CodeIssue :=
  List.filter (fun i => String.eqb (file_path i) path) l.

(** The batch of a run: the selected files, for the pattern lists that the
    caller gave or left to their defaults. *)
Definition batch (fnmatchcase : string -> string -> bool)
    (include_patterns exclude_patterns : option (list string))
    (directory_path : string) (entries : list dirent) : list string :=
  selected_files fnmatchcase
    (CodeAnalyzer.pattern_list include_patterns CodeAnalyzer.default_include)
    (CodeAnalyzer.pattern_list exclude_patterns CodeAnalyzer.default_exclude)
    directory_path entries.

End Spec.

(** ** Concrete inputs used by the examples *)

Module Examples.

Definition leaf : node := Generic OtherClass [].
Definition at_ (l c : Z) : pos := mkPos l c.
Definition name_ (l c : Z) (id : string) : node := Name (at_ l c) id leaf.

(** A function with one [if], one [while] and one three-operand chain. *)
Definition decisions_src : string :=
"def f(a, b, c):
    if a:
        pass
    while b:
        pass
    return a and b and c
".

(** The tree that [ast.parse] builds for [decisions_src]. *)
Definition decisions_tree : node :=
  Module [
    FunctionDef (at_ 1 0) "f" [] [leaf; leaf; leaf] []
      [ Generic If [name_ 2 7 "a"; leaf];
        Generic While [name_ 4 10 "b"; leaf];
        Generic OtherClass
          [BoolOp leaf [name_ 6 11 "a"; name_ 6 17 "b"; name_ 6 23 "c"]] ]
      [] ].

(** A file system with a single readable file, and a parser that knows
    the tree of that one text. *)
Definition one_file (path content : string) : string -> read_result :=
  fun p => if String.eqb p path then ReadOk content else ReadError "No such file".

Definition parses_to (content : string) (tree : node)
  : string -> string -> parse_result :=
  fun c _ => if String.eqb c content then Parsed tree
             else SyntaxError (Some 1) (Some 1) "invalid syntax".

(** A text that does not parse, and what the parser says of it. *)
Definition bad_src : string := "def f(:".

Definition bad_parse : string -> string -> parse_result :=
  fun _ _ => SyntaxError (Some 1) (Some 7) "invalid syntax".





(** A loop that the bug catalogue flags and the security catalogue does not. *)
Definition loop_src : string := "while True: pass".

Definition loop_tree : node :=
  Module [ Generic While [Constant (at_ 1 6) COther; leaf] ].

(** A line on which two patterns of one security category match. *)
Definition twice_src : string := "os.system(eval(x))".

(** A line on which patterns of two security categories match. *)
Definition mixed_src : string := "password = 'abc'; eval(x)".

(** A batch of two Python files, the second of which cannot be read. *)
Definition batch_entries : list dirent := [File "a.py"; File "b.py"; File "notes.txt"].

Definition batch_read : string -> read_result :=
  fun p => if String.eqb p "proj/a.py" then ReadOk "import os"
           else ReadError "Permission denied".

Definition import_os_tree : node :=
  Module [ Import (at_ 1 0) [mkAlias "os" None] ].

Definition batch_parse : string -> string -> parse_result :=
  parses_to "import os" import_os_tree.

(** A project with a [build] directory, where every file reads [import os]. *)
Definition build_entries : list dirent :=
  [File "main.py"; Dir "build" [File "x.py"]].

Definition all_import_os : string -> read_result := fun _ => ReadOk "import os".

(** A project with a test file next to the module it tests. *)
Definition tests_entries : list dirent := [File "app.py"; File "app_test.py"].

(** [import os.path], with the module used on the next line. *)
Definition dotted_src : string :=
"import os.path
x = os.path.join(a, b)
".

Definition dotted_tree : node :=
  Module [
    Import (at_ 1 0) [mkAlias "os.path" None];
    Generic OtherClass
      [ name_ 2 0 "x";
        Generic OtherClass
          [ Attribute (at_ 2 4)
              (Attribute (at_ 2 4) (name_ 2 4 "os") "path" leaf) "join" leaf;
            name_ 2 17 "a";
            name_ 2 20 "b" ] ] ].

End Examples.

(** ** Conditions of the structural rules, node by node *)

Module Rules.

(** A function whose body has more than 50 statements. *)
Definition long_function (n : node) : bool :=
  match n with
  | FunctionDef _ _ _ _ _ body _ => (50 <? length body)%nat
  | _ => false
  end.

(** A function that declares more than 7 parameters in [args.args]. *)
Definition wide_function (n : node) : bool :=
  match n with
  | FunctionDef _ _ _ args _ _ _ => (7 <? length args)%nat
  | _ => false
  end.

(** An exception handler without a type. *)
Definition bare_handler (n : node) : bool :=
  match n with
  | ExceptHandler _ None _ => true
  | _ => false
  end.

(** A string constant of more than 50 characters that is not a URL. *)
Definition long_literal (n : node) : bool :=
  match n with
  | Constant _ (CStr s) =>
      (50 <? String.length s)%nat
      && negb (startswith_any PythonASTAnalyzer.url_prefixes s)
  | _ => false
  end.

(** An expression statement that is a string starting with a marker. *)
Definition todo_statement (n : node) : bool :=
  match n with
  | Expr _ (Constant _ (CStr s)) =>
      startswith_any PythonASTAnalyzer.todo_prefixes (upper (strip s))
  | _ => false
  end.

(** The string has a dot in it. *)
Fixpoint has_dot (s : string) : bool :=
  match s with
  | EmptyString => false
  | String c s' => Ascii.eqb c "." || has_dot s'
  end.

(** Every [Name] node of the tree carries an identifier, which has no dot. *)
Definition plain_names (tree : node) : Prop :=
  forall q id ctx, In (Name q id ctx) (subtrees tree) -> has_dot id = false.

(** Issues of one category. *)
Definition in_category (c : string) (x : CodeIssue) : bool :=
  String.eqb (category x) c.

(** The position of a category in a catalogue, for issues that carry the
    category with a prefix; the length of the catalogue when it is absent. *)
Fixpoint rank (prefix : string) (cat : catalogue) (c : string) : nat :=
  match cat with
  | [] => O
  | entry :: cat' =>
      if String.eqb c (prefix +:+ fst entry) then O else S (rank prefix cat' c)
  end.

(** The literal character with which every match of a pattern has to
    begin, when the pattern begins with one. *)
Fixpoint leading_char (r : regex) : option ascii :=
  match r with
  | Chr c => Some c
  | Seq r1 _ => leading_char r1
  | _ => None
  end.

(** Every pattern of the catalogue begins with a literal character that is
    not white space. *)
Definition begins_with_ink (cat : catalogue) : bool :=
  forallb (fun entry =>
             forallb (fun pattern =>
                        match leading_char pattern with
                        | Some c => negb (isspace (lower_char c))
                        | None => false
                        end) (snd entry)) cat.

(** Only white space. *)
Fixpoint all_space (s : string) : bool :=
  match s with
  | EmptyString => true
  | String c s' => isspace c && all_space s'
  end.

(** The glob is relative and its first component is a lone star, as in
    [*/venv/*]. *)
Definition star_first (pattern : string) : bool :=
  negb (nonempty (root (parse pattern)))
  && match tail (parse pattern) with
     | first :: _ => String.eqb first "*"
     | [] => false
     end.

End Rules.

(** ** Dictionaries in insertion order

    The dictionaries of reporter.py, cli.py and [collections.Counter] are
    iterated, so the order of their keys matters: a key keeps the place of
    its first assignment. *)

Module PyDict.

Definition t (V : Type) : Type := list (string * V).

(** [d.get(k)] *)
Fixpoint get {V} (d : t V) (k : string) : option V :=
  match d with
  | [] => None
  | (k', v) :: d' => if String.eqb k' k then Some v else get d' k
  end.

(** [d.get(k, default)] *)
Definition get_or {V} (d : t V) (k : string) (default : V) : V :=
  match get d k with
  | Some v => v
  | None => default
  end.

(** [k in d] *)
Definition contains {V} (d : t V) (k : string) : bool :=
  match get d k with
  | Some _ => true
  | None => false
  end.

(** [d[k] = v]: a key that is present keeps its place, a new key goes last. *)
Fixpoint setitem {V} (d : t V) (k : string) (v : V) : t V :=
  match d with
  | [] => [(k, v)]
  | (k', v') :: d' =>
      if String.eqb k' k then (k', v) :: d' else (k', v') :: setitem d' k v
  end.

Definition keys {V} (d : t V) : list string := map fst d.
Definition values {V} (d : t V) : list V := map snd d.

(** [{k: f(k) for k in ks}] *)
Definition comprehension {V} (f : string -> V) (ks : list string) : t V :=
  fold_left (fun d k => setitem d k (f k)) ks [].

End PyDict.

(** [sum(l)]: from 0, left to right. *)
Definition py_sum (l : list Z) : Z := fold_left Z.add l 0.

(** [l[:n]] *)
Definition slice_to {A} (l : list A) (n : Z) : list A :=
  if n <? 0
  then firstn (Z.to_nat (Z.of_nat (length l) + n)) l
  else firstn (Z.to_nat n) l.

(** ** The reviews of ai_reviewer.py *)

Module AIReviewer.

(** [overall_score] is a float that only passes through the code modelled
    here; its type is left open. *)
Record AIReview (float : Type) : Type := mkReview {
  file_path : string;
  overall_score : float;
  summary : string;
  strengths : list string;
  improvements : list string;
  suggestions : list (PyDict.t string);
  security_concerns : list string;
  performance_notes : list string
}.
Arguments mkReview {float}.
Arguments strengths {float}.
Arguments improvements {float}.
Arguments security_concerns {float}.
Arguments performance_notes {float}.

(** [Counter(items)]: one entry per distinct item, in the order of first
    occurrence, with the number of occurrences. *)
Definition Counter (items : list string) : PyDict.t Z :=
  fold_left (fun c x => PyDict.setitem c x (PyDict.get_or c x 0 + 1)) items [].

(** One step of a stable sort by decreasing count: [x] stood before every
    element of [l], so it goes before the elements that count as much. *)
Fixpoint insert_by_count (x : string * Z) (l : list (string * Z)) : list (string * Z) :=
  match l with
  | [] => [x]
  | y :: l' => if snd y <=? snd x then x :: l else y :: insert_by_count x l'
  end.

(** [sorted(c.items(), key=itemgetter(1), reverse=True)] *)
Definition sorted_by_count (c : PyDict.t Z) : list (string * Z) :=
  fold_right insert_by_count [] c.

(** [c.most_common(n)] for an integer [n]: [heapq.nlargest(n, c.items(),
    key=itemgetter(1))], which is [sorted(...)[:n]] for a positive [n] and
    empty otherwise. *)
Definition most_common (c : PyDict.t Z) (n : Z) : list (string * Z) :=
  if n <=? 0 then [] else firstn (Z.to_nat n) (sorted_by_count c).

(** [_get_top_items] *)
Definition _get_top_items (items : list string) (limit : Z) : list string :=
  map fst (most_common (Counter items) limit).

End AIReviewer.

(** ** Reports (reporter.py) *)

Module ReportGenerator.

Section Report.
Variable float : Type.

Record ReportData : Type := mkReportData {
  files_analyzed : list string;
  issues_by_file : PyDict.t (list CodeIssue);
  metrics_by_file : gmap string CodeMetrics;
  ai_reviews : list (AIReviewer.AIReview float);
  total_issues : Z;
  total_files : Z;
  analysis_time : float;
  timestamp : Z
}.

(** [generate_report]; [now] is the reading of the clock. *)
Definition generate_report (now : Z) (files_analyzed : list string)
    (issues_by_file : PyDict.t (list CodeIssue))
    (metrics_by_file : gmap string CodeMetrics)
    (ai_reviews : list (AIReviewer.AIReview float)) (analysis_time : float)
  : ReportData :=
  let total_issues :=
    py_sum (map (fun issues => Z.of_nat (length issues)) (PyDict.values issues_by_file)) in
  mkReportData files_analyzed issues_by_file metrics_by_file ai_reviews
    total_issues (Z.of_nat (length files_analyzed)) analysis_time now.

End Report.

Arguments files_analyzed {float}.
Arguments issues_by_file {float}.
Arguments metrics_by_file {float}.
Arguments ai_reviews {float}.
Arguments total_issues {float}.
Arguments total_files {float}.
Arguments generate_report {float}.

(** [_count_issues_by_severity] *)
Definition _count_issues_by_severity (issues_by_file : PyDict.t (list CodeIssue))
  : PyDict.t Z :=
  fold_left
    (fun severity_counts issues =>
       fold_left
         (fun severity_counts issue =>
            PyDict.setitem severity_counts (severity issue)
              (PyDict.get_or severity_counts (severity issue) 0 + 1))
         issues severity_counts)
    (PyDict.values issues_by_file) [].

End ReportGenerator.

(** ** Configuration (config.py)

    The dataclasses with the types of their annotations.  Printing is not
    modelled: a warning changes nothing in the configuration. *)

Module Configuration.

Section Config.
(** Floats ([temperature]) only pass through. *)
Variable float : Type.
Variable default_temperature : float.

Record OpenAIConfig : Type := mkOpenAI {
  api_key : string;
  model : string;
  max_tokens : Z;
  temperature : float
}.

Record AnalysisConfig : Type := mkAnalysis {
  enabled_checks : list string;
  severity_levels : PyDict.t Z
}.

Record FilePatternsConfig : Type := mkPatterns {
  include : list string;
  exclude : list string
}.

Record OutputConfig : Type := mkOutput {
  format : string;
  save_report : bool;
  report_directory : string;
  verbose : bool
}.

Record ReviewConfig : Type := mkReviewConfig {
  max_files_per_review : Z;
  max_file_size_mb : Z;
  include_suggestions : bool;
  include_examples : bool;
  language : string
}.

Record Config : Type := mkConfig {
  openai : OpenAIConfig;
  analysis : AnalysisConfig;
  file_patterns : FilePatternsConfig;
  output : OutputConfig;
  review : ReviewConfig
}.

(** [Config()] *)
Definition default : Config :=
  mkConfig
    (mkOpenAI "" "gpt-4" 2000 default_temperature)
    (mkAnalysis
       ["syntax_errors"; "security_vulnerabilities"; "code_quality";
        "performance_issues"; "best_practices"; "documentation"]
       [("critical", 1); ("high", 2); ("medium", 3); ("low", 4); ("info", 5)])
    (mkPatterns
       ["*.py"; "*.js"; "*.ts"; "*.jsx"; "*.tsx"; "*.java";
        "*.cpp"; "*.c"; "*.cs"; "*.go"; "*.rs"; "*.php"; "*.rb"]
       ["*/node_modules/*"; "*/venv/*"; "*/env/*"; "*/.git/*";
        "*/__pycache__/*"; "*/build/*"; "*/dist/*"; "*/target/*"])
    (mkOutput "console" true "./reports" false)
    (mkReviewConfig 10 1 true true "english").

(** How a call of the manager ends: normally, with a [ValueError], or with
    an exception of the operating system (type [E]). *)
Variable E : Type.

Inductive outcome (A : Type) : Type :=
| Done (v : A)
| Invalid (msg : string)
| Failed (e : E).
Arguments Done {A} v.
Arguments Invalid {A} msg.
Arguments Failed {A} e.

(** The environment: [os.getenv], and the conversions [int] and [float] of
    a string ([None] for a [ValueError]). *)
Variable getenv : string -> option string.
Variable int_of_str : string -> option Z.
Variable float_of_str : string -> option float.

(** [os.getenv(name)] when it is truthy: set and not empty. *)
Definition env (name : string) : option string :=
  match getenv name with
  | Some v => if String.eqb v "" then None else Some v
  | None => None
  end.

(** [x in l] on strings. *)
Definition mem (x : string) (l : list string) : bool := existsb (String.eqb x) l.

(** [_load_from_env] *)
Definition _load_from_env (c : Config) : Config :=
  let o := openai c in
  let out := output c in
  mkConfig
    (mkOpenAI
       (match env "OPENAI_API_KEY" with Some v => v | None => api_key o end)
       (match env "OPENAI_MODEL" with Some v => v | None => model o end)
       (match env "OPENAI_MAX_TOKENS" with
        | Some v => match int_of_str v with Some n => n | None => max_tokens o end
        | None => max_tokens o
        end)
       (match env "OPENAI_TEMPERATURE" with
        | Some v => match float_of_str v with Some x => x | None => temperature o end
        | None => temperature o
        end))
    (analysis c)
    (file_patterns c)
    (mkOutput
       (match env "OUTPUT_FORMAT" with Some v => v | None => format out end)
       (save_report out)
       (match env "REPORT_DIRECTORY" with Some v => v | None => report_directory out end)
       (match env "VERBOSE" with
        | Some v => mem (lower v) ["true"; "1"; "yes"]
        | None => verbose out
        end))
    (review c).

Definition valid_formats : list string := ["console"; "json"; "html"; "markdown"].
Definition required_severities : list string :=
  ["critical"; "high"; "medium"; "low"; "info"].

(** The first required severity that the dictionary lacks. *)
Definition missing_severity (levels : PyDict.t Z) : option string :=
  List.find (fun s => negb (PyDict.contains levels s)) required_severities.

(** [os.makedirs(path, exist_ok=True)]: [None] when it succeeds. *)
Variable makedirs : string -> option E.

(** [_validate_config] *)
Definition _validate_config (c : Config) : outcome unit :=
  if String.eqb (api_key (openai c)) ""
  then Invalid ("OpenAI API key is required. Set OPENAI_API_KEY environment "
                +:+ "variable or configure in config.yaml")
  else if negb (mem (format (output c)) valid_formats)
  then Invalid ("Invalid output format: " +:+ format (output c)
                +:+ ". Valid formats: ['console', 'json', 'html', 'markdown']")
  else match missing_severity (severity_levels (analysis c)) with
       | Some s => Invalid ("Missing required severity level: " +:+ s)
       | None =>
           if save_report (output c)
           then match makedirs (report_directory (output c)) with
                | Some e => Failed e
                | None => Done tt
                end
           else Done tt
       end.

(** [load_config], from a fresh manager.  [exists] tells whether the
    configuration file is there; [_load_from_file] catches every exception,
    so it ends normally: [load_from_file] is what it leaves of the
    configuration. *)
Definition load_config (exists_ : bool) (load_from_file : Config -> Config)
  : outcome Config :=
  let c := if exists_ then load_from_file default else default in
  let c := _load_from_env c in
  match _validate_config c with
  | Done _ => Done c
  | Invalid msg => Invalid msg
  | Failed e => Failed e
  end.

End Config.

Arguments Done {E A} v.
Arguments Invalid {E A} msg.
Arguments Failed {E A} e.
Arguments api_key {float}.
Arguments model {float}.
Arguments max_tokens {float}.
Arguments openai {float}.
Arguments analysis {float}.
Arguments file_patterns {float}.
Arguments output {float}.
Arguments review {float}.

End Configuration.

(** ** The commands (cli.py)

    [analyze] and [export] up to the report that they hand to the reporter
    for display or for writing; rendering is not modelled. *)

Module Cli.

Section Commands.
Variable float : Type.
(** The floats [0.3] (default temperature) and [0.0] (default analysis time). *)
Variable default_temperature zero : float.
Variable E : Type.
Variable getenv : string -> option string.
Variable int_of_str : string -> option Z.
Variable float_of_str : string -> option float.
Variable makedirs : string -> option E.
Variable open_read : string -> read_result.
Variable ast_parse : string -> string -> parse_result.
Variable fnmatchcase : string -> string -> bool.
Variable now : Z.
(** [list(d.keys())] for the metrics of a directory run: the paths in the
    order of their first assignment, which the finite map does not record. *)
Variable key_order : gmap string CodeMetrics -> list string.

(** How a command ends. *)
Inductive ended : Type :=
| Exit (status : Z)
| Skipped
| Reported (report : ReportGenerator.ReportData float)
| Uncaught (e : exn).

Definition load (config_exists : bool)
    (load_from_file : Configuration.Config float -> Configuration.Config float)
  : Configuration.outcome E (Configuration.Config float) :=
  Configuration.load_config float default_temperature E getenv int_of_str
    float_of_str makedirs config_exists load_from_file.

(** [{fp: [issue for issue in issues if issue.file_path == fp] for fp in files}] *)
Definition issues_by_path (issues : list CodeIssue) (files : list string)
  : PyDict.t (list CodeIssue) :=
  PyDict.comprehension
    (fun fp => List.filter (fun issue => String.eqb (file_path issue) fp) issues)
    files.

(** [analyze].  [max_files] and [ai_review] are the options [--max-files]
    and [--ai-review]; [ai_section] is the outcome of the block that asks for
    the reviews when [ai_review] is set; [isfile] is [os.path.isfile(path)],
    [entries] the listing of [path] when it is a directory. *)
Definition analyze (config_exists : bool)
    (load_from_file : Configuration.Config float -> Configuration.Config float)
    (max_files : option Z) (ai_review : bool)
    (ai_section : result (list (AIReviewer.AIReview float)))
    (isfile : bool) (path : string) (entries : list dirent) : ended :=
  match load config_exists load_from_file with
  | Configuration.Done config_obj =>
      let patterns := Configuration.file_patterns config_obj in
      let include := Configuration.include patterns in
      let exclude := Configuration.exclude patterns in
      let max_files_per_review :=
        if truthy max_files then or_zero max_files
        else Configuration.max_files_per_review (Configuration.review config_obj) in
      if isfile
      then
        match ConfigManager.should_analyze_file fnmatchcase include exclude path with
        | Raise e => Uncaught e
        | Return false => Skipped
        | Return true =>
            match CodeAnalyzer.analyze_file open_read ast_parse CodeAnalyzer.init path with
            | Raise e => Uncaught e
            | Return (issues, metrics) =>
                (* the whole block is inside [try ... except Exception] *)
                let ai_reviews :=
                  match ai_review, ai_section with
                  | true, Return reviews => reviews
                  | _, _ => []
                  end in
                Reported (ReportGenerator.generate_report now [path]
                            [(path, issues)] {[ path := metrics ]} ai_reviews zero)
            end
        end
      else
        match CodeAnalyzer.analyze_directory open_read ast_parse fnmatchcase
                CodeAnalyzer.init path entries (Some include) (Some exclude) with
        | Raise e => Uncaught e
        | Return results =>
            let files_to_review :=
              slice_to (key_order (CodeAnalyzer.metrics results)) max_files_per_review in
            match (if ai_review then ai_section else Return []) with
            | Raise e => Uncaught e
            | Return ai_reviews =>
                Reported (ReportGenerator.generate_report now files_to_review
                            (issues_by_path (CodeAnalyzer.issues results) files_to_review)
                            (CodeAnalyzer.metrics results) ai_reviews zero)
            end
        end
  | _ => Exit 1
  end.

(** [export] *)
Definition export (config_exists : bool)
    (load_from_file : Configuration.Config float -> Configuration.Config float)
    (isfile : bool) (path : string) (entries : list dirent) : ended :=
  match load config_exists load_from_file with
  | Configuration.Done config_obj =>
      let patterns := Configuration.file_patterns config_obj in
      if isfile
      then
        match CodeAnalyzer.analyze_file open_read ast_parse CodeAnalyzer.init path with
        | Raise e => Uncaught e
        | Return (issues, metrics) =>
            let files_data : PyDict.t (list CodeIssue) := [(path, issues)] in
            Reported (ReportGenerator.generate_report now (PyDict.keys files_data)
                        files_data {[ path := metrics ]} [] zero)
        end
      else
        match CodeAnalyzer.analyze_directory open_read ast_parse fnmatchcase
                CodeAnalyzer.init path entries
                (Some (Configuration.include patterns))
                (Some (Configuration.exclude patterns)) with
        | Raise e => Uncaught e
        | Return results =>
            let files_data :=
              issues_by_path (CodeAnalyzer.issues results)
                (key_order (CodeAnalyzer.metrics results)) in
            Reported (ReportGenerator.generate_report now (PyDict.keys files_data)
                        files_data (CodeAnalyzer.metrics results) [] zero)
        end
  | _ => Exit 1
  end.

End Commands.

Arguments Exit {float} status.
Arguments Skipped {float}.
Arguments Reported {float} report.
Arguments Uncaught {float} e.

End Cli.

(** ** Example environments for the commands *)

Module CliExamples.

(** An environment that sets nothing but the API key. *)
Definition getenv_key (name : string) : option string :=
  if String.eqb name "OPENAI_API_KEY" then Some "sk-example" else None.


Definition no_int (s : string) : option Z := None.
Definition no_float (s : string) : option unit := None.
Definition makedirs_ok (path : string) : option unit := None.

(** The keys of a map in the order of its listing. *)
Definition listed_keys (m : gmap string CodeMetrics) : list string :=
  (map_to_list m).*1.

Definition no_file (c : Configuration.Config unit) : Configuration.Config unit := c.

Definition export_ (isfile : bool) (path : string) (entries : list dirent)
  : Cli.ended unit :=
  Cli.export unit tt tt unit getenv_key no_int no_float makedirs_ok
    Examples.all_import_os Examples.batch_parse fnmatchcase_plain 0 listed_keys
    false no_file isfile path entries.

Definition analyze_ (max_files : option Z) (isfile : bool) (path : string)
    (entries : list dirent) : Cli.ended unit :=
  Cli.analyze unit tt tt unit getenv_key no_int no_float makedirs_ok
    Examples.all_import_os Examples.batch_parse fnmatchcase_plain 0 listed_keys
    false no_file max_files false (Return []) isfile path entries.

End CliExamples.

(** * Properties *)

(** Membership in the short lists that one rule or one handler builds. *)
Ltac the_issue H := destruct H as [<-|[]].
Ltac no_issue H := solve [destruct H].

(** ** The traversal meets every node of the tree once *)

Section TreeFacts.

Lemma sum_nat_app (l1 l2 : list nat) :
  sum_nat (l1 ++ l2) = (sum_nat l1 + sum_nat l2)%nat.
Proof. induction l1 as [|x l1 IH]; simpl; [reflexivity | rewrite IH; lia]. Qed.

Lemma weight_aliases (names : list alias) :
  sum_nat (map weight (map Alias names)) = length names.
Proof. induction names as [|a names IH]; simpl; [reflexivity | now rewrite IH]. Qed.

Lemma subtrees_aliases (names : list alias) :
  flat_map subtrees (map Alias names) = map Alias names.
Proof. induction names as [|a names IH]; simpl; [reflexivity | now rewrite IH]. Qed.

Lemma weight_children (n : node) :
  weight n = S (sum_nat (map weight (iter_child_nodes n))).
Proof.
  destruct n as [body|p names|p m names|a|p f po ar rest body tail|po ar rest
                |p [t|] body|op values|p id ctx|p value attr ctx|p v|p value|c children];
    simpl; rewrite ?weight_aliases, ?map_app, ?sum_nat_app; simpl; lia.
Qed.

Lemma subtrees_children (n : node) :
  subtrees n = n :: flat_map subtrees (iter_child_nodes n).
Proof.
  destruct n as [body|p names|p m names|a|p f po ar rest body tail|po ar rest
                |p [t|] body|op values|p id ctx|p value attr ctx|p v|p value|c children];
    simpl; rewrite ?subtrees_aliases, ?flat_map_app, ?app_nil_r; simpl;
    rewrite <- ?app_assoc; reflexivity.
Qed.

Lemma weight_pos (n : node) : (0 < weight n)%nat.
Proof. rewrite weight_children; lia. Qed.

Lemma child_lighter (n c : node) :
  In c (iter_child_nodes n) -> (weight c < weight n)%nat.
Proof.
  rewrite (weight_children n).
  induction (iter_child_nodes n) as [|x l IH]; simpl; [tauto|].
  intros [->|H]; [lia | specialize (IH H); lia].
Qed.

(** Induction on a tree through its children. *)
Lemma node_children_ind (P : node -> Prop) :
  (forall n, (forall c, In c (iter_child_nodes n) -> P c) -> P n) ->
  forall n, P n.
Proof.
  intros step n.
  remember (weight n) as w eqn:Hw.
  revert n Hw.
  induction w as [w IH] using lt_wf_ind.
  intros n ->.
  apply step.
  intros c Hc.
  apply (IH (weight c)); [now apply child_lighter | reflexivity].
Qed.

Lemma walk_queue_subtrees (fuel : nat) :
  forall todo, (sum_nat (map weight todo) <= fuel)%nat ->
               walk_queue fuel todo ≡ₚ flat_map subtrees todo.
Proof.
  induction fuel as [|fuel IH]; intros [|n rest] Hfuel; simpl in *; try reflexivity.
  - pose proof (weight_pos n); lia.
  - rewrite (subtrees_children n) at 1; simpl.
    constructor.
    rewrite IH.
    + rewrite flat_map_app. apply Permutation_app_comm.
    + rewrite map_app, sum_nat_app.
      rewrite (weight_children n) in Hfuel. lia.
Qed.

(** [ast.walk] yields exactly the nodes of the tree, each of them once. *)
Lemma walk_subtrees (tree : node) : walk tree ≡ₚ subtrees tree.
Proof.
  unfold walk.
  rewrite walk_queue_subtrees by (simpl; lia).
  simpl. now rewrite app_nil_r.
Qed.

Lemma in_walk_subtrees (tree n : node) : In n (walk tree) <-> In n (subtrees tree).
Proof.
  split; apply Permutation_in; [|symmetry]; apply walk_subtrees.
Qed.

Lemma root_in_subtrees (n : node) : In n (subtrees n).
Proof. rewrite subtrees_children. now left. Qed.

(** The nodes of a tree are closed under taking children. *)
Lemma child_in_subtrees (tree : node) :
  forall n c, In n (subtrees tree) -> In c (iter_child_nodes n) -> In c (subtrees tree).
Proof.
  induction tree as [tree IH] using node_children_ind.
  intros n c Hn Hc.
  rewrite subtrees_children in Hn |- *.
  destruct Hn as [<-|Hn].
  - right. apply in_flat_map. exists c. split; [assumption | apply root_in_subtrees].
  - right. apply in_flat_map in Hn as (k & Hk & Hn).
    apply in_flat_map. exists k. split; [assumption|].
    now apply (IH k Hk n c).
Qed.

End TreeFacts.

(** ** Cyclomatic complexity *)

Section Complexity.

Lemma complexity_step_spec (acc : Z) (n : node) :
  PythonASTAnalyzer.complexity_step acc n
  = acc + (if Spec.is_decision n then 1 else 0) + Spec.extra_operands n.
Proof.
  destruct n as [| | | | | | | | | | | |c children]; simpl; try lia.
  destruct c; simpl; lia.
Qed.

(** The accumulator loop in closed form. *)
Lemma complexity_loop (l : list node) :
  forall acc,
    fold_left PythonASTAnalyzer.complexity_step l acc
    = acc + Z.of_nat (length (List.filter Spec.is_decision l))
      + Spec.sum_Z (map Spec.extra_operands l).
Proof.
  induction l as [|n l IH]; intros acc; simpl; [lia|].
  rewrite IH, complexity_step_spec.
  destruct (Spec.is_decision n); simpl length; lia.
Qed.

Lemma sum_Z_perm (l1 l2 : list Z) : l1 ≡ₚ l2 -> Spec.sum_Z l1 = Spec.sum_Z l2.
Proof. induction 1; simpl; lia. Qed.

Lemma count_perm {A} (f : A -> bool) (l1 l2 : list A) :
  l1 ≡ₚ l2 -> length (List.filter f l1) = length (List.filter f l2).
Proof.
  induction 1 as [|x l1 l2 _ IH|x y l|l1 l2 l3 _ IH1 _ IH2]; simpl.
  - reflexivity.
  - destruct (f x); simpl; congruence.
  - destruct (f x), (f y); reflexivity.
  - congruence.
Qed.

Lemma calculated_complexity (tree : node) (path content : string) :
  cyclomatic_complexity (PythonASTAnalyzer._calculate_metrics tree path content)
  = Spec.cyclomatic tree.
Proof.
  unfold PythonASTAnalyzer._calculate_metrics, Spec.cyclomatic; simpl.
  rewrite complexity_loop.
  pose proof (walk_subtrees tree) as Hperm.
  rewrite (count_perm Spec.is_decision _ _ Hperm).
  rewrite (sum_Z_perm _ _ (Permutation_map Spec.extra_operands Hperm)).
  reflexivity.
Qed.

End Complexity.

(** C7.  For every file that is read and parsed, the [cyclomatic_complexity]
    of its metrics is 1, plus one for each node of the tree that is an [if],
    [while], [for], [async for] or exception handler, plus [N - 1] for each
    boolean expression node with [N] chained operands.  In particular the
    function with one [if], one [while] and the chain [a and b and c] gets
    complexity 5. *)
Theorem C7_cyclomatic_complexity :
  (forall open_read ast_parse path content tree,
      open_read path = ReadOk content ->
      ast_parse content path = Parsed tree ->
      exists issues m,
        PythonASTAnalyzer.analyze_file open_read ast_parse path = Return (issues, m)
        /\ cyclomatic_complexity m = Spec.cyclomatic tree)
  /\ (exists issues m,
        PythonASTAnalyzer.analyze_file
          (Examples.one_file "f.py" Examples.decisions_src)
          (Examples.parses_to Examples.decisions_src Examples.decisions_tree)
          "f.py" = Return (issues, m)
        /\ cyclomatic_complexity m = 5).
Proof.
  split.
  - intros open_read ast_parse path content tree Hread Hparse.
    unfold PythonASTAnalyzer.analyze_file.
    rewrite Hread, Hparse.
    eexists _, _. split; [reflexivity|].
    apply calculated_complexity.
  - eexists _, _. split; [vm_compute; reflexivity|].
    vm_compute. reflexivity.
Qed.

Lemma C7_cyclomatic_complexity_witness :
  exists issues m,
    PythonASTAnalyzer.analyze_file
      (Examples.one_file "f.py" Examples.decisions_src)
      (Examples.parses_to Examples.decisions_src Examples.decisions_tree)
      "f.py" = Return (issues, m)
    /\ cyclomatic_complexity m = Spec.cyclomatic Examples.decisions_tree.
Proof.
  apply (proj1 C7_cyclomatic_complexity _ _ "f.py" Examples.decisions_src);
    vm_compute; reflexivity.
Defined.

(** ** Per-file analysis always returns *)

Section FileBoundary.

Lemma split_lines_nonempty (s : string) : (1 <= length (split_lines s))%nat.
Proof.
  induction s as [|c s IH]; simpl; [lia|].
  destruct (Ascii.eqb c newline); simpl; [lia|].
  destruct (split_lines s); simpl; lia.
Qed.

Lemma index_in_range {A} (l : list A) (i : Z) :
  0 <= i < Z.of_nat (length l) -> exists x, index l i = Some x.
Proof.
  intros Hi. unfold index.
  replace (0 <=? i) with true by (symmetry; apply Z.leb_le; lia).
  replace (i <? Z.of_nat (length l)) with true by (symmetry; apply Z.ltb_lt; lia).
  simpl.
  destruct (nth_error l (Z.to_nat i)) as [x|] eqn:E; [now exists x|].
  apply nth_error_None in E. lia.
Qed.

Lemma index_beyond {A} (l : list A) (i : Z) :
  Z.of_nat (length l) <= i -> index l i = None.
Proof.
  intros Hi. unfold index.
  replace (i <? Z.of_nat (length l)) with false by (symmetry; apply Z.ltb_ge; lia).
  replace (i <? 0) with false by (symmetry; apply Z.ltb_ge; lia).
  now rewrite !andb_false_r.
Qed.

Lemma parses_to_position open_read (content : string) (tree : node) :
  Spec.position_in_text open_read (Examples.parses_to content tree).
Proof.
  intros path c ln off msg _. unfold Examples.parses_to.
  destruct (String.eqb c content); [discriminate|].
  intros [= <- _ _]. right.
  pose proof (split_lines_nonempty c). lia.
Qed.

Lemma bad_parse_position open_read : Spec.position_in_text open_read Examples.bad_parse.
Proof.
  intros path c ln off msg _ [= <- _ _]. right.
  pose proof (split_lines_nonempty c). lia.
Qed.

(** What escapes when the position is not a line of the text: the handler
    of [SyntaxError] indexes the lines itself, outside any [try]. *)
Lemma handler_index_error open_read ast_parse path content ln off msg :
  open_read path = ReadOk content ->
  ast_parse content path = SyntaxError (Some ln) off msg ->
  Z.of_nat (length (split_lines content)) < ln ->
  PythonASTAnalyzer.analyze_file open_read ast_parse path = Raise IndexError.
Proof.
  intros Hread Hparse Hln.
  unfold PythonASTAnalyzer.analyze_file. rewrite Hread, Hparse. simpl.
  replace (ln =? 0) with false by (symmetry; apply Z.eqb_neq; lia).
  simpl. rewrite index_beyond by lia. reflexivity.
Qed.

(** The handler of [SyntaxError], when the reported line is in the text. *)
Lemma syntax_error_result open_read ast_parse path content ln off msg :
  Spec.position_in_text open_read ast_parse ->
  open_read path = ReadOk content ->
  ast_parse content path = SyntaxError ln off msg ->
  exists snippet,
    PythonASTAnalyzer.analyze_file open_read ast_parse path
    = Return ([mkIssue path (or_zero ln) (or_zero off) "critical" "syntax_error"
                 ("Syntax error: " +:+ msg) None snippet],
              mkMetrics path 0 0 0 0 0 0%Q).
Proof.
  intros Hpos Hread Hparse.
  unfold PythonASTAnalyzer.analyze_file. rewrite Hread, Hparse.
  destruct ln as [ln|]; simpl; [|now exists None].
  destruct (Z.eqb_spec ln 0) as [->|Hnz]; simpl; [now exists None|].
  destruct (Hpos _ _ _ _ _ Hread Hparse) as [?|Hrange]; [contradiction|].
  destruct (index_in_range (split_lines content) (ln - 1)) as [line Hline]; [lia|].
  rewrite Hline. simpl. now exists (Some line).
Qed.

(** The four ways through [analyze_file], each ending in a pair. *)
Lemma python_analysis_returns open_read ast_parse path :
  Spec.position_in_text open_read ast_parse ->
  exists issues m,
    PythonASTAnalyzer.analyze_file open_read ast_parse path = Return (issues, m).
Proof.
  intros Hpos.
  destruct (open_read path) as [content|err] eqn:Hread.
  - destruct (ast_parse content path) as [tree|ln off msg|err] eqn:Hparse.
    + unfold PythonASTAnalyzer.analyze_file. rewrite Hread, Hparse. now eexists _, _.
    + destruct (syntax_error_result _ _ _ _ _ _ _ Hpos Hread Hparse) as [snippet ->].
      now eexists _, _.
    + unfold PythonASTAnalyzer.analyze_file. rewrite Hread, Hparse. now eexists _, _.
  - unfold PythonASTAnalyzer.analyze_file. rewrite Hread. now eexists _, _.
Qed.

End FileBoundary.

(** C1.  [PythonASTAnalyzer.analyze_file] returns an (issues, metrics) pair
    for every path, whatever the read and the parse do, given that the parser
    reports a syntax error on a line of the text it was given.  When the
    parse fails with a syntax error the pair is exactly one issue, of
    severity critical and category syntax_error, whose line and column are
    the reported ones or 0 when absent, with metrics that are zero in every
    field but the path. *)
Theorem C1_analyze_file_never_raises open_read ast_parse path :
  Spec.position_in_text open_read ast_parse ->
  (exists issues m,
      PythonASTAnalyzer.analyze_file open_read ast_parse path = Return (issues, m))
  /\ (forall content ln off msg,
         open_read path = ReadOk content ->
         ast_parse content path = SyntaxError ln off msg ->
         exists snippet,
           PythonASTAnalyzer.analyze_file open_read ast_parse path
           = Return ([mkIssue path (or_zero ln) (or_zero off) "critical" "syntax_error"
                        ("Syntax error: " +:+ msg) None snippet],
                     mkMetrics path 0 0 0 0 0 0%Q)).
Proof.
  intros Hpos. split.
  - now apply python_analysis_returns.
  - intros content ln off msg Hread Hparse.
    now apply (syntax_error_result open_read ast_parse path content).
Qed.

Lemma C1_analyze_file_never_raises_witness :
  (exists issues m,
      PythonASTAnalyzer.analyze_file
        (Examples.one_file "bad.py" Examples.bad_src) Examples.bad_parse "bad.py"
      = Return (issues, m))
  /\ (forall content ln off msg,
         Examples.one_file "bad.py" Examples.bad_src "bad.py" = ReadOk content ->
         Examples.bad_parse content "bad.py" = SyntaxError ln off msg ->
         exists snippet,
           PythonASTAnalyzer.analyze_file
             (Examples.one_file "bad.py" Examples.bad_src) Examples.bad_parse "bad.py"
           = Return ([mkIssue "bad.py" (or_zero ln) (or_zero off) "critical" "syntax_error"
                        ("Syntax error: " +:+ msg) None snippet],
                     mkMetrics "bad.py" 0 0 0 0 0 0%Q)).
Proof.
  apply (C1_analyze_file_never_raises
           (Examples.one_file "bad.py" Examples.bad_src) Examples.bad_parse "bad.py").
  apply bad_parse_position.
Defined.

(** ** The unused-import rule *)

Section UnusedImport.

Lemma existsb_false {A} (f : A -> bool) (l : list A) :
  (forall x, In x l -> f x = false) -> existsb f l = false.
Proof.
  induction l as [|x l IH]; simpl; intros H; [reflexivity|].
  rewrite (H x) by now left. apply IH. intros y Hy. apply H. now right.
Qed.

(** An import name is unused as soon as no [Name] node carries it. *)
Lemma unreferenced_is_unused (tree : node) (X : string) :
  (forall q ctx, ~ In (Name q X ctx) (subtrees tree)) ->
  PythonASTAnalyzer._is_import_used tree X = false.
Proof.
  intros Hfree. unfold PythonASTAnalyzer._is_import_used.
  apply existsb_false. intros n Hn.
  apply in_walk_subtrees in Hn.
  destruct n as [| | | | | | | |q id ctx|q value attr ctx| | |]; try reflexivity.
  - destruct (String.eqb_spec id X) as [->|]; [|reflexivity].
    exfalso. exact (Hfree _ _ Hn).
  - assert (Hv : In value (subtrees tree))
      by (apply (child_in_subtrees tree _ value Hn); now left).
    destruct value as [| | | | | | | |q' id' ctx'| | | |]; try reflexivity.
    simpl. destruct (String.eqb_spec id' X) as [->|]; [|reflexivity].
    exfalso. exact (Hfree _ _ Hv).
Qed.


End UnusedImport.



(** ** The line scanner *)

Lemma prefix_eqb (q c1 c2 : string) :
  String.eqb (q +:+ c1) (q +:+ c2) = String.eqb c1 c2.
Proof.
  induction q as [|a q IH]; simpl; [reflexivity|].
  now rewrite Ascii.eqb_refl.
Qed.

Section Scanner.

Variable issue_at : string -> Z -> string -> CodeIssue.
Variable prefix : string.
Hypothesis issue_line : forall c i l, line_number (issue_at c i l) = i.
Hypothesis issue_category : forall c i l, category (issue_at c i l) = prefix +:+ c.

Lemma hits_app {A} (f : A -> bool) (l1 l2 : list A) :
  Spec.hits f (l1 ++ l2) = (Spec.hits f l1 + Spec.hits f l2)%nat.
Proof. unfold Spec.hits. now rewrite List.filter_app, length_app. Qed.

Lemma hits_flat_map {A B} (f : B -> bool) (g : A -> list B) (l : list A) :
  Spec.hits f (flat_map g l) = sum_nat (map (fun x => Spec.hits f (g x)) l).
Proof.
  induction l as [|x l IH]; simpl; [reflexivity|].
  now rewrite hits_app, IH.
Qed.

(** The innermost loop, for one pattern of one category: among the issues
    it appends, those on line [start + k] of category [C]. *)
Lemma line_loop_hits (c C : string) (pattern : regex) (lines : list string) :
  forall (start : Z) (k : nat),
    Spec.hits (Spec.on_line_in_category (start + Z.of_nat k) (prefix +:+ C))
      (flat_map (fun il => if re_search pattern (snd il)
                           then [issue_at c (fst il) (snd il)] else [])
                (enumerate start lines))
    = match nth_error lines k with
      | Some line => if String.eqb c C && re_search pattern line then 1%nat else 0%nat
      | None => 0%nat
      end.
Proof.
  assert (Hone : forall i j l,
             Spec.hits (Spec.on_line_in_category i (prefix +:+ C)) [issue_at c j l]
             = if (j =? i) && String.eqb c C then 1%nat else 0%nat).
  { intros i j l. unfold Spec.hits, Spec.on_line_in_category. simpl.
    rewrite issue_line, issue_category, prefix_eqb.
    now destruct (j =? i), (String.eqb c C). }
  assert (Hmiss : forall (ls : list string) (start i : Z), i < start ->
             Spec.hits (Spec.on_line_in_category i (prefix +:+ C))
               (flat_map (fun il => if re_search pattern (snd il)
                                    then [issue_at c (fst il) (snd il)] else [])
                         (enumerate start ls)) = 0%nat).
  { induction ls as [|l ls IH]; intros start i Hi; simpl; [reflexivity|].
    rewrite hits_app, IH by lia.
    destruct (re_search pattern l); [|reflexivity].
    rewrite Hone. destruct (Z.eqb_spec start i); [lia|reflexivity]. }
  induction lines as [|l lines IH]; intros start k.
  - now destruct k.
  - cbn [enumerate flat_map fst snd]. rewrite hits_app. destruct k as [|k].
    + rewrite Hmiss by lia. cbn [nth_error].
      destruct (re_search pattern l); [|now rewrite andb_false_r].
      rewrite Hone. rewrite andb_true_r.
      destruct (Z.eqb_spec start (start + Z.of_nat 0)); [|lia].
      now destruct (String.eqb c C).
    + replace (start + Z.of_nat (S k)) with (start + 1 + Z.of_nat k) by lia.
      rewrite IH. cbn [nth_error].
      destruct (re_search pattern l); [|reflexivity].
      rewrite Hone.
      destruct (Z.eqb_spec start (start + 1 + Z.of_nat k)); [lia|reflexivity].
Qed.

(** The two inner loops, for one category. *)
Lemma pattern_loop_hits (c C : string) (patterns : list regex) (lines : list string)
    (k : nat) (line : string) :
  nth_error lines k = Some line ->
  Spec.hits (Spec.on_line_in_category (1 + Z.of_nat k) (prefix +:+ C))
    (flat_map (fun pattern =>
       flat_map (fun il => if re_search pattern (snd il)
                           then [issue_at c (fst il) (snd il)] else [])
                (enumerate 1 lines)) patterns)
  = if String.eqb c C
    then length (List.filter (fun p => re_search p line) patterns)
    else 0%nat.
Proof.
  intros Hline. rewrite hits_flat_map.
  induction patterns as [|p ps IH]; simpl.
  - now destruct (String.eqb c C).
  - rewrite IH, line_loop_hits, Hline.
    destruct (String.eqb c C), (re_search p line); simpl; reflexivity.
Qed.

(** The whole scan: the issues of category [C] on a line are as many as the
    patterns of [C] that match the line. *)
Lemma scan_hits (cat : catalogue) (lines : list string) (C : string)
    (patterns : list regex) (k : nat) (line : string) :
  Spec.dict_like cat ->
  In (C, patterns) cat ->
  nth_error lines k = Some line ->
  Spec.hits (Spec.on_line_in_category (1 + Z.of_nat k) (prefix +:+ C))
    (scan issue_at cat lines)
  = length (List.filter (fun p => re_search p line) patterns).
Proof.
  intros Hdict Hin Hline. unfold scan. rewrite hits_flat_map.
  induction cat as [|[c ps] cat IH]; [destruct Hin|].
  simpl. rewrite (pattern_loop_hits c C ps lines k line Hline).
  inversion Hdict as [|? ? Hfresh Hrest]; subst. clear Hdict.
  rewrite list_elem_of_In in Hfresh. simpl in Hfresh.
  destruct Hin as [[= -> ->]|Hin].
  - rewrite String.eqb_refl.
    assert (Hzero : sum_nat (map (fun x : string * list regex =>
               Spec.hits (Spec.on_line_in_category (1 + Z.of_nat k) (prefix +:+ C))
                 (flat_map (fun pattern =>
                    flat_map (fun il => if re_search pattern (snd il)
                                        then [issue_at (fst x) (fst il) (snd il)] else [])
                             (enumerate 1 lines)) (snd x))) cat) = 0%nat).
    { clear IH Hrest. simpl in Hfresh. induction cat as [|[c' ps'] cat IH']; simpl; [reflexivity|].
      rewrite (pattern_loop_hits c' C ps' lines k line Hline).
      destruct (String.eqb_spec c' C) as [->|_].
      - exfalso. apply Hfresh. now left.
      - apply IH'. intros H. apply Hfresh. now right. }
    rewrite Hzero. lia.
  - destruct (String.eqb_spec c C) as [->|_].
    + exfalso. apply Hfresh. apply in_map_iff. now exists (C, patterns).
    + now rewrite (IH Hrest Hin).
Qed.

(** Every match is reported: a pattern of the catalogue that matches a
    line yields the issue of its category at that line. *)
Lemma scan_reports (cat : catalogue) (lines : list string) (C : string)
    (patterns : list regex) (pattern : regex) (k : nat) (line : string) :
  In (C, patterns) cat ->
  In pattern patterns ->
  nth_error lines k = Some line ->
  re_search pattern line = true ->
  In (issue_at C (1 + Z.of_nat k) line) (scan issue_at cat lines).
Proof.
  intros Hcat Hpat Hline Hhit. unfold scan.
  apply in_flat_map. exists (C, patterns). split; [assumption|].
  apply in_flat_map. exists pattern. split; [assumption|].
  apply in_flat_map. exists (1 + Z.of_nat k, line). split.
  - clear Hhit. generalize 1. revert k Hline.
    induction lines as [|l ls IH]; intros [|k] Hline start; simpl in *;
      try discriminate.
    + injection Hline as ->. left. f_equal. lia.
    + right. replace (start + Z.of_nat (S k)) with (start + 1 + Z.of_nat k) by lia.
      now apply IH.
  - simpl. rewrite Hhit. now left.
Qed.

(** Nothing else is reported: every issue of a scan is the issue of a
    category of the catalogue. *)
Lemma scan_sound (cat : catalogue) (lines : list string) (x : CodeIssue) :
  In x (scan issue_at cat lines) ->
  exists C patterns i line, In (C, patterns) cat /\ x = issue_at C i line.
Proof.
  unfold scan. intros Hin.
  apply in_flat_map in Hin as ([C patterns] & Hcat & Hin).
  apply in_flat_map in Hin as (pattern & _ & Hin).
  apply in_flat_map in Hin as ([i line] & _ & Hin).
  simpl in Hin. destruct (re_search pattern line); [|destruct Hin].
  the_issue Hin. now exists C, patterns, i, line.
Qed.

End Scanner.

Lemma security_dict_like : Spec.dict_like (SecurityAnalyzer.security_patterns SecurityAnalyzer.init).
Proof. apply (bool_decide_unpack _). vm_compute. exact I. Qed.

Lemma bug_dict_like : Spec.dict_like (AdvancedBugDetector.bug_patterns AdvancedBugDetector.init).
Proof. apply (bool_decide_unpack _). vm_compute. exact I. Qed.

(** C3 (as the code has it).  For every line and every category of a
    scanner, the issues of that category on that line are as many as the
    patterns of the category that match the line: one issue per matching
    pattern, not one per category.  A line can also carry issues of several
    categories. *)
Theorem C3_one_issue_per_matching_pattern :
  (forall (self : SecurityAnalyzer.t) path content C patterns k line,
      Spec.dict_like (SecurityAnalyzer.security_patterns self) ->
      In (C, patterns) (SecurityAnalyzer.security_patterns self) ->
      nth_error (split_lines content) k = Some line ->
      Spec.hits (Spec.on_line_in_category (1 + Z.of_nat k) ("security_" +:+ C))
        (SecurityAnalyzer.scan_content self path content)
      = length (List.filter (fun p => re_search p line) patterns))
  /\ (forall (self : AdvancedBugDetector.t) path content C patterns k line,
         Spec.dict_like (AdvancedBugDetector.bug_patterns self) ->
         In (C, patterns) (AdvancedBugDetector.bug_patterns self) ->
         nth_error (split_lines content) k = Some line ->
         Spec.hits (Spec.on_line_in_category (1 + Z.of_nat k) ("bug_" +:+ C))
           (AdvancedBugDetector.detect_bugs self path content)
         = length (List.filter (fun p => re_search p line) patterns))
  /\ map (fun x => (line_number x, category x))
       (SecurityAnalyzer.scan_content SecurityAnalyzer.init "a.py" Examples.mixed_src)
     = [(1, "security_command_injection"); (1, "security_hardcoded_secrets")].
Proof.
  split; [|split].
  - intros self path content C patterns k line Hdict Hin Hline.
    now apply (scan_hits (SecurityAnalyzer.issue_at path) "security_").
  - intros self path content C patterns k line Hdict Hin Hline.
    now apply (scan_hits (AdvancedBugDetector.issue_at path) "bug_").
  - vm_compute. reflexivity.
Qed.

Lemma C3_one_issue_per_matching_pattern_witness :
  Spec.hits (Spec.on_line_in_category 1 "security_command_injection")
    (SecurityAnalyzer.scan_content SecurityAnalyzer.init "a.py" Examples.twice_src)
  = 2%nat.
Proof.
  let ps := eval cbv in
      (snd (nth 1 (SecurityAnalyzer.security_patterns SecurityAnalyzer.init) ("", []))) in
  exact (proj1 C3_one_issue_per_matching_pattern SecurityAnalyzer.init "a.py"
           Examples.twice_src "command_injection" ps 0%nat Examples.twice_src
           security_dict_like (or_intror (or_introl eq_refl)) eq_refl).
Defined.

(** C3, as stated, fails: on the line [os.system(eval(x))] two patterns of
    the category command_injection match, and the scan emits two issues of
    that category for that line. *)
Lemma C3_counterexample :
  ~ (Spec.hits (Spec.on_line_in_category 1 "security_command_injection")
       (SecurityAnalyzer.scan_content SecurityAnalyzer.init "a.py" Examples.twice_src)
     <= 1)%nat.
Proof. vm_compute. lia. Qed.

(** ** What [CodeAnalyzer.analyze_file] scans *)

Section Catalogues.

(** The structural rules file their issues under the path they were given,
    in one of five categories. *)
Lemma node_issue_category (tree : node) (path : string) (n : node) (i : CodeIssue) :
  In i (PythonASTAnalyzer.node_issues tree path n) ->
  file_path i = path
  /\ In (category i)
       ["unused_import"; "code_quality"; "best_practices"; "error_handling";
        "documentation"].
Proof.
  intros Hin.
  unfold PythonASTAnalyzer.node_issues in Hin.
  destruct n as [|p names| | |p f po ar rest body tail| |p [t|] body| | | |p [s|]|p value|];
    try no_issue Hin.
  - apply in_flat_map in Hin as (a & _ & Hi).
    destruct (PythonASTAnalyzer._is_import_used tree (Ast.name a)); [no_issue Hi|].
    the_issue Hi. simpl. tauto.
  - apply in_app_or in Hin as [Hin|Hin].
    + destruct (50 <? length body)%nat; [|no_issue Hin].
      the_issue Hin. simpl. tauto.
    + destruct (7 <? length ar)%nat; [|no_issue Hin].
      the_issue Hin. simpl. tauto.
  - the_issue Hin. simpl. tauto.
  - destruct (_ && _); [|no_issue Hin].
    the_issue Hin. simpl. tauto.
  - destruct value as [| | | | | | | | | |q [s|]| |]; try no_issue Hin.
    destruct (startswith_any _ _); [|no_issue Hin].
    the_issue Hin. simpl. tauto.
Qed.

(** Every issue of the tree analysis is filed under the path of the file
    and is in no [bug_] category, whatever the read and the parse gave. *)
Lemma python_issue_facts open_read ast_parse path issues m (i : CodeIssue) :
  PythonASTAnalyzer.analyze_file open_read ast_parse path = Return (issues, m) ->
  In i issues ->
  file_path i = path /\ startswith "bug_" (category i) = false.
Proof.
  unfold PythonASTAnalyzer.analyze_file.
  destruct (open_read path) as [content|err].
  - destruct (ast_parse content path) as [tree|ln off msg|err].
    + intros [= <- _] Hin.
      apply in_flat_map in Hin as (n & _ & Hin).
      apply node_issue_category in Hin as [Hpath Hcat]. split; [exact Hpath|].
      simpl in Hcat.
      destruct Hcat as [<-|[<-|[<-|[<-|[<-|[]]]]]]; reflexivity.
    + destruct (truthy ln); simpl.
      * destruct (index _ _); simpl; [|discriminate].
        intros [= <- _] [<-|[]]. now split.
      * intros [= <- _] [<-|[]]. now split.
    + intros [= <- _] [<-|[]]. now split.
  - intros [= <- _] [<-|[]]. now split.
Qed.

(** So is every issue of the security analysis. *)
Lemma security_issue_facts open_read (sa : SecurityAnalyzer.t) path (i : CodeIssue) :
  In i (SecurityAnalyzer.analyze_file open_read sa path) ->
  file_path i = path /\ startswith "bug_" (category i) = false.
Proof.
  unfold SecurityAnalyzer.analyze_file, SecurityAnalyzer.scan_content.
  destruct (open_read path) as [content|err].
  - intros Hin. apply scan_sound in Hin as (C & patterns & k & line & _ & ->).
    now split.
  - intros [<-|[]]. now split.
Qed.

End Catalogues.

(** C2 (as the code has it).  For a readable [.py] file, the pattern scan
    of [CodeAnalyzer.analyze_file] is the scan of the security catalogue
    alone, appended to the issues of the tree analysis, whatever the parse
    gave: every line matching a security pattern yields an issue of category
    [security_...] at that line, and no issue of the result is in a [bug_]
    category.  The bug catalogue is evaluated by
    [AdvancedBugDetector.detect_bugs], which [CodeAnalyzer] does not call;
    there every line matching a bug pattern yields an issue of category
    [bug_...] at that line. *)
Theorem C2_security_catalogue_only open_read ast_parse self path content :
  Spec.position_in_text open_read ast_parse ->
  lower (suffix (parse path)) = ".py" ->
  open_read path = ReadOk content ->
  exists ast_issues m,
    PythonASTAnalyzer.analyze_file open_read ast_parse path = Return (ast_issues, m)
    /\ CodeAnalyzer.analyze_file open_read ast_parse self path
       = Return (ast_issues
                   ++ SecurityAnalyzer.scan_content
                        (CodeAnalyzer.security_analyzer self) path content, m)
    /\ (forall C patterns pattern k line,
           In (C, patterns)
              (SecurityAnalyzer.security_patterns (CodeAnalyzer.security_analyzer self)) ->
           In pattern patterns ->
           nth_error (split_lines content) k = Some line ->
           re_search pattern line = true ->
           exists x,
             In x (ast_issues
                     ++ SecurityAnalyzer.scan_content
                          (CodeAnalyzer.security_analyzer self) path content)
             /\ line_number x = 1 + Z.of_nat k
             /\ category x = "security_" +:+ C
             /\ code_snippet x = Some (strip line))
    /\ (forall x,
           In x (ast_issues
                   ++ SecurityAnalyzer.scan_content
                        (CodeAnalyzer.security_analyzer self) path content) ->
           startswith "bug_" (category x) = false)
    /\ (forall (detector : AdvancedBugDetector.t) C patterns pattern k line,
           In (C, patterns) (AdvancedBugDetector.bug_patterns detector) ->
           In pattern patterns ->
           nth_error (split_lines content) k = Some line ->
           re_search pattern line = true ->
           exists x,
             In x (AdvancedBugDetector.detect_bugs detector path content)
             /\ line_number x = 1 + Z.of_nat k
             /\ category x = "bug_" +:+ C
             /\ code_snippet x = Some (strip line)).
Proof.
  intros Hpos Hext Hread.
  destruct (python_analysis_returns open_read ast_parse path Hpos)
    as (ast_issues & m & Hast).
  exists ast_issues, m.
  split; [exact Hast|].
  split.
  { unfold CodeAnalyzer.analyze_file. rewrite Hext. simpl.
    rewrite Hast. simpl.
    unfold SecurityAnalyzer.analyze_file. now rewrite Hread. }
  split.
  { intros C patterns pattern k line Hcat Hpat Hline Hhit.
    exists (SecurityAnalyzer.issue_at path C (1 + Z.of_nat k) line).
    split; [|now repeat split].
    apply in_or_app. right.
    now apply (scan_reports _ _ _ C patterns pattern). }
  split.
  { intros x Hx. apply in_app_or in Hx as [Hx|Hx].
    - exact (proj2 (python_issue_facts _ _ _ _ _ x Hast Hx)).
    - apply scan_sound in Hx as (C & patterns & i & line & _ & ->).
      reflexivity. }
  intros detector C patterns pattern k line Hcat Hpat Hline Hhit.
  exists (AdvancedBugDetector.issue_at path C (1 + Z.of_nat k) line).
  split; [|now repeat split].
  now apply (scan_reports _ _ _ C patterns pattern).
Qed.

Lemma C2_security_catalogue_only_witness :
  exists ast_issues m,
    CodeAnalyzer.analyze_file
      (Examples.one_file "loop.py" Examples.loop_src)
      (Examples.parses_to Examples.loop_src Examples.loop_tree)
      CodeAnalyzer.init "loop.py"
    = Return (ast_issues
                ++ SecurityAnalyzer.scan_content SecurityAnalyzer.init "loop.py"
                     Examples.loop_src, m).
Proof.
  destruct (C2_security_catalogue_only
              (Examples.one_file "loop.py" Examples.loop_src)
              (Examples.parses_to Examples.loop_src Examples.loop_tree)
              CodeAnalyzer.init "loop.py" Examples.loop_src
              (parses_to_position _ _ _) eq_refl eq_refl)
    as (ast_issues & m & _ & Hrun & _).
  exists ast_issues, m. exact Hrun.
Defined.

(** C2, as stated, fails: the only line of [while True: pass] matches a
    pattern of the bug category infinite_loop, the file is read and parsed,
    and [CodeAnalyzer.analyze_file] returns no issue at all for it. *)
Lemma C2_counterexample :
  (exists patterns pattern,
      In ("infinite_loop", patterns) (AdvancedBugDetector.bug_patterns AdvancedBugDetector.init)
      /\ In pattern patterns
      /\ nth_error (split_lines Examples.loop_src) 0 = Some Examples.loop_src
      /\ re_search pattern Examples.loop_src = true)
  /\ (exists m,
         CodeAnalyzer.analyze_file
           (Examples.one_file "loop.py" Examples.loop_src)
           (Examples.parses_to Examples.loop_src Examples.loop_tree)
           CodeAnalyzer.init "loop.py" = Return ([], m))
  /\ map category
       (AdvancedBugDetector.detect_bugs AdvancedBugDetector.init "loop.py" Examples.loop_src)
     = ["bug_infinite_loop"].
Proof.
  split; [|split].
  - eexists _, _. split; [right; right; left; reflexivity|].
    split; [left; reflexivity|].
    split; vm_compute; reflexivity.
  - eexists. vm_compute. reflexivity.
  - vm_compute. reflexivity.
Qed.

(** The scan does not depend on the parse: a file that does not parse still
    gets the issues of its matching lines, after the syntax error. *)
Example scan_survives_syntax_error :
  exists m,
    CodeAnalyzer.analyze_file
      (Examples.one_file "bad.py" "def f(: eval(x)") Examples.bad_parse
      CodeAnalyzer.init "bad.py"
    = Return ([ mkIssue "bad.py" 1 7 "critical" "syntax_error"
                  "Syntax error: invalid syntax" None (Some "def f(: eval(x)");
                mkIssue "bad.py" 1 0 "critical" "security_command_injection"
                  "Potential command injection vulnerability"
                  (Some "Use subprocess with shell=False and validate input")
                  (Some "def f(: eval(x)") ], m).
Proof. eexists. vm_compute. reflexivity. Qed.

(** ** Determinism of the scans *)

(** C9.  A scan depends on the catalogue, the path and the text of the
    file, and on nothing else.  The catalogue is a field that no method
    assigns, so two scans by one analyzer use the same one: when the file
    reads the same both times, [SecurityAnalyzer.analyze_file] returns the
    same issues in the same order, namely the enumeration of the catalogue
    over the lines of the text.  [detect_bugs] is that enumeration of its own
    catalogue over the text it is handed. *)
Theorem C9_scans_are_functions_of_path_and_content :
  (forall (self : SecurityAnalyzer.t) open_read1 open_read2 path,
      open_read1 path = open_read2 path ->
      SecurityAnalyzer.analyze_file open_read1 self path
      = SecurityAnalyzer.analyze_file open_read2 self path)
  /\ (forall (self : SecurityAnalyzer.t) open_read path content,
         open_read path = ReadOk content ->
         SecurityAnalyzer.analyze_file open_read self path
         = scan (SecurityAnalyzer.issue_at path)
             (SecurityAnalyzer.security_patterns self) (split_lines content))
  /\ (forall (self : AdvancedBugDetector.t) path content,
         AdvancedBugDetector.detect_bugs self path content
         = scan (AdvancedBugDetector.issue_at path)
             (AdvancedBugDetector.bug_patterns self) (split_lines content)).
Proof.
  split; [|split].
  - intros self open_read1 open_read2 path Hsame.
    unfold SecurityAnalyzer.analyze_file. now rewrite Hsame.
  - intros self open_read path content Hread.
    unfold SecurityAnalyzer.analyze_file. now rewrite Hread.
  - reflexivity.
Qed.

Lemma C9_scans_are_functions_of_path_and_content_witness :
  SecurityAnalyzer.analyze_file
    (Examples.one_file "a.py" Examples.twice_src) SecurityAnalyzer.init "a.py"
  = SecurityAnalyzer.analyze_file
      (fun _ => ReadOk Examples.twice_src) SecurityAnalyzer.init "a.py".
Proof.
  apply (proj1 C9_scans_are_functions_of_path_and_content).
  reflexivity.
Defined.

(** ** The directory run *)

Section DirectoryRun.

Variable open_read : string -> read_result.
Variable ast_parse : string -> string -> parse_result.
Variable fnmatchcase : string -> string -> bool.
Variable self : CodeAnalyzer.t.

Hypothesis parser_position : Spec.position_in_text open_read ast_parse.

Lemma path_match_returns (p : PurePath) (pattern : string) :
  parts (parse pattern) <> [] ->
  exists hit, path_match fnmatchcase p pattern = Return hit.
Proof.
  intros Hne. unfold path_match.
  destruct (parts (parse pattern)) as [|x pat_tail] eqn:E; [contradiction|].
  destruct (nonempty (root (parse pattern)) && _); [now eexists|].
  destruct (nonempty (root (parse pattern))).
  - destruct (negb _); now eexists.
  - destruct (_ <? _)%nat; now eexists.
Qed.

(** With patterns that [match] accepts, [any] is the plain disjunction. *)
Lemma any_match_returns (patterns : list string) (path : string) :
  Spec.nonempty_patterns patterns ->
  any_match fnmatchcase (parse path) patterns
  = Return (Spec.matches_some fnmatchcase patterns path).
Proof.
  induction patterns as [|pattern rest IH]; intros Hne; simpl; [reflexivity|].
  destruct (path_match_returns (parse path) pattern) as [hit Hhit].
  { apply Hne. now left. }
  rewrite Hhit. simpl. destruct hit; [reflexivity|].
  apply IH. intros q Hq. apply Hne. now right.
Qed.

Lemma analyze_file_returns (path : string) :
  CodeAnalyzer.analyze_file open_read ast_parse self path
  = Return (Spec.result_of open_read ast_parse self path).
Proof.
  unfold Spec.result_of.
  destruct (CodeAnalyzer.analyze_file open_read ast_parse self path) as [r|e] eqn:E;
    [reflexivity|].
  exfalso. unfold CodeAnalyzer.analyze_file in E.
  destruct (String.eqb _ _); [|discriminate].
  destruct (python_analysis_returns open_read ast_parse path parser_position)
    as (issues & m & Hast).
  rewrite Hast in E. discriminate.
Qed.

Variable include_patterns : list string.
Hypothesis include_nonempty : Spec.nonempty_patterns include_patterns.

Let result_of := Spec.result_of open_read ast_parse self.
Let selected := Spec.matches_some fnmatchcase include_patterns.

(** The inner loop over the files of one directory. *)
Lemma files_loop (root : string) (files : list string) :
  forall a,
    CodeAnalyzer.for_each
      (CodeAnalyzer.visit_file open_read ast_parse fnmatchcase self include_patterns root)
      files a
    = Return (Spec.collect result_of
                (List.filter selected (map (os_path_join root) files)) a).
Proof.
  induction files as [|file files IH]; intros a; simpl; [reflexivity|].
  unfold CodeAnalyzer.visit_file at 1.
  rewrite (any_match_returns include_patterns _ include_nonempty).
  fold (selected (os_path_join root file)).
  destruct (selected (os_path_join root file)); simpl.
  - rewrite analyze_file_returns. simpl. apply IH.
  - apply IH.
Qed.

(** The outer loop over the directories that the walk yields. *)
Lemma directories_loop (dirs : list (string * list string)) :
  forall a,
    CodeAnalyzer.for_each
      (fun a rf =>
         CodeAnalyzer.for_each
           (CodeAnalyzer.visit_file open_read ast_parse fnmatchcase self
              include_patterns (fst rf))
           (snd rf) a)
      dirs a
    = Return (Spec.collect result_of
                (List.filter selected
                   (flat_map (fun rf => map (os_path_join (fst rf)) (snd rf)) dirs)) a).
Proof.
  induction dirs as [|[root files] dirs IH]; intros a; simpl; [reflexivity|].
  rewrite files_loop. simpl. rewrite IH.
  unfold Spec.collect. now rewrite List.filter_app, fold_left_app.
Qed.

End DirectoryRun.

Section Collected.

Variable result_of : string -> list CodeIssue * CodeMetrics.

Lemma collect_issues (paths : list string) :
  forall a, fst (Spec.collect result_of paths a)
            = fst a ++ flat_map (fun path => fst (result_of path)) paths.
Proof.
  induction paths as [|q paths IH]; intros a; simpl; [now rewrite app_nil_r|].
  unfold Spec.collect in *. simpl. rewrite IH. simpl. now rewrite app_assoc.
Qed.

(** A path that was collected maps to the metrics of its analysis. *)
Lemma collect_lookup (paths : list string) :
  forall (a : CodeAnalyzer.acc) (path : string),
    In path paths \/ snd a !! path = Some (snd (result_of path)) ->
    snd (Spec.collect result_of paths a) !! path = Some (snd (result_of path)).
Proof.
  induction paths as [|q paths IH]; intros a path H.
  - destruct H as [[]|H]. exact H.
  - unfold Spec.collect in *. simpl. apply IH. simpl.
    destruct (decide (q = path)) as [->|Hne].
    + right. apply lookup_insert_eq.
    + destruct H as [[?|H]|H]; [contradiction|now left|].
      right. now rewrite lookup_insert_ne.
Qed.

(** A path that was not collected is as it was before. *)
Lemma collect_lookup_other (paths : list string) :
  forall (a : CodeAnalyzer.acc) (path : string),
    ~ In path paths ->
    snd (Spec.collect result_of paths a) !! path = snd a !! path.
Proof.
  induction paths as [|q paths IH]; intros a path H; [reflexivity|].
  unfold Spec.collect in *. simpl. rewrite IH by (intros ?; apply H; now right).
  simpl. apply lookup_insert_ne. intros ->. apply H. now left.
Qed.

(** Distinct new paths: one entry each. *)
Lemma collect_size (paths : list string) :
  forall a : CodeAnalyzer.acc,
    NoDup paths ->
    (forall path, In path paths -> snd a !! path = None) ->
    size (snd (Spec.collect result_of paths a)) = (size (snd a) + length paths)%nat.
Proof.
  induction paths as [|q paths IH]; intros a Hnd Hnew; simpl; [lia|].
  inversion Hnd as [|? ? Hq Hrest]; subst.
  rewrite list_elem_of_In in Hq.
  unfold Spec.collect in *. simpl. rewrite IH; [|assumption|].
  - simpl. rewrite map_size_insert_None by (apply Hnew; now left). lia.
  - intros path Hpath. simpl. rewrite lookup_insert_ne.
    + apply Hnew. now right.
    + intros ->. contradiction.
Qed.

(** When every analysis files its issues under its own path, the issues
    of one path in the collection are the issues of that one analysis. *)
Lemma issues_of_collected (paths : list string) (path : string) :
  (forall q i, In i (fst (result_of q)) -> file_path i = q) ->
  NoDup paths ->
  In path paths ->
  Spec.issues_of path (flat_map (fun q => fst (result_of q)) paths)
  = fst (result_of path).
Proof.
  intros Hown.
  assert (Hall : forall q, Spec.issues_of q (fst (result_of q)) = fst (result_of q)).
  { intros q. unfold Spec.issues_of.
    assert (H : forall i, In i (fst (result_of q)) -> file_path i = q) by apply Hown.
    induction (fst (result_of q)) as [|i l IH]; simpl; [reflexivity|].
    rewrite (H i) by now left. rewrite String.eqb_refl.
    f_equal. apply IH. intros j Hj. apply H. now right. }
  assert (Hnone : forall q, q <> path -> Spec.issues_of path (fst (result_of q)) = []).
  { intros q Hne. unfold Spec.issues_of.
    assert (H : forall i, In i (fst (result_of q)) -> file_path i = q) by apply Hown.
    induction (fst (result_of q)) as [|i l IH]; simpl; [reflexivity|].
    rewrite (H i) by now left.
    destruct (String.eqb_spec q path); [contradiction|].
    apply IH. intros j Hj. apply H. now right. }
  assert (Hrest : forall l, ~ In path l ->
             Spec.issues_of path (flat_map (fun q => fst (result_of q)) l) = []).
  { induction l as [|q l IH]; intros Hout; simpl; [reflexivity|].
    unfold Spec.issues_of in *. rewrite List.filter_app.
    rewrite Hnone by (intros ->; apply Hout; now left).
    apply IH. intros ?. apply Hout. now right. }
  induction paths as [|q paths IH]; intros Hnd Hin; [destruct Hin|].
  inversion Hnd as [|? ? Hq Hnd']; subst. rewrite list_elem_of_In in Hq.
  simpl. unfold Spec.issues_of in *. rewrite List.filter_app.
  destruct Hin as [->|Hin].
  - rewrite Hall, Hrest by assumption. apply app_nil_r.
  - rewrite Hnone by (intros ->; contradiction).
    now apply IH.
Qed.

End Collected.

Section Report.

Variable open_read : string -> read_result.
Variable ast_parse : string -> string -> parse_result.
Variable fnmatchcase : string -> string -> bool.
Variable self : CodeAnalyzer.t.

(** Every issue of one file's analysis is filed under that file's path. *)
Lemma result_issue_path (path : string) (i : CodeIssue) :
  In i (fst (Spec.result_of open_read ast_parse self path)) -> file_path i = path.
Proof.
  unfold Spec.result_of, CodeAnalyzer.analyze_file.
  destruct (String.eqb _ _); [|now intros []].
  destruct (PythonASTAnalyzer.analyze_file open_read ast_parse path)
    as [[issues m]|e] eqn:Hast; simpl; [|now intros []].
  intros Hin. apply in_app_or in Hin as [Hin|Hin].
  - exact (proj1 (python_issue_facts _ _ _ _ _ i Hast Hin)).
  - exact (proj1 (security_issue_facts _ _ _ i Hin)).
Qed.

(** The report of a run in which no pattern is empty and the parser keeps
    to the text: the collection over the selected files. *)
Lemma directory_report (directory_path : string) (entries : list dirent)
    (include_patterns exclude_patterns : option (list string)) :
  Spec.position_in_text open_read ast_parse ->
  Spec.nonempty_patterns
    (CodeAnalyzer.pattern_list include_patterns CodeAnalyzer.default_include) ->
  let a := Spec.collect (Spec.result_of open_read ast_parse self)
             (Spec.batch fnmatchcase include_patterns exclude_patterns
                directory_path entries)
             ([], ∅) in
  CodeAnalyzer.analyze_directory open_read ast_parse fnmatchcase self
    directory_path entries include_patterns exclude_patterns
  = Return (CodeAnalyzer.mkReport (fst a) (snd a)
              (Z.of_nat (size (snd a))) (Z.of_nat (length (fst a)))).
Proof.
  intros Hpos Hne a. unfold CodeAnalyzer.analyze_directory.
  rewrite (directories_loop open_read ast_parse fnmatchcase self Hpos _ Hne).
  reflexivity.
Qed.

End Report.

(** C4 (as the code has it).  In a batch of N distinct selected files of
    which one [.py] file cannot be read, the run returns; it files exactly
    two issues under that file, both of severity high and category
    analysis_error, one from the tree analysis and one from the security
    scan, each of which opens the file itself; the file's metrics are zero;
    every other file of the batch has the issues and the metrics of its own
    analysis; and [total_files] is N. *)
Theorem C4_unreadable_file_in_a_batch open_read ast_parse fnmatchcase self
    directory_path entries include_patterns exclude_patterns bad msg :
  Spec.position_in_text open_read ast_parse ->
  Spec.nonempty_patterns
    (CodeAnalyzer.pattern_list include_patterns CodeAnalyzer.default_include) ->
  NoDup (Spec.batch fnmatchcase include_patterns exclude_patterns directory_path entries) ->
  In bad (Spec.batch fnmatchcase include_patterns exclude_patterns directory_path entries) ->
  lower (suffix (parse bad)) = ".py" ->
  open_read bad = ReadError msg ->
  exists report,
    CodeAnalyzer.analyze_directory open_read ast_parse fnmatchcase self
      directory_path entries include_patterns exclude_patterns = Return report
    /\ Spec.issues_of bad (CodeAnalyzer.issues report)
       = [ mkIssue bad 0 0 "high" "analysis_error" ("Analysis error: " +:+ msg) None None;
           mkIssue bad 0 0 "high" "analysis_error"
             ("Security analysis error: " +:+ msg) None None ]
    /\ CodeAnalyzer.metrics report !! bad = Some (mkMetrics bad 0 0 0 0 0 0%Q)
    /\ (forall q,
           In q (Spec.batch fnmatchcase include_patterns exclude_patterns
                   directory_path entries) ->
           q <> bad ->
           exists r,
             CodeAnalyzer.analyze_file open_read ast_parse self q = Return r
             /\ Spec.issues_of q (CodeAnalyzer.issues report) = fst r
             /\ CodeAnalyzer.metrics report !! q = Some (snd r))
    /\ CodeAnalyzer.total_files report
       = Z.of_nat (length (Spec.batch fnmatchcase include_patterns exclude_patterns
                             directory_path entries)).
Proof.
  intros Hpos Hne Hnd Hbad Hext Hread.
  eexists. split.
  { apply (directory_report open_read ast_parse fnmatchcase self); assumption. }
  cbn [CodeAnalyzer.issues CodeAnalyzer.metrics CodeAnalyzer.total_files].
  set (R := Spec.result_of open_read ast_parse self).
  set (B := Spec.batch fnmatchcase include_patterns exclude_patterns directory_path entries)
    in *.
  assert (Hbadres : R bad
            = ([ mkIssue bad 0 0 "high" "analysis_error" ("Analysis error: " +:+ msg)
                   None None;
                 mkIssue bad 0 0 "high" "analysis_error"
                   ("Security analysis error: " +:+ msg) None None ],
               mkMetrics bad 0 0 0 0 0 0%Q)).
  { unfold R, Spec.result_of, CodeAnalyzer.analyze_file. rewrite Hext. simpl.
    unfold PythonASTAnalyzer.analyze_file, SecurityAnalyzer.analyze_file.
    rewrite Hread. reflexivity. }
  assert (Hown : forall q i, In i (fst (R q)) -> file_path i = q)
    by (intros q i; apply result_issue_path).
  rewrite collect_issues. simpl.
  split; [|split; [|split]].
  - rewrite (issues_of_collected R B bad Hown Hnd Hbad). now rewrite Hbadres.
  - rewrite (collect_lookup R B ([], ∅) bad) by now left. now rewrite Hbadres.
  - intros q Hq _. exists (R q). split; [|split].
    + apply (analyze_file_returns open_read ast_parse self Hpos).
    + apply (issues_of_collected R B q Hown Hnd Hq).
    + apply (collect_lookup R B ([], ∅) q). now left.
  - rewrite (collect_size R B ([], ∅) Hnd) by (intros; apply lookup_empty).
    simpl. rewrite map_size_empty. reflexivity.
Qed.

Lemma nonempty_patterns_check (patterns : list string) :
  forallb (fun pattern => match parts (parse pattern) with [] => false | _ => true end)
          patterns = true ->
  Spec.nonempty_patterns patterns.
Proof.
  intros Hall pattern Hin Hempty.
  rewrite forallb_forall in Hall. specialize (Hall pattern Hin).
  now rewrite Hempty in Hall.
Qed.

Lemma C4_unreadable_file_in_a_batch_witness :
  exists report,
    CodeAnalyzer.analyze_directory Examples.batch_read Examples.batch_parse
      fnmatchcase_plain CodeAnalyzer.init "proj" Examples.batch_entries
      (Some ["*.py"]) None = Return report
    /\ length (Spec.issues_of "proj/b.py" (CodeAnalyzer.issues report)) = 2%nat
    /\ CodeAnalyzer.metrics report !! "proj/b.py" = Some (mkMetrics "proj/b.py" 0 0 0 0 0 0%Q)
    /\ CodeAnalyzer.total_files report = 2.
Proof.
  destruct (C4_unreadable_file_in_a_batch
              Examples.batch_read Examples.batch_parse fnmatchcase_plain
              CodeAnalyzer.init "proj" Examples.batch_entries (Some ["*.py"]) None
              "proj/b.py" "Permission denied")
    as (report & Hrun & Hissues & Hmetrics & _ & Htotal).
  - apply parses_to_position.
  - apply nonempty_patterns_check. reflexivity.
  - apply (bool_decide_unpack _). vm_compute. exact I.
  - vm_compute. right. left. reflexivity.
  - reflexivity.
  - reflexivity.
  - exists report. split; [exact Hrun|].
    split; [now rewrite Hissues|].
    split; [exact Hmetrics|exact Htotal].
Defined.

(** C4, as stated, fails: in the batch [a.py], [b.py] with [b.py]
    unreadable, the run files two issues under [b.py], not one. *)
Lemma C4_counterexample :
  exists report,
    CodeAnalyzer.analyze_directory Examples.batch_read Examples.batch_parse
      fnmatchcase_plain CodeAnalyzer.init "proj" Examples.batch_entries
      (Some ["*.py"]) None = Return report
    /\ CodeAnalyzer.total_files report = 2
    /\ map (fun i => (severity i, category i, message i))
         (Spec.issues_of "proj/b.py" (CodeAnalyzer.issues report))
       = [ ("high", "analysis_error", "Analysis error: Permission denied");
           ("high", "analysis_error", "Security analysis error: Permission denied") ]
    /\ ~ (exists i, Spec.issues_of "proj/b.py" (CodeAnalyzer.issues report) = [i]).
Proof.
  eexists. split; [vm_compute; reflexivity|].
  split; [vm_compute; reflexivity|].
  split; [vm_compute; reflexivity|].
  intros [i Hi]. vm_compute in Hi. discriminate Hi.
Qed.

(** ** Include and exclude globs *)

(** In a run that returns, a file that the walk reaches is analyzed exactly
    when its path matches an include glob; the exclude globs are not
    consulted for files. *)
Lemma analyzed_iff_included open_read ast_parse fnmatchcase self
    directory_path entries include_patterns exclude_patterns path :
  Spec.position_in_text open_read ast_parse ->
  Spec.nonempty_patterns
    (CodeAnalyzer.pattern_list include_patterns CodeAnalyzer.default_include) ->
  In path (Spec.visited_files
             (CodeAnalyzer.pattern_list exclude_patterns CodeAnalyzer.default_exclude)
             directory_path entries) ->
  exists report,
    CodeAnalyzer.analyze_directory open_read ast_parse fnmatchcase self
      directory_path entries include_patterns exclude_patterns = Return report
    /\ (is_Some (CodeAnalyzer.metrics report !! path)
        <-> Spec.matches_some fnmatchcase
              (CodeAnalyzer.pattern_list include_patterns CodeAnalyzer.default_include)
              path = true).
Proof.
  intros Hpos Hne Hvisited.
  eexists. split.
  { apply (directory_report open_read ast_parse fnmatchcase self); assumption. }
  cbn [CodeAnalyzer.metrics].
  set (R := Spec.result_of open_read ast_parse self).
  set (B := Spec.batch fnmatchcase include_patterns exclude_patterns directory_path entries).
  split.
  - intros Hsome.
    destruct (in_dec string_dec path B) as [Hin|Hout].
    + now apply List.filter_In in Hin as [_ Hin].
    + rewrite (collect_lookup_other R B ([], ∅) path Hout) in Hsome.
      simpl in Hsome. rewrite lookup_empty in Hsome. now destruct Hsome.
  - intros Hmatch.
    rewrite (collect_lookup R B ([], ∅) path); [now eexists|].
    left. apply List.filter_In. now split.
Qed.

(** C5: the code at the failing input.  With the exclude glob [*/build/*]
    the directory [proj/build] is kept by the pruning test, whose only way of
    dropping a directory is that its path is literally one of the ancestors
    [*/build], [*] or [.] of the glob read as a path; the walk reaches
    [proj/build/x.py], and the file is analyzed: it has its entry in the
    metrics map and its issue in the report. *)
Theorem C5_build_directory_is_walked :
  parents (parse "*/build/*") = [mkPath "" ["*"; "build"]; mkPath "" ["*"]; mkPath "" []]
  /\ CodeAnalyzer.keep_dir ["*/build/*"] "proj" "build" = true
  /\ Spec.visited_files ["*/build/*"] "proj" Examples.build_entries
     = ["proj/main.py"; "proj/build/x.py"]
  /\ exists report,
       CodeAnalyzer.analyze_directory Examples.all_import_os Examples.batch_parse
         fnmatchcase_plain CodeAnalyzer.init "proj" Examples.build_entries
         (Some ["*.py"]) (Some ["*/build/*"]) = Return report
       /\ is_Some (CodeAnalyzer.metrics report !! "proj/build/x.py")
       /\ map category (Spec.issues_of "proj/build/x.py" (CodeAnalyzer.issues report))
          = ["unused_import"]
       /\ CodeAnalyzer.total_files report = 2.
Proof.
  split; [vm_compute; reflexivity|].
  split; [vm_compute; reflexivity|].
  split; [vm_compute; reflexivity|].
  eexists. split; [vm_compute; reflexivity|].
  split; [vm_compute; now eexists|].
  split; vm_compute; reflexivity.
Qed.

(** C6: the code at the failing input.  [proj/app_test.py] matches the
    include glob [*.py] and the exclude glob [*_test.py]; the filter of the
    single-file path, [should_analyze_file], rejects it, and the directory
    run analyzes it all the same. *)
Theorem C6_excluded_file_is_analyzed :
  path_match fnmatchcase_plain (parse "proj/app_test.py") "*.py" = Return true
  /\ path_match fnmatchcase_plain (parse "proj/app_test.py") "*_test.py" = Return true
  /\ ConfigManager.should_analyze_file fnmatchcase_plain ["*.py"] ["*_test.py"]
       "proj/app_test.py" = Return false
  /\ exists report,
       CodeAnalyzer.analyze_directory Examples.all_import_os Examples.batch_parse
         fnmatchcase_plain CodeAnalyzer.init "proj" Examples.tests_entries
         (Some ["*.py"]) (Some ["*_test.py"]) = Return report
       /\ is_Some (CodeAnalyzer.metrics report !! "proj/app_test.py")
       /\ map category (Spec.issues_of "proj/app_test.py" (CodeAnalyzer.issues report))
          = ["unused_import"]
       /\ CodeAnalyzer.total_files report = 2.
Proof.
  split; [vm_compute; reflexivity|].
  split; [vm_compute; reflexivity|].
  split; [vm_compute; reflexivity|].
  eexists. split; [vm_compute; reflexivity|].
  split; [vm_compute; now eexists|].
  split; vm_compute; reflexivity.
Qed.

(** ** Ranges of the metrics *)

Section MetricsRanges.

Lemma count_nonneg {A} (f : A -> bool) (l : list A) : 0 <= PythonASTAnalyzer.count f l.
Proof. unfold PythonASTAnalyzer.count. lia. Qed.

Lemma count_le {A} (f g : A -> bool) (l : list A) :
  (forall x, f x = true -> g x = true) ->
  PythonASTAnalyzer.count f l <= PythonASTAnalyzer.count g l.
Proof.
  intros Himp. unfold PythonASTAnalyzer.count.
  apply inj_le.
  induction l as [|x l IH]; simpl; [lia|].
  destruct (f x) eqn:Hf.
  - rewrite (Himp x Hf). simpl. lia.
  - destruct (g x); simpl; lia.
Qed.

(** A comment line is not blank. *)
Lemma comment_line_nonblank (line : string) :
  PythonASTAnalyzer.is_comment_line line = true -> nonempty (strip line) = true.
Proof.
  unfold PythonASTAnalyzer.is_comment_line.
  destruct (strip line); simpl; [discriminate | reflexivity].
Qed.

Lemma ratio_in_range (c l : Z) :
  0 <= c <= l -> 0 < l ->
  (0 <= inject_Z c / inject_Z l)%Q /\ (inject_Z c / inject_Z l <= 1)%Q.
Proof.
  intros Hc Hl.
  assert (Hl' : (0 < inject_Z l)%Q) by (unfold Qlt; simpl; lia).
  split.
  - apply Qle_shift_div_l; [exact Hl'|].
    rewrite Qmult_0_l. unfold Qle; simpl; lia.
  - apply Qle_shift_div_r; [exact Hl'|].
    rewrite Qmult_1_l. unfold Qle; simpl; lia.
Qed.

Lemma calculated_counts (tree : node) (path content : string) :
  Spec.counts_in_range (PythonASTAnalyzer._calculate_metrics tree path content).
Proof.
  unfold Spec.counts_in_range, PythonASTAnalyzer._calculate_metrics; simpl.
  set (loc := PythonASTAnalyzer.count (fun line => nonempty (strip line))
                (split_lines content)).
  set (com := PythonASTAnalyzer.count PythonASTAnalyzer.is_comment_line
                (split_lines content)).
  assert (Hcom : 0 <= com <= loc).
  { split; [apply count_nonneg|]. apply count_le, comment_line_nonblank. }
  repeat split; try apply count_nonneg.
  - destruct (Z.ltb_spec 0 loc) as [Hpos|_]; [|apply Qle_refl].
    now apply ratio_in_range.
  - destruct (Z.ltb_spec 0 loc) as [Hpos|_]; [|discriminate].
    now apply ratio_in_range.
  - intros Hzero. rewrite Hzero. simpl. apply Qeq_refl.
Qed.

Lemma zero_counts (path : string) : Spec.counts_in_range (zero_metrics path).
Proof.
  unfold Spec.counts_in_range, zero_metrics; simpl.
  repeat split; try lia; discriminate.
Qed.

Lemma extra_operands_nonneg (l : list node) :
  (forall op values, In (BoolOp op values) l -> (2 <= length values)%nat) ->
  0 <= Spec.sum_Z (map Spec.extra_operands l).
Proof.
  induction l as [|n l IH]; intros Hshape; simpl; [lia|].
  assert (0 <= Spec.extra_operands n).
  { destruct n; simpl; try lia.
    specialize (Hshape _ _ (or_introl eq_refl)). lia. }
  assert (0 <= Spec.sum_Z (map Spec.extra_operands l)).
  { apply IH. intros op values Hin. apply (Hshape op). now right. }
  lia.
Qed.

Lemma cyclomatic_at_least_one (tree : node) :
  Spec.parser_shaped tree -> 1 <= Spec.cyclomatic tree.
Proof.
  intros Hshape. unfold Spec.cyclomatic.
  pose proof (extra_operands_nonneg (subtrees tree) Hshape). lia.
Qed.

End MetricsRanges.

(** C8 (as the code has it).  Every metrics record that
    [CodeAnalyzer.analyze_file] returns has counts that are not negative and
    a comment ratio in [0,1] that is 0 when there is no line of code.  Its
    [cyclomatic_complexity] is at least 1 for a [.py] file that is read and
    parsed; for every other file (another extension, unreadable, or not
    parsed) the record is zero in every field, [cyclomatic_complexity]
    included. *)
Theorem C8_metrics_ranges open_read ast_parse self path :
  Spec.position_in_text open_read ast_parse ->
  Spec.grammatical ast_parse ->
  exists issues m,
    CodeAnalyzer.analyze_file open_read ast_parse self path = Return (issues, m)
    /\ Spec.counts_in_range m
    /\ (forall content tree,
           lower (suffix (parse path)) = ".py" ->
           open_read path = ReadOk content ->
           ast_parse content path = Parsed tree ->
           1 <= cyclomatic_complexity m)
    /\ (lower (suffix (parse path)) <> ".py"
        \/ (exists msg, open_read path = ReadError msg)
        \/ (exists content, open_read path = ReadOk content
                            /\ forall tree, ast_parse content path <> Parsed tree) ->
        m = mkMetrics path 0 0 0 0 0 0%Q).
Proof.
  intros Hpos Hgram.
  unfold CodeAnalyzer.analyze_file.
  destruct (String.eqb_spec (lower (suffix (parse path))) ".py") as [Hext|Hext].
  - unfold PythonASTAnalyzer.analyze_file.
    destruct (open_read path) as [content|err] eqn:Hread.
    + destruct (ast_parse content path) as [tree|ln off msg|err] eqn:Hparse.
      * eexists _, _. split; [reflexivity|]. cbn [fst snd].
        split; [apply calculated_counts|]. split.
        -- intros content' tree' _ [= <-] Hparse'.
           rewrite Hparse in Hparse'. injection Hparse' as <-.
           rewrite calculated_complexity.
           apply cyclomatic_at_least_one. exact (Hgram _ _ _ Hparse).
        -- intros [Hno|[[msg Hno]|(content' & [= <-] & Hno)]];
             [contradiction | discriminate | now destruct (Hno tree)].
      * destruct (syntax_error_result open_read ast_parse path content ln off msg
                    Hpos Hread Hparse) as [snippet Hres].
        unfold PythonASTAnalyzer.analyze_file in Hres.
        rewrite Hread, Hparse in Hres. rewrite Hres. simpl.
        eexists _, _. split; [reflexivity|]. simpl.
        split; [apply zero_counts|]. split; [|reflexivity].
        intros content' tree' _ [= <-] Hparse'. congruence.
      * eexists _, _. split; [reflexivity|]. simpl.
        split; [apply zero_counts|]. split; [|reflexivity].
        intros content' tree' _ [= <-] Hparse'. congruence.
    + eexists _, _. split; [reflexivity|]. simpl.
      split; [apply zero_counts|]. split; [|reflexivity].
      intros content' tree' _ Hread'. discriminate.
  - eexists _, _. split; [reflexivity|].
    split; [apply zero_counts|]. split; [|reflexivity].
    intros content tree Hext'. contradiction.
Qed.

Lemma parses_to_grammatical (content : string) (tree : node) :
  Spec.parser_shaped tree -> Spec.grammatical (Examples.parses_to content tree).
Proof.
  intros Hshape c path t. unfold Examples.parses_to.
  destruct (String.eqb c content); [|discriminate].
  now intros [= <-].
Qed.

Lemma decisions_tree_shaped : Spec.parser_shaped Examples.decisions_tree.
Proof.
  intros op values Hin. vm_compute in Hin.
  repeat (destruct Hin as [Hin|Hin]; [try discriminate Hin|]); [|destruct Hin].
  injection Hin as _ <-. simpl. lia.
Qed.

Lemma C8_metrics_ranges_witness :
  exists issues m,
    CodeAnalyzer.analyze_file
      (Examples.one_file "f.py" Examples.decisions_src)
      (Examples.parses_to Examples.decisions_src Examples.decisions_tree)
      CodeAnalyzer.init "f.py" = Return (issues, m)
    /\ Spec.counts_in_range m
    /\ 1 <= cyclomatic_complexity m.
Proof.
  destruct (C8_metrics_ranges
              (Examples.one_file "f.py" Examples.decisions_src)
              (Examples.parses_to Examples.decisions_src Examples.decisions_tree)
              CodeAnalyzer.init "f.py"
              (parses_to_position _ _ _)
              (parses_to_grammatical _ _ decisions_tree_shaped))
    as (issues & m & Hrun & Hcounts & Hparsed & _).
  exists issues, m. split; [exact Hrun|]. split; [exact Hcounts|].
  apply (Hparsed Examples.decisions_src Examples.decisions_tree); reflexivity.
Defined.

(** C8, as stated, fails: the record of a file with another extension, and
    the record of a [.py] file that does not parse, have
    [cyclomatic_complexity] 0. *)
Lemma C8_counterexample :
  (exists m,
      CodeAnalyzer.analyze_file
        (Examples.one_file "notes.txt" "remember the milk")
        (Examples.parses_to Examples.decisions_src Examples.decisions_tree)
        CodeAnalyzer.init "notes.txt" = Return ([], m)
      /\ ~ 1 <= cyclomatic_complexity m)
  /\ (exists issues m,
         CodeAnalyzer.analyze_file
           (Examples.one_file "bad.py" Examples.bad_src) Examples.bad_parse
           CodeAnalyzer.init "bad.py" = Return (issues, m)
         /\ map category issues = ["syntax_error"]
         /\ ~ 1 <= cyclomatic_complexity m).
Proof.
  split.
  - eexists. split; [vm_compute; reflexivity|]. simpl. lia.
  - eexists _, _. split; [vm_compute; reflexivity|].
    split; [reflexivity|]. simpl. lia.
Qed.

(** * Further properties of the analyzers *)

(** ** What a scan reports, exactly *)

Section ScanExact.

Variable issue_at : string -> Z -> string -> CodeIssue.

Lemma enumerate_In (lines : list string) :
  forall (start i : Z) (line : string),
    In (i, line) (enumerate start lines) ->
    exists k, i = start + Z.of_nat k /\ nth_error lines k = Some line.
Proof.
  induction lines as [|l ls IH]; intros start i line Hin; [destruct Hin|].
  destruct Hin as [[= <- <-]|Hin].
  - exists 0%nat. split; [lia | reflexivity].
  - destruct (IH _ _ _ Hin) as (k & -> & Hk).
    exists (S k). split; [lia | exact Hk].
Qed.

(** Every issue of a scan comes from a pattern of the catalogue that
    matches a line of the text. *)
Lemma scan_origin (cat : catalogue) (lines : list string) (x : CodeIssue) :
  In x (scan issue_at cat lines) ->
  exists C patterns pattern k line,
    In (C, patterns) cat /\ In pattern patterns
    /\ nth_error lines k = Some line /\ re_search pattern line = true
    /\ x = issue_at C (1 + Z.of_nat k) line.
Proof.
  unfold scan. intros Hin.
  apply in_flat_map in Hin as ([C patterns] & Hcat & Hin).
  apply in_flat_map in Hin as (pattern & Hpat & Hin).
  apply in_flat_map in Hin as ([i line] & Hline & Hin).
  simpl in Hin. destruct (re_search pattern line) eqn:Hhit; [|no_issue Hin].
  the_issue Hin.
  destruct (enumerate_In _ _ _ _ Hline) as (k & -> & Hk).
  now exists C, patterns, pattern, k, line.
Qed.

End ScanExact.

(** X1.  On a file that can be read, the security scan reports an issue
    exactly when a pattern of a category matches a line: the issue carries
    the path, the 1-based number of that line, column 0, the severity and
    the suggestion of the category, and the stripped line as its snippet.
    The bug scan does the same with its own catalogue. *)
Theorem X1_scan_reports_exactly_the_matches :
  (forall open_read (self : SecurityAnalyzer.t) path content x,
      open_read path = ReadOk content ->
      (In x (SecurityAnalyzer.analyze_file open_read self path) <->
       exists C patterns pattern k line,
         In (C, patterns) (SecurityAnalyzer.security_patterns self)
         /\ In pattern patterns
         /\ nth_error (split_lines content) k = Some line
         /\ re_search pattern line = true
         /\ x = mkIssue path (1 + Z.of_nat k) 0
                  (SecurityAnalyzer._get_severity_for_category C)
                  ("security_" +:+ C)
                  ("Potential " +:+ replace "_" " " C +:+ " vulnerability")
                  (Some (SecurityAnalyzer._get_suggestion_for_category C))
                  (Some (strip line))))
  /\ (forall (self : AdvancedBugDetector.t) path content x,
         In x (AdvancedBugDetector.detect_bugs self path content) <->
         exists C patterns pattern k line,
           In (C, patterns) (AdvancedBugDetector.bug_patterns self)
           /\ In pattern patterns
           /\ nth_error (split_lines content) k = Some line
           /\ re_search pattern line = true
           /\ x = mkIssue path (1 + Z.of_nat k) 0
                    (AdvancedBugDetector._get_severity_for_bug C)
                    ("bug_" +:+ C)
                    ("Potential " +:+ replace "_" " " C +:+ " bug detected")
                    (Some (AdvancedBugDetector._get_suggestion_for_bug C))
                    (Some (strip line))).
Proof.
  split.
  - intros open_read self path content x Hread.
    unfold SecurityAnalyzer.analyze_file. rewrite Hread.
    unfold SecurityAnalyzer.scan_content. split.
    + intros Hin. exact (scan_origin _ _ _ _ Hin).
    + intros (C & patterns & pattern & k & line & Hcat & Hpat & Hline & Hhit & ->).
      now apply (scan_reports (SecurityAnalyzer.issue_at path) _ _ C patterns pattern).
  - intros self path content x. unfold AdvancedBugDetector.detect_bugs. split.
    + intros Hin. exact (scan_origin _ _ _ _ Hin).
    + intros (C & patterns & pattern & k & line & Hcat & Hpat & Hline & Hhit & ->).
      now apply (scan_reports (AdvancedBugDetector.issue_at path) _ _ C patterns pattern).
Qed.

Lemma X1_scan_reports_exactly_the_matches_witness :
  In (SecurityAnalyzer.issue_at "a.py" "command_injection" 1 Examples.twice_src)
     (SecurityAnalyzer.analyze_file
        (Examples.one_file "a.py" Examples.twice_src) SecurityAnalyzer.init "a.py") <->
  exists C patterns pattern k line,
    In (C, patterns) (SecurityAnalyzer.security_patterns SecurityAnalyzer.init)
    /\ In pattern patterns
    /\ nth_error (split_lines Examples.twice_src) k = Some line
    /\ re_search pattern line = true
    /\ SecurityAnalyzer.issue_at "a.py" "command_injection" 1 Examples.twice_src
       = mkIssue "a.py" (1 + Z.of_nat k) 0
           (SecurityAnalyzer._get_severity_for_category C)
           ("security_" +:+ C)
           ("Potential " +:+ replace "_" " " C +:+ " vulnerability")
           (Some (SecurityAnalyzer._get_suggestion_for_category C))
           (Some (strip line)).
Proof.
  apply (proj1 X1_scan_reports_exactly_the_matches
           (Examples.one_file "a.py" Examples.twice_src) SecurityAnalyzer.init
           "a.py" Examples.twice_src).
  reflexivity.
Defined.

(** ** The order of the issues of a scan *)

Section ScanOrder.

Variable issue_at : string -> Z -> string -> CodeIssue.
Variable prefix : string.
Hypothesis issue_category : forall c i l, category (issue_at c i l) = prefix +:+ c.

Lemma sorted_app {A} (R : A -> A -> Prop) (l1 l2 : list A) :
  StronglySorted R l1 -> StronglySorted R l2 ->
  (forall x y, In x l1 -> In y l2 -> R x y) ->
  StronglySorted R (l1 ++ l2).
Proof.
  induction 1 as [|a l1 Hl1 IH Ha]; intros Hl2 Hcross; simpl; [exact Hl2|].
  constructor.
  - apply IH; [exact Hl2|]. intros x y Hx Hy. apply Hcross; [now right | exact Hy].
  - apply List.Forall_forall. intros y Hy.
    apply in_app_or in Hy as [Hy|Hy].
    + rewrite List.Forall_forall in Ha. now apply Ha.
    + apply Hcross; [now left | exact Hy].
Qed.

Lemma sorted_weaken {A} (R R' : A -> A -> Prop) (l : list A) :
  StronglySorted R l ->
  (forall x y, In x l -> In y l -> R x y -> R' x y) ->
  StronglySorted R' l.
Proof.
  induction 1 as [|a l Hl IH Ha]; intros Himp; constructor.
  - apply IH. intros x y Hx Hy. apply Himp; now right.
  - rewrite List.Forall_forall in Ha |- *. intros y Hy.
    apply Himp; [now left | now right | now apply Ha].
Qed.

Lemma sorted_least {A} (f : A -> nat) (l : list A) :
  (forall x, In x l -> f x = O) ->
  StronglySorted (fun x y => (f x <= f y)%nat) l.
Proof.
  induction l as [|x l IH]; intros Hall; constructor.
  - apply IH. intros y Hy. apply Hall. now right.
  - apply List.Forall_forall. intros y Hy. rewrite (Hall x) by now left. lia.
Qed.

(** The issues of a scan come category by category, in the order of the
    catalogue. *)
Lemma scan_sorted_by_rank (cat : catalogue) (lines : list string) :
  Spec.dict_like cat ->
  StronglySorted
    (fun x y => (Rules.rank prefix cat (category x)
                 <= Rules.rank prefix cat (category y))%nat)
    (scan issue_at cat lines).
Proof.
  induction cat as [|[c ps] cat IH]; intros Hdict; [constructor|].
  inversion Hdict as [|? ? Hfresh Hrest]; subst.
  rewrite list_elem_of_In in Hfresh.
  assert (Hsplit : scan issue_at ((c, ps) :: cat) lines
                   = scan issue_at [(c, ps)] lines ++ scan issue_at cat lines)
    by (unfold scan; simpl; now rewrite app_nil_r).
  rewrite Hsplit. clear Hsplit.
  assert (Hhead : forall x, In x (scan issue_at [(c, ps)] lines) ->
                            Rules.rank prefix ((c, ps) :: cat) (category x) = O).
  { intros x Hx. apply scan_origin in Hx as (C & patterns & _ & k & line & HC & _ & _ & _ & ->).
    destruct HC as [[= <- <-]|[]].
    simpl. now rewrite issue_category, String.eqb_refl. }
  assert (Htail : forall x, In x (scan issue_at cat lines) ->
                            Rules.rank prefix ((c, ps) :: cat) (category x)
                            = S (Rules.rank prefix cat (category x))).
  { intros x Hx. apply scan_origin in Hx as (C & patterns & _ & k & line & HC & _ & _ & _ & ->).
    simpl. rewrite issue_category, prefix_eqb.
    destruct (String.eqb_spec C c) as [->|_]; [|reflexivity].
    exfalso. apply Hfresh. apply in_map_iff. now exists (c, patterns). }
  apply sorted_app.
  - now apply sorted_least.
  - apply (sorted_weaken _ _ _ (IH Hrest)).
    intros x y Hx Hy Hle. rewrite (Htail x Hx), (Htail y Hy). lia.
  - intros x y Hx Hy. rewrite (Hhead x Hx). lia.
Qed.

End ScanOrder.

(** X2.  The issues of a scan are ordered by category, in the order in which
    the catalogue lists its categories, and not by line: an issue never
    precedes an issue of a category that the catalogue lists earlier. *)
Theorem X2_scan_issues_grouped_by_category :
  (forall (self : SecurityAnalyzer.t) path content,
      Spec.dict_like (SecurityAnalyzer.security_patterns self) ->
      StronglySorted
        (fun x y =>
           (Rules.rank "security_" (SecurityAnalyzer.security_patterns self) (category x)
            <= Rules.rank "security_" (SecurityAnalyzer.security_patterns self)
                 (category y))%nat)
        (SecurityAnalyzer.scan_content self path content))
  /\ (forall (self : AdvancedBugDetector.t) path content,
         Spec.dict_like (AdvancedBugDetector.bug_patterns self) ->
         StronglySorted
           (fun x y =>
              (Rules.rank "bug_" (AdvancedBugDetector.bug_patterns self) (category x)
               <= Rules.rank "bug_" (AdvancedBugDetector.bug_patterns self)
                    (category y))%nat)
           (AdvancedBugDetector.detect_bugs self path content)).
Proof.
  split.
  - intros self path content Hdict.
    now apply (scan_sorted_by_rank (SecurityAnalyzer.issue_at path) "security_").
  - intros self path content Hdict.
    now apply (scan_sorted_by_rank (AdvancedBugDetector.issue_at path) "bug_").
Qed.

Lemma X2_scan_issues_grouped_by_category_witness :
  StronglySorted
    (fun x y =>
       (Rules.rank "security_" (SecurityAnalyzer.security_patterns SecurityAnalyzer.init)
          (category x)
        <= Rules.rank "security_" (SecurityAnalyzer.security_patterns SecurityAnalyzer.init)
             (category y))%nat)
    (SecurityAnalyzer.scan_content SecurityAnalyzer.init "a.py" Examples.mixed_src).
Proof.
  apply (proj1 X2_scan_issues_grouped_by_category SecurityAnalyzer.init "a.py"
           Examples.mixed_src).
  exact security_dict_like.
Defined.

(** ** Text without code *)

Section BlankText.

Lemma isspace_lower (d : ascii) : isspace d = true -> lower_char d = d.
Proof.
  destruct d as [b0 b1 b2 b3 b4 b5 b6 b7].
  destruct b0, b1, b2, b3, b4, b5, b6, b7; vm_compute; congruence.
Qed.

(** A pattern that begins with a literal matches nothing at a position
    that holds another character, or none. *)
Lemma rests_leading (r : regex) (c : ascii) :
  Rules.leading_char r = Some c ->
  forall s,
    match s with
    | EmptyString => True
    | String d _ => Ascii.eqb (lower_char d) (lower_char c) = false
    end ->
    rests r s = [].
Proof.
  induction r as [| d | | | | | | | r1 IH1 r2 _ | | |]; simpl; try discriminate.
  - intros [= ->] [|e s] Hs; [reflexivity|]. simpl. now rewrite Hs.
  - intros Hlead s Hs. now rewrite (IH1 Hlead s Hs).
Qed.

Lemma search_blank (r : regex) (c : ascii) (s : string) :
  Rules.leading_char r = Some c ->
  isspace (lower_char c) = false ->
  Rules.all_space s = true ->
  re_search r s = false.
Proof.
  intros Hlead Hink. induction s as [|d s IH]; intros Hblank; simpl.
  - unfold matches_at. now rewrite (rests_leading r c Hlead "").
  - simpl in Hblank. apply andb_prop in Hblank as [Hd Hs].
    unfold matches_at. rewrite (rests_leading r c Hlead (String d s)).
    + simpl. now apply IH.
    + rewrite (isspace_lower d Hd).
      destruct (Ascii.eqb_spec d (lower_char c)) as [->|]; [congruence|reflexivity].
Qed.

Lemma lstrip_cases (s : string) :
  (lstrip s = "" /\ Rules.all_space s = true)
  \/ exists c t, lstrip s = String c t /\ isspace c = false.
Proof.
  induction s as [|c s IH]; simpl; [now left|].
  destruct (isspace c) eqn:Hc; simpl.
  - exact IH.
  - right. now exists c, s.
Qed.

Lemma rstrip_keeps_ink (c : ascii) (t : string) :
  isspace c = false -> nonempty (rstrip (String c t)) = true.
Proof.
  intros Hc. simpl. destruct (rstrip t); [now rewrite Hc | reflexivity].
Qed.

(** A line that strips to nothing is white space only. *)
Lemma strip_nothing (line : string) :
  nonempty (strip line) = false -> Rules.all_space line = true.
Proof.
  unfold strip. intros Hstrip.
  destruct (lstrip_cases line) as [[_ Hall]|(c & t & Hl & Hc)]; [exact Hall|].
  rewrite Hl, (rstrip_keeps_ink c t Hc) in Hstrip. discriminate.
Qed.

Lemma no_hits_all_fail {A} (f : A -> bool) (l : list A) :
  length (List.filter f l) = O -> forall x, In x l -> f x = false.
Proof.
  induction l as [|y l IH]; simpl; intros Hlen x Hx; [destruct Hx|].
  destruct (f y) eqn:Hy; [discriminate|].
  destruct Hx as [<-|Hx]; [exact Hy | now apply IH].
Qed.

(** A scan of white space reports nothing, for a catalogue whose patterns
    all begin with a literal that is not white space. *)
Lemma scan_blank issue_at (cat : catalogue) (lines : list string) :
  Rules.begins_with_ink cat = true ->
  (forall line, In line lines -> Rules.all_space line = true) ->
  scan issue_at cat lines = [].
Proof.
  intros Hink Hblank.
  destruct (scan issue_at cat lines) as [|x l] eqn:E; [reflexivity|].
  exfalso.
  assert (Hx : In x (scan issue_at cat lines)) by (rewrite E; now left).
  apply scan_origin in Hx as (C & patterns & pattern & k & line & HC & Hp & Hline & Hhit & _).
  unfold Rules.begins_with_ink in Hink. rewrite forallb_forall in Hink.
  specialize (Hink _ HC). simpl in Hink. rewrite forallb_forall in Hink.
  specialize (Hink _ Hp).
  destruct (Rules.leading_char pattern) as [c|] eqn:Hlead; [|discriminate].
  apply negb_true_iff in Hink.
  rewrite (search_blank pattern c line Hlead Hink) in Hhit; [discriminate|].
  apply Hblank. now apply (nth_error_In _ k).
Qed.

Lemma no_code_all_space (tree : node) (path content : string) :
  lines_of_code (PythonASTAnalyzer._calculate_metrics tree path content) = 0 ->
  forall line, In line (split_lines content) -> Rules.all_space line = true.
Proof.
  unfold PythonASTAnalyzer._calculate_metrics, PythonASTAnalyzer.count. simpl.
  intros Hloc line Hline. apply strip_nothing.
  apply (no_hits_all_fail (fun l => nonempty (strip l)) (split_lines content)); [lia|].
  exact Hline.
Qed.

End BlankText.

(** X3.  A text in which the metrics count no line of code draws no issue
    from either scanner: every pattern of the two catalogues begins with a
    literal character, so none matches a line of white space. *)
Theorem X3_no_code_no_scan_issue tree path content :
  lines_of_code (PythonASTAnalyzer._calculate_metrics tree path content) = 0 ->
  SecurityAnalyzer.scan_content SecurityAnalyzer.init path content = []
  /\ AdvancedBugDetector.detect_bugs AdvancedBugDetector.init path content = [].
Proof.
  intros Hloc. pose proof (no_code_all_space tree path content Hloc) as Hblank.
  split.
  - apply scan_blank; [vm_compute; reflexivity | exact Hblank].
  - apply scan_blank; [vm_compute; reflexivity | exact Hblank].
Qed.

Lemma X3_no_code_no_scan_issue_witness :
  SecurityAnalyzer.scan_content SecurityAnalyzer.init "blank.py" "  
   " = []
  /\ AdvancedBugDetector.detect_bugs AdvancedBugDetector.init "blank.py" "  
   " = [].
Proof.
  apply (X3_no_code_no_scan_issue (Module []) "blank.py").
  vm_compute. reflexivity.
Defined.

(** ** When an import counts as used *)

Section ImportUse.

Lemma existsb_witness {A} (f : A -> bool) (l : list A) :
  existsb f l = true -> exists x, In x l /\ f x = true.
Proof. intros H. now apply existsb_exists in H. Qed.

Lemma has_dot_distinct (a b : string) :
  Rules.has_dot a = true -> Rules.has_dot b = false -> a <> b.
Proof. intros Ha Hb ->. congruence. Qed.

End ImportUse.

(** X4.  [_is_import_used] holds exactly when some [Name] node of the tree
    carries the name: the test on attribute accesses adds nothing, since the
    object of such an access is itself a [Name] node of the tree.  The test
    looks at the whole tree, whatever the scope or the role of the name. *)
Theorem X4_import_used_iff_name_occurs tree X :
  PythonASTAnalyzer._is_import_used tree X = true
  <-> exists q ctx, In (Name q X ctx) (subtrees tree).
Proof.
  split.
  - intros Hused.
    destruct (PythonASTAnalyzer._is_import_used tree X) eqn:E; [|discriminate].
    destruct (existsb_witness _ _ E) as (n & Hn & Hpred).
    apply in_walk_subtrees in Hn.
    destruct n as [| | | | | | | |q id ctx|q value attr ctx| | |]; try discriminate.
    + apply String.eqb_eq in Hpred. subst id. now exists q, ctx.
    + assert (Hv : In value (subtrees tree))
        by (apply (child_in_subtrees tree _ value Hn); now left).
      destruct value as [| | | | | | | |q' id' ctx'| | | |]; try discriminate.
      simpl in Hpred. apply String.eqb_eq in Hpred. subst id'. now exists q', ctx'.
  - intros (q & ctx & Hin).
    destruct (PythonASTAnalyzer._is_import_used tree X) eqn:E; [reflexivity|].
    exfalso. unfold PythonASTAnalyzer._is_import_used in E.
    rewrite <- not_true_iff_false in E. apply E.
    apply existsb_exists. exists (Name q X ctx).
    split; [now apply in_walk_subtrees | apply String.eqb_refl].
Qed.

(** X5.  An [import a.b] is always reported as unused, however the module
    is used: the rule looks for a [Name] node with the dotted name, and a
    name node carries a plain identifier. *)
Theorem X5_dotted_import_always_reported tree path content p names a :
  Rules.plain_names tree ->
  In (Import p names) (subtrees tree) ->
  In a names ->
  Rules.has_dot (Ast.name a) = true ->
  In (mkIssue path (lineno p) (col_offset p) "low" "unused_import"
        ("Unused import: " +:+ Ast.name a)
        (Some ("Remove unused import: " +:+ Ast.name a)) None)
     (PythonASTAnalyzer._analyze_ast tree path content).
Proof.
  intros Hplain Hnode Ha Hdot.
  apply in_flat_map. exists (Import p names).
  split; [now apply in_walk_subtrees|].
  simpl. apply in_flat_map. exists a. split; [exact Ha|].
  rewrite (unreferenced_is_unused tree (Ast.name a)); [now left|].
  intros q ctx Hin. specialize (Hplain _ _ _ Hin). congruence.
Qed.

Lemma dotted_tree_plain : Rules.plain_names Examples.dotted_tree.
Proof.
  intros q id ctx Hin. vm_compute in Hin.
  repeat (destruct Hin as [Hin|Hin];
          [try discriminate Hin; try (injection Hin as _ <- _; reflexivity)|]).
  destruct Hin.
Qed.

Lemma X5_dotted_import_always_reported_witness :
  In (mkIssue "m.py" 1 0 "low" "unused_import" "Unused import: os.path"
        (Some "Remove unused import: os.path") None)
     (PythonASTAnalyzer._analyze_ast Examples.dotted_tree "m.py" Examples.dotted_src).
Proof.
  apply (X5_dotted_import_always_reported Examples.dotted_tree "m.py"
           Examples.dotted_src (Examples.at_ 1 0) [mkAlias "os.path" None]
           (mkAlias "os.path" None)).
  - exact dotted_tree_plain.
  - vm_compute. right. left. reflexivity.
  - left. reflexivity.
  - reflexivity.
Defined.

(** ** How often each structural rule fires *)

Section RuleCounts.

Lemma sum_nat_perm (l1 l2 : list nat) : l1 ≡ₚ l2 -> sum_nat l1 = sum_nat l2.
Proof. induction 1; simpl; lia. Qed.

Lemma sum_indicator {A} (f : A -> bool) (l : list A) :
  sum_nat (map (fun x => if f x then 1%nat else 0%nat) l) = length (List.filter f l).
Proof.
  induction l as [|x l IH]; simpl; [reflexivity|].
  destruct (f x); simpl; now rewrite IH.
Qed.

Lemma sum_nat_plus {A} (f g : A -> nat) (l : list A) :
  sum_nat (map (fun x => (f x + g x)%nat) l)
  = (sum_nat (map f l) + sum_nat (map g l))%nat.
Proof. induction l as [|x l IH]; simpl; [reflexivity | rewrite IH; lia]. Qed.

(** The issues of a tree, counted node by node over the tree. *)
Lemma analyze_ast_hits (f : CodeIssue -> bool) (tree : node) (path content : string) :
  Spec.hits f (PythonASTAnalyzer._analyze_ast tree path content)
  = sum_nat (map (fun n => Spec.hits f (PythonASTAnalyzer.node_issues tree path n))
                 (subtrees tree)).
Proof.
  unfold PythonASTAnalyzer._analyze_ast. rewrite hits_flat_map.
  apply sum_nat_perm, Permutation_map, walk_subtrees.
Qed.

Lemma map_ext_all {A B} (f g : A -> B) (l : list A) :
  (forall x, f x = g x) -> map f l = map g l.
Proof. intros H. induction l as [|x l IH]; simpl; [reflexivity | now rewrite H, IH]. Qed.

Lemma no_unused_import_in (c : string) (tree : node) (path : string) (p : pos)
    (names : list alias) :
  String.eqb "unused_import" c = false ->
  Spec.hits (Rules.in_category c)
    (PythonASTAnalyzer.node_issues tree path (Import p names)) = O.
Proof.
  intros Hc. simpl.
  induction names as [|a names IH]; [reflexivity|].
  simpl. rewrite hits_app, IH.
  destruct (PythonASTAnalyzer._is_import_used tree (Ast.name a)); [reflexivity|].
  unfold Spec.hits, Rules.in_category, PythonASTAnalyzer.unused_import_issue.
  cbn [List.filter category negb]. now rewrite Hc.
Qed.

Lemma code_quality_hits (tree : node) (path : string) (n : node) :
  Spec.hits (Rules.in_category "code_quality")
    (PythonASTAnalyzer.node_issues tree path n)
  = ((if Rules.long_function n then 1 else 0)
     + (if Rules.wide_function n then 1 else 0))%nat.
Proof.
  destruct n as [|p names| | |p f po ar rest body tail| |p [t|] body| | | |p [s|]|p value|];
    try reflexivity.
  - now apply no_unused_import_in.
  - unfold PythonASTAnalyzer.node_issues, Rules.long_function, Rules.wide_function.
    rewrite hits_app.
    destruct (50 <? length body)%nat, (7 <? length ar)%nat; reflexivity.
  - unfold PythonASTAnalyzer.node_issues. destruct (_ && _); reflexivity.
  - unfold PythonASTAnalyzer.node_issues.
    destruct value as [| | | | | | | | | |q [s|]| |]; try reflexivity.
    destruct (startswith_any _ _); reflexivity.
Qed.

Lemma error_handling_hits (tree : node) (path : string) (n : node) :
  Spec.hits (Rules.in_category "error_handling")
    (PythonASTAnalyzer.node_issues tree path n)
  = if Rules.bare_handler n then 1%nat else 0%nat.
Proof.
  destruct n as [|p names| | |p f po ar rest body tail| |p [t|] body| | | |p [s|]|p value|];
    try reflexivity.
  - now apply no_unused_import_in.
  - unfold PythonASTAnalyzer.node_issues. rewrite hits_app.
    destruct (50 <? length body)%nat, (7 <? length ar)%nat; reflexivity.
  - unfold PythonASTAnalyzer.node_issues. destruct (_ && _); reflexivity.
  - unfold PythonASTAnalyzer.node_issues.
    destruct value as [| | | | | | | | | |q [s|]| |]; try reflexivity.
    destruct (startswith_any _ _); reflexivity.
Qed.

Lemma best_practices_hits (tree : node) (path : string) (n : node) :
  Spec.hits (Rules.in_category "best_practices")
    (PythonASTAnalyzer.node_issues tree path n)
  = if Rules.long_literal n then 1%nat else 0%nat.
Proof.
  destruct n as [|p names| | |p f po ar rest body tail| |p [t|] body| | | |p [s|]|p value|];
    try reflexivity.
  - now apply no_unused_import_in.
  - unfold PythonASTAnalyzer.node_issues. rewrite hits_app.
    destruct (50 <? length body)%nat, (7 <? length ar)%nat; reflexivity.
  - unfold PythonASTAnalyzer.node_issues, Rules.long_literal.
    destruct (_ && _); reflexivity.
  - unfold PythonASTAnalyzer.node_issues.
    destruct value as [| | | | | | | | | |q [s|]| |]; try reflexivity.
    destruct (startswith_any _ _); reflexivity.
Qed.

Lemma documentation_hits (tree : node) (path : string) (n : node) :
  Spec.hits (Rules.in_category "documentation")
    (PythonASTAnalyzer.node_issues tree path n)
  = if Rules.todo_statement n then 1%nat else 0%nat.
Proof.
  destruct n as [|p names| | |p f po ar rest body tail| |p [t|] body| | | |p [s|]|p value|];
    try reflexivity.
  - now apply no_unused_import_in.
  - unfold PythonASTAnalyzer.node_issues. rewrite hits_app.
    destruct (50 <? length body)%nat, (7 <? length ar)%nat; reflexivity.
  - unfold PythonASTAnalyzer.node_issues. destruct (_ && _); reflexivity.
  - unfold PythonASTAnalyzer.node_issues, Rules.todo_statement.
    destruct value as [| | | | | | | | | |q [s|]| |]; try reflexivity.
    destruct (startswith_any _ _); reflexivity.
Qed.

Lemma code_quality_count (tree : node) (path content : string) :
  Spec.hits (Rules.in_category "code_quality")
    (PythonASTAnalyzer._analyze_ast tree path content)
  = (length (List.filter Rules.long_function (subtrees tree))
     + length (List.filter Rules.wide_function (subtrees tree)))%nat.
Proof.
  rewrite analyze_ast_hits.
  rewrite (map_ext_all _ _ _ (code_quality_hits tree path)).
  now rewrite sum_nat_plus, !sum_indicator.
Qed.

Lemma filter_length_le {A} (f g : A -> bool) (l : list A) :
  (forall x, f x = true -> g x = true) ->
  (length (List.filter f l) <= length (List.filter g l))%nat.
Proof.
  intros Himp. induction l as [|x l IH]; simpl; [lia|].
  destruct (f x) eqn:Hf.
  - rewrite (Himp x Hf). simpl. lia.
  - destruct (g x); simpl; lia.
Qed.

End RuleCounts.

(** X6.  The tree analysis files one code_quality issue for every function
    definition whose body has more than 50 statements, and one more for
    every function definition with more than 7 parameters in [args.args]; a
    function that is both long and wide gets two. *)
Theorem X6_function_rules_count tree path content :
  Spec.hits (Rules.in_category "code_quality")
    (PythonASTAnalyzer._analyze_ast tree path content)
  = (length (List.filter Rules.long_function (subtrees tree))
     + length (List.filter Rules.wide_function (subtrees tree)))%nat.
Proof.
  rewrite analyze_ast_hits.
  rewrite (map_ext_all _ _ _ (code_quality_hits tree path)).
  now rewrite sum_nat_plus, !sum_indicator.
Qed.

(** X7.  The tree analysis files one error_handling issue for every
    exception handler without a type; each of them is also a decision of
    the complexity measure, so in a parsed tree the cyclomatic complexity
    is more than the number of these issues. *)
Theorem X7_bare_handlers_counted tree path content :
  Spec.hits (Rules.in_category "error_handling")
    (PythonASTAnalyzer._analyze_ast tree path content)
  = length (List.filter Rules.bare_handler (subtrees tree))
  /\ (Spec.parser_shaped tree ->
      Z.of_nat (Spec.hits (Rules.in_category "error_handling")
                  (PythonASTAnalyzer._analyze_ast tree path content))
      < cyclomatic_complexity (PythonASTAnalyzer._calculate_metrics tree path content)).
Proof.
  assert (Hcount : Spec.hits (Rules.in_category "error_handling")
                     (PythonASTAnalyzer._analyze_ast tree path content)
                   = length (List.filter Rules.bare_handler (subtrees tree))).
  { rewrite analyze_ast_hits.
    rewrite (map_ext_all _ _ _ (error_handling_hits tree path)).
    apply sum_indicator. }
  split; [exact Hcount|].
  intros Hshape. rewrite Hcount, calculated_complexity. unfold Spec.cyclomatic.
  pose proof (extra_operands_nonneg (subtrees tree) Hshape) as Hextra.
  assert (Hle : (length (List.filter Rules.bare_handler (subtrees tree))
                 <= length (List.filter Spec.is_decision (subtrees tree)))%nat).
  { apply filter_length_le. intros [| | | | | |p [t|] body| | | | | |]; simpl; congruence. }
  lia.
Qed.

Lemma X7_bare_handlers_counted_witness :
  Z.of_nat (Spec.hits (Rules.in_category "error_handling")
              (PythonASTAnalyzer._analyze_ast Examples.decisions_tree "f.py"
                 Examples.decisions_src))
  < cyclomatic_complexity
      (PythonASTAnalyzer._calculate_metrics Examples.decisions_tree "f.py"
         Examples.decisions_src).
Proof.
  apply (proj2 (X7_bare_handlers_counted Examples.decisions_tree "f.py"
                  Examples.decisions_src)).
  exact decisions_tree_shaped.
Defined.

(** X8.  The tree analysis files one best_practices issue for every string
    constant of more than 50 characters that does not start with [http],
    [https] or [file://], and one documentation issue for every expression
    statement that is a string starting, once stripped and in any case, with
    TODO, FIXME, HACK or XXX. *)
Theorem X8_string_rules_count tree path content :
  Spec.hits (Rules.in_category "best_practices")
    (PythonASTAnalyzer._analyze_ast tree path content)
  = length (List.filter Rules.long_literal (subtrees tree))
  /\ Spec.hits (Rules.in_category "documentation")
       (PythonASTAnalyzer._analyze_ast tree path content)
     = length (List.filter Rules.todo_statement (subtrees tree)).
Proof.
  split; rewrite analyze_ast_hits.
  - rewrite (map_ext_all _ _ _ (best_practices_hits tree path)). apply sum_indicator.
  - rewrite (map_ext_all _ _ _ (documentation_hits tree path)). apply sum_indicator.
Qed.

(** ** The counts of the metrics *)

Section MetricCounts.

Lemma split_lines_app (a b : string) :
  split_lines (a +:+ String newline b) = split_lines a ++ split_lines b.
Proof.
  induction a as [|c a IH]; simpl.
  - now rewrite ?Ascii.eqb_refl.
  - rewrite IH. destruct (Ascii.eqb c newline); [reflexivity|].
    pose proof (split_lines_nonempty a) as Hne.
    destruct (split_lines a) as [|l ls]; [simpl in Hne; lia | reflexivity].
Qed.

Lemma count_app {A} (f : A -> bool) (l1 l2 : list A) :
  PythonASTAnalyzer.count f (l1 ++ l2)
  = PythonASTAnalyzer.count f l1 + PythonASTAnalyzer.count f l2.
Proof.
  unfold PythonASTAnalyzer.count. rewrite List.filter_app, length_app. lia.
Qed.

Lemma count_at_most {A} (f : A -> bool) (l : list A) :
  PythonASTAnalyzer.count f l <= Z.of_nat (length l).
Proof.
  unfold PythonASTAnalyzer.count. apply inj_le.
  induction l as [|x l IH]; simpl; [lia|]. destruct (f x); simpl; lia.
Qed.

Lemma count_subtrees (f : node -> bool) (tree : node) :
  PythonASTAnalyzer.count f (walk tree)
  = Z.of_nat (length (List.filter f (subtrees tree))).
Proof.
  unfold PythonASTAnalyzer.count. f_equal.
  apply count_perm, walk_subtrees.
Qed.

End MetricCounts.

(** X9.  [function_count], [class_count] and [import_count] are the numbers
    of [FunctionDef] nodes, of [ClassDef] nodes and of [Import] or
    [ImportFrom] nodes of the tree, nested ones included; and the
    code_quality issues of the tree are at most two per counted function. *)
Theorem X9_metrics_count_tree_nodes tree path content :
  function_count (PythonASTAnalyzer._calculate_metrics tree path content)
  = Z.of_nat (length (List.filter PythonASTAnalyzer.is_FunctionDef (subtrees tree)))
  /\ class_count (PythonASTAnalyzer._calculate_metrics tree path content)
     = Z.of_nat (length (List.filter PythonASTAnalyzer.is_ClassDef (subtrees tree)))
  /\ import_count (PythonASTAnalyzer._calculate_metrics tree path content)
     = Z.of_nat (length (List.filter PythonASTAnalyzer.is_import (subtrees tree)))
  /\ Z.of_nat (Spec.hits (Rules.in_category "code_quality")
                 (PythonASTAnalyzer._analyze_ast tree path content))
     <= 2 * function_count (PythonASTAnalyzer._calculate_metrics tree path content).
Proof.
  assert (Hf : function_count (PythonASTAnalyzer._calculate_metrics tree path content)
               = Z.of_nat (length (List.filter PythonASTAnalyzer.is_FunctionDef
                                     (subtrees tree))))
    by apply count_subtrees.
  split; [exact Hf|].
  split; [apply count_subtrees|].
  split; [apply count_subtrees|].
  rewrite Hf, code_quality_count.
  assert (Hl : (length (List.filter Rules.long_function (subtrees tree))
                <= length (List.filter PythonASTAnalyzer.is_FunctionDef (subtrees tree)))%nat)
    by (apply filter_length_le; intros []; simpl; congruence).
  assert (Hw : (length (List.filter Rules.wide_function (subtrees tree))
                <= length (List.filter PythonASTAnalyzer.is_FunctionDef (subtrees tree)))%nat)
    by (apply filter_length_le; intros []; simpl; congruence).
  lia.
Qed.

(** X10.  [lines_of_code] counts the lines that are not blank: it lies
    between 0 and the number of lines of the text, and the count of a text
    [a], a newline, then [b] is the count of [a] plus the count of [b]. *)
Theorem X10_lines_of_code_adds_up tree path a b :
  lines_of_code (PythonASTAnalyzer._calculate_metrics tree path (a +:+ String newline b))
  = lines_of_code (PythonASTAnalyzer._calculate_metrics tree path a)
    + lines_of_code (PythonASTAnalyzer._calculate_metrics tree path b)
  /\ 0 <= lines_of_code (PythonASTAnalyzer._calculate_metrics tree path a)
     <= Z.of_nat (length (split_lines a)).
Proof.
  unfold PythonASTAnalyzer._calculate_metrics. simpl.
  rewrite split_lines_app, count_app.
  split; [reflexivity|].
  split; [apply count_nonneg | apply count_at_most].
Qed.

(** ** A file without code *)

Section EmptyFile.

Lemma lstrip_all_space (s : string) : Rules.all_space s = true -> lstrip s = "".
Proof.
  induction s as [|c s IH]; simpl; [reflexivity|].
  intros H. apply andb_prop in H as [Hc Hs]. rewrite Hc. now apply IH.
Qed.

Lemma count_none {A} (f : A -> bool) (l : list A) :
  (forall x, In x l -> f x = false) -> PythonASTAnalyzer.count f l = 0.
Proof.
  intros H. unfold PythonASTAnalyzer.count.
  induction l as [|x l IH]; simpl; [reflexivity|].
  rewrite (H x) by now left. apply IH. intros y Hy. apply H. now right.
Qed.

Lemma blank_not_code (line : string) :
  Rules.all_space line = true -> nonempty (strip line) = false.
Proof. intros H. unfold strip. now rewrite (lstrip_all_space line H). Qed.

Lemma blank_not_comment (line : string) :
  Rules.all_space line = true -> PythonASTAnalyzer.is_comment_line line = false.
Proof.
  intros H. unfold PythonASTAnalyzer.is_comment_line, strip.
  now rewrite (lstrip_all_space line H).
Qed.

End EmptyFile.

(** X11.  A [.py] file that holds white space only and parses to an empty
    module gets no issue at all, neither from the tree nor from the scan,
    and the metrics 0 lines, complexity 1, no function, class or import,
    comment ratio 0. *)
Theorem X11_blank_file_is_clean open_read ast_parse path content :
  lower (suffix (parse path)) = ".py" ->
  open_read path = ReadOk content ->
  ast_parse content path = Parsed (Module []) ->
  (forall line, In line (split_lines content) -> Rules.all_space line = true) ->
  CodeAnalyzer.analyze_file open_read ast_parse CodeAnalyzer.init path
  = Return ([], mkMetrics path 0 1 0 0 0 0%Q).
Proof.
  intros Hext Hread Hparse Hblank.
  assert (Hscan : SecurityAnalyzer.analyze_file open_read
                    (CodeAnalyzer.security_analyzer CodeAnalyzer.init) path = []).
  { unfold SecurityAnalyzer.analyze_file, SecurityAnalyzer.scan_content.
    rewrite Hread. apply scan_blank; [vm_compute; reflexivity | exact Hblank]. }
  assert (Hmetrics : PythonASTAnalyzer._calculate_metrics (Module []) path content
                     = mkMetrics path 0 1 0 0 0 0%Q).
  { unfold PythonASTAnalyzer._calculate_metrics.
    rewrite (count_none (fun line => nonempty (strip line)))
      by (intros line Hline; apply blank_not_code; now apply Hblank).
    rewrite (count_none PythonASTAnalyzer.is_comment_line)
      by (intros line Hline; apply blank_not_comment; now apply Hblank).
    reflexivity. }
  unfold CodeAnalyzer.analyze_file. rewrite Hext, String.eqb_refl.
  unfold PythonASTAnalyzer.analyze_file. rewrite Hread, Hparse.
  cbn [bind fst snd]. rewrite Hscan, Hmetrics. reflexivity.
Qed.

Lemma X11_blank_file_is_clean_witness :
  CodeAnalyzer.analyze_file
    (Examples.one_file "blank.py" "  
") (Examples.parses_to "  
" (Module [])) CodeAnalyzer.init "blank.py"
  = Return ([], mkMetrics "blank.py" 0 1 0 0 0 0%Q).
Proof.
  apply (X11_blank_file_is_clean _ _ "blank.py" "  
"); try reflexivity.
  intros line Hline. vm_compute in Hline.
  destruct Hline as [<-|[<-|[]]]; reflexivity.
Defined.

(** ** The report of a directory run *)

Section ReportShape.

Variable result_of : string -> list CodeIssue * CodeMetrics.

Lemma collect_size_le (paths : list string) :
  forall a : CodeAnalyzer.acc,
    (size (snd (Spec.collect result_of paths a)) <= size (snd a) + length paths)%nat.
Proof.
  induction paths as [|q paths IH]; intros a; simpl; [lia|].
  unfold Spec.collect in *. simpl.
  etransitivity; [apply IH|]. simpl.
  rewrite map_size_insert.
  destruct (snd a !! q) as [m|]; simpl; lia.
Qed.

Lemma collect_lookup_iff (paths : list string) (path : string) :
  is_Some (snd (Spec.collect result_of paths ([], ∅)) !! path) <-> In path paths.
Proof.
  split.
  - intros Hsome. destruct (in_dec string_dec path paths) as [Hin|Hout]; [exact Hin|].
    rewrite (collect_lookup_other result_of paths ([], ∅) path Hout) in Hsome.
    simpl in Hsome. rewrite lookup_empty in Hsome. now destruct Hsome.
  - intros Hin. rewrite (collect_lookup result_of paths ([], ∅) path); [now eexists|].
    now left.
Qed.

End ReportShape.

(** X12.  The report of a directory run holds the issues of the selected
    files, file after file in the order of the walk, and a metrics entry
    for exactly the selected files, each the metrics of that file's
    analysis; [total_issues] is the number of issues, and [total_files] is
    the number of entries, at most the number of selected files. *)
Theorem X12_report_is_the_selected_files open_read ast_parse fnmatchcase self
    directory_path entries include_patterns exclude_patterns :
  Spec.position_in_text open_read ast_parse ->
  Spec.nonempty_patterns
    (CodeAnalyzer.pattern_list include_patterns CodeAnalyzer.default_include) ->
  exists report,
    CodeAnalyzer.analyze_directory open_read ast_parse fnmatchcase self
      directory_path entries include_patterns exclude_patterns = Return report
    /\ CodeAnalyzer.issues report
       = flat_map (fun path => fst (Spec.result_of open_read ast_parse self path))
           (Spec.batch fnmatchcase include_patterns exclude_patterns
              directory_path entries)
    /\ (forall path,
           is_Some (CodeAnalyzer.metrics report !! path)
           <-> In path (Spec.batch fnmatchcase include_patterns exclude_patterns
                          directory_path entries))
    /\ (forall path,
           In path (Spec.batch fnmatchcase include_patterns exclude_patterns
                      directory_path entries) ->
           CodeAnalyzer.analyze_file open_read ast_parse self path
           = Return (Spec.result_of open_read ast_parse self path)
           /\ CodeAnalyzer.metrics report !! path
              = Some (snd (Spec.result_of open_read ast_parse self path)))
    /\ CodeAnalyzer.total_issues report = Z.of_nat (length (CodeAnalyzer.issues report))
    /\ CodeAnalyzer.total_files report = Z.of_nat (size (CodeAnalyzer.metrics report))
    /\ CodeAnalyzer.total_files report
       <= Z.of_nat (length (Spec.batch fnmatchcase include_patterns exclude_patterns
                              directory_path entries)).
Proof.
  intros Hpos Hne.
  eexists. split.
  { apply (directory_report open_read ast_parse fnmatchcase self); assumption. }
  cbn [CodeAnalyzer.issues CodeAnalyzer.metrics CodeAnalyzer.total_files
       CodeAnalyzer.total_issues].
  set (R := Spec.result_of open_read ast_parse self).
  set (B := Spec.batch fnmatchcase include_patterns exclude_patterns directory_path entries).
  split; [now rewrite collect_issues|].
  split; [intros path; apply collect_lookup_iff|].
  split.
  { intros path Hin. split.
    - apply (analyze_file_returns open_read ast_parse self Hpos).
    - apply (collect_lookup R B ([], ∅) path). now left. }
  split; [reflexivity|]. split; [reflexivity|].
  pose proof (collect_size_le R B ([], ∅)) as Hsize.
  simpl in Hsize. rewrite map_size_empty in Hsize. lia.
Qed.

Lemma X12_report_is_the_selected_files_witness :
  exists report,
    CodeAnalyzer.analyze_directory Examples.batch_read Examples.batch_parse
      fnmatchcase_plain CodeAnalyzer.init "proj" Examples.batch_entries
      (Some ["*.py"]) None = Return report
    /\ CodeAnalyzer.total_issues report = Z.of_nat (length (CodeAnalyzer.issues report))
    /\ CodeAnalyzer.total_files report <= 2.
Proof.
  destruct (X12_report_is_the_selected_files
              Examples.batch_read Examples.batch_parse fnmatchcase_plain
              CodeAnalyzer.init "proj" Examples.batch_entries (Some ["*.py"]) None)
    as (report & Hrun & _ & _ & _ & Hissues & _ & Hfiles).
  - apply parses_to_position.
  - apply nonempty_patterns_check. reflexivity.
  - exists report. split; [exact Hrun|]. split; [exact Hissues | exact Hfiles].
Defined.

(** ** An include pattern that [Path.match] refuses *)

Section EmptyPattern.

Variable open_read : string -> read_result.
Variable ast_parse : string -> string -> parse_result.
Variable fnmatchcase : string -> string -> bool.
Variable self : CodeAnalyzer.t.
Variable pattern : string.
Variable rest : list string.
Hypothesis pattern_empty : parts (parse pattern) = [].

Lemma any_match_raises (p : PurePath) :
  any_match fnmatchcase p (pattern :: rest) = Raise (ValueError "empty pattern").
Proof. simpl. unfold path_match. now rewrite pattern_empty. Qed.

Lemma files_loop_raises (root : string) (files : list string) (a : CodeAnalyzer.acc) :
  files <> [] ->
  CodeAnalyzer.for_each
    (CodeAnalyzer.visit_file open_read ast_parse fnmatchcase self (pattern :: rest) root)
    files a
  = Raise (ValueError "empty pattern").
Proof.
  destruct files as [|file files]; [congruence|]. intros _.
  cbn [CodeAnalyzer.for_each]. unfold CodeAnalyzer.visit_file at 1.
  now rewrite any_match_raises.
Qed.

Lemma directories_loop_raises (dirs : list (string * list string)) :
  forall a,
    flat_map (fun rf => map (os_path_join (fst rf)) (snd rf)) dirs <> [] ->
    CodeAnalyzer.for_each
      (fun a rf =>
         CodeAnalyzer.for_each
           (CodeAnalyzer.visit_file open_read ast_parse fnmatchcase self
              (pattern :: rest) (fst rf))
           (snd rf) a)
      dirs a
    = Raise (ValueError "empty pattern").
Proof.
  induction dirs as [|[root files] dirs IH]; intros a Hsome; [now destruct Hsome|].
  cbn [CodeAnalyzer.for_each fst snd].
  destruct files as [|file files].
  - cbn [CodeAnalyzer.for_each bind]. apply IH. exact Hsome.
  - now rewrite files_loop_raises.
Qed.

End EmptyPattern.

Lemma directories_loop_idle open_read ast_parse fnmatchcase self include_patterns
    (dirs : list (string * list string)) :
  forall a,
    flat_map (fun rf => map (os_path_join (fst rf)) (snd rf)) dirs = [] ->
    CodeAnalyzer.for_each
      (fun a rf =>
         CodeAnalyzer.for_each
           (CodeAnalyzer.visit_file open_read ast_parse fnmatchcase self
              include_patterns (fst rf))
           (snd rf) a)
      dirs a
    = Return a.
Proof.
  induction dirs as [|[root files] dirs IH]; intros a Hnone; [reflexivity|].
  simpl in Hnone. apply app_eq_nil in Hnone as [Hfiles Hdirs].
  destruct files as [|file files]; [|discriminate Hfiles].
  cbn [CodeAnalyzer.for_each fst snd bind]. now apply IH.
Qed.

(** X13.  When the first include pattern has no component (the empty
    string, or a dot), [Path.match] refuses it: the run raises
    [ValueError] as soon as the walk meets a file, whatever the file.  On
    a tree in which the walk meets no file the run returns the empty
    report, whatever the patterns. *)
Theorem X13_empty_include_pattern_aborts open_read ast_parse fnmatchcase self
    directory_path entries pattern rest exclude_patterns :
  parts (parse pattern) = [] ->
  (Spec.visited_files
     (CodeAnalyzer.pattern_list exclude_patterns CodeAnalyzer.default_exclude)
     directory_path entries <> [] ->
   CodeAnalyzer.analyze_directory open_read ast_parse fnmatchcase self
     directory_path entries (Some (pattern :: rest)) exclude_patterns
   = Raise (ValueError "empty pattern"))
  /\ (Spec.visited_files
        (CodeAnalyzer.pattern_list exclude_patterns CodeAnalyzer.default_exclude)
        directory_path entries = [] ->
      forall include_patterns,
        CodeAnalyzer.analyze_directory open_read ast_parse fnmatchcase self
          directory_path entries include_patterns exclude_patterns
        = Return (CodeAnalyzer.mkReport [] ∅ 0 0)).
Proof.
  intros Hempty. split.
  - intros Hsome. unfold CodeAnalyzer.analyze_directory.
    cbn [CodeAnalyzer.pattern_list].
    now rewrite (directories_loop_raises open_read ast_parse fnmatchcase self
                   pattern rest Hempty).
  - intros Hnone include_patterns. unfold CodeAnalyzer.analyze_directory.
    rewrite directories_loop_idle by exact Hnone.
    cbn [bind fst snd length]. now rewrite map_size_empty.
Qed.

Lemma X13_empty_include_pattern_aborts_witness :
  CodeAnalyzer.analyze_directory Examples.batch_read Examples.batch_parse
    fnmatchcase_plain CodeAnalyzer.init "proj" Examples.batch_entries
    (Some [""; "*.py"]) None
  = Raise (ValueError "empty pattern").
Proof.
  apply (proj1 (X13_empty_include_pattern_aborts
                  Examples.batch_read Examples.batch_parse fnmatchcase_plain
                  CodeAnalyzer.init "proj" Examples.batch_entries "" ["*.py"] None
                  eq_refl)).
  vm_compute. discriminate.
Defined.

(** ** Which directories the pruning test drops *)

Section Pruning.

Lemma parents_shape (p q : PurePath) :
  In q (parents p) ->
  root q = root p /\ exists k, tail q = take k (tail p).
Proof.
  unfold parents. intros Hin. apply in_map_iff in Hin as (i & <- & _).
  simpl. split; [reflexivity | now eexists].
Qed.

Lemma keep_dir_false (exclude_patterns : list string) (root d : string) :
  CodeAnalyzer.keep_dir exclude_patterns root d = false ->
  exists pattern,
    In pattern exclude_patterns
    /\ In (joinpath (parse root) d) (parents (parse pattern)).
Proof.
  unfold CodeAnalyzer.keep_dir. intros H. apply negb_false_iff in H.
  apply existsb_exists in H as (pattern & Hin & Hdec).
  exists pattern. split; [exact Hin|].
  apply bool_decide_eq_true in Hdec. now apply list_elem_of_In.
Qed.

End Pruning.

(** X14.  With exclude globs that begin with a star component, such as
    every default ([*/venv/*], [*/__pycache__/*], ...), the walk drops a
    directory only when its path, read as a path, is relative and either
    empty or beginning with a component that is literally a star.  A
    directory such as [proj/venv] is never dropped. *)
Theorem X14_star_globs_prune_only_star_paths exclude_patterns root d :
  forallb Rules.star_first exclude_patterns = true ->
  CodeAnalyzer.keep_dir exclude_patterns root d = false ->
  Pathlib.root (joinpath (parse root) d) = ""
  /\ (tail (joinpath (parse root) d) = []
      \/ exists rest, tail (joinpath (parse root) d) = "*" :: rest).
Proof.
  intros Hstar Hdrop.
  destruct (keep_dir_false _ _ _ Hdrop) as (pattern & Hin & Hparent).
  rewrite forallb_forall in Hstar. specialize (Hstar pattern Hin).
  unfold Rules.star_first in Hstar. apply andb_prop in Hstar as [Hroot Hfirst].
  destruct (parents_shape _ _ Hparent) as [Hr (k & Ht)].
  split.
  - rewrite Hr. destruct (Pathlib.root (parse pattern)); [reflexivity | discriminate].
  - rewrite Ht. destruct (tail (parse pattern)) as [|first more]; [discriminate|].
    apply String.eqb_eq in Hfirst. subst first.
    destruct k as [|k]; [now left | right; now eexists].
Qed.

Lemma X14_star_globs_prune_only_star_paths_witness :
  Pathlib.root (joinpath (parse "") "*") = ""
  /\ (tail (joinpath (parse "") "*") = []
      \/ exists rest, tail (joinpath (parse "") "*") = "*" :: rest).
Proof.
  apply (X14_star_globs_prune_only_star_paths CodeAnalyzer.default_exclude "" "*");
    reflexivity.
Defined.

(** The defaults of the analyzer and of the configuration all begin with a
    star component. *)
Example default_excludes_star_first :
  forallb Rules.star_first CodeAnalyzer.default_exclude = true
  /\ forallb Rules.star_first
       ["*/node_modules/*"; "*/venv/*"; "*/env/*"; "*/.git/*";
        "*/__pycache__/*"; "*/build/*"; "*/dist/*"; "*/target/*"] = true.
Proof. split; reflexivity. Qed.

(** ** The filter of the single-file path *)

(** X15.  With patterns that [Path.match] accepts, [should_analyze_file]
    returns [True] exactly for a path that matches some include glob and no
    exclude glob.  Every file of the walk that it accepts is also analyzed by
    the directory run; the run may analyze more (it does no exclude test on
    files). *)
Theorem X15_should_analyze_file_decides open_read ast_parse fnmatchcase self
    directory_path entries include exclude path :
  Spec.position_in_text open_read ast_parse ->
  Spec.nonempty_patterns include ->
  Spec.nonempty_patterns exclude ->
  ConfigManager.should_analyze_file fnmatchcase include exclude path
  = Return (Spec.matches_some fnmatchcase include path
            && negb (Spec.matches_some fnmatchcase exclude path))
  /\ (In path (Spec.visited_files exclude directory_path entries) ->
      ConfigManager.should_analyze_file fnmatchcase include exclude path = Return true ->
      exists report,
        CodeAnalyzer.analyze_directory open_read ast_parse fnmatchcase self
          directory_path entries (Some include) (Some exclude) = Return report
        /\ is_Some (CodeAnalyzer.metrics report !! path)).
Proof.
  intros Hpos Hinc Hexc.
  assert (Hdecides : ConfigManager.should_analyze_file fnmatchcase include exclude path
                     = Return (Spec.matches_some fnmatchcase include path
                               && negb (Spec.matches_some fnmatchcase exclude path))).
  { unfold ConfigManager.should_analyze_file.
    rewrite (any_match_returns fnmatchcase include path Hinc). cbn [bind].
    destruct (Spec.matches_some fnmatchcase include path); [|reflexivity].
    cbn [negb]. rewrite (any_match_returns fnmatchcase exclude path Hexc). cbn [bind].
    now destruct (Spec.matches_some fnmatchcase exclude path). }
  split; [exact Hdecides|].
  intros Hvisited Haccept. rewrite Hdecides in Haccept.
  injection Haccept as Haccept. apply andb_prop in Haccept as [Hmatch _].
  destruct (analyzed_iff_included open_read ast_parse fnmatchcase self
              directory_path entries (Some include) (Some exclude) path
              Hpos Hinc Hvisited) as (report & Hrun & Hiff).
  exists report. split; [exact Hrun|]. now apply Hiff.
Qed.

Lemma X15_should_analyze_file_decides_witness :
  ConfigManager.should_analyze_file fnmatchcase_plain ["*.py"] ["*_test.py"]
    "proj/app.py"
  = Return (Spec.matches_some fnmatchcase_plain ["*.py"] "proj/app.py"
            && negb (Spec.matches_some fnmatchcase_plain ["*_test.py"] "proj/app.py")).
Proof.
  apply (X15_should_analyze_file_decides Examples.all_import_os Examples.batch_parse
           fnmatchcase_plain CodeAnalyzer.init "proj" Examples.tests_entries
           ["*.py"] ["*_test.py"] "proj/app.py").
  - apply parses_to_position.
  - apply nonempty_patterns_check. reflexivity.
  - apply nonempty_patterns_check. reflexivity.
Defined.

(** * Properties of the reports, the commands and the configuration *)

(** ** Dictionaries *)

Section Dictionaries.
Context {V : Type}.

Lemma get_setitem (d : PyDict.t V) (k k' : string) (v : V) :
  PyDict.get (PyDict.setitem d k v) k'
  = if String.eqb k k' then Some v else PyDict.get d k'.
Proof.
  induction d as [|[q w] d IH]; simpl.
  - reflexivity.
  - destruct (String.eqb q k) eqn:Eqk; simpl.
    + apply String.eqb_eq in Eqk. subst q.
      now destruct (String.eqb k k').
    + rewrite IH. destruct (String.eqb q k') eqn:Eqk'; [|reflexivity].
      apply String.eqb_eq in Eqk'. subst q. now rewrite String.eqb_sym, Eqk.
Qed.

Lemma get_in_keys (d : PyDict.t V) (k : string) :
  In k (PyDict.keys d) <-> PyDict.get d k <> None.
Proof.
  induction d as [|[q w] d IH]; simpl.
  - split; [intros [] | congruence].
  - destruct (String.eqb q k) eqn:Eqk.
    + apply String.eqb_eq in Eqk. split; [congruence | now left].
    + apply String.eqb_neq in Eqk. rewrite <- IH. split; [intros [?|?] | intros ?].
      * contradiction.
      * assumption.
      * now right.
Qed.

Lemma keys_setitem (d : PyDict.t V) (k : string) (v : V) :
  PyDict.keys (PyDict.setitem d k v)
  = if PyDict.contains d k then PyDict.keys d else PyDict.keys d ++ [k].
Proof.
  unfold PyDict.contains, PyDict.keys.
  induction d as [|[q w] d IH]; simpl; [reflexivity|].
  destruct (String.eqb q k) eqn:Eqk; simpl; [reflexivity|].
  rewrite IH. now destruct (PyDict.get d k).
Qed.

Lemma keys_setitem_nodup (d : PyDict.t V) (k : string) (v : V) :
  NoDup (PyDict.keys d) -> NoDup (PyDict.keys (PyDict.setitem d k v)).
Proof.
  intros Hnd. rewrite keys_setitem. unfold PyDict.contains.
  destruct (PyDict.get d k) eqn:Eget; [exact Hnd|].
  apply NoDup_app. split; [exact Hnd|]. split; [|apply NoDup_singleton].
  intros x Hx Hk. apply list_elem_of_singleton in Hk. subst x.
  apply list_elem_of_In, get_in_keys in Hx. congruence.
Qed.

End Dictionaries.

(** ** Counting into a dictionary

    [Counter] and [_count_issues_by_severity] run the same loop:
    [c[key(x)] = c.get(key(x), 0) + 1] for every [x]. *)

Lemma py_sum_from (l : list Z) (a : Z) : fold_left Z.add l a = a + py_sum l.
Proof.
  unfold py_sum. revert a.
  induction l as [|x l IH]; intros a; simpl; [lia|].
  rewrite (IH (a + x)), (IH (0 + x)). lia.
Qed.

Lemma py_sum_cons (x : Z) (l : list Z) : py_sum (x :: l) = x + py_sum l.
Proof. unfold py_sum at 1. simpl. apply py_sum_from. Qed.

Lemma py_sum_app (l k : list Z) : py_sum (l ++ k) = py_sum l + py_sum k.
Proof.
  induction l as [|x l IH]; simpl; [reflexivity|].
  rewrite !py_sum_cons, IH. lia.
Qed.

Lemma py_sum_setitem (d : PyDict.t Z) (k : string) (v : Z) :
  py_sum (PyDict.values (PyDict.setitem d k v))
  = py_sum (PyDict.values d) + v - PyDict.get_or d k 0.
Proof.
  unfold PyDict.get_or, PyDict.values.
  induction d as [|[q w] d IH]; simpl.
  - rewrite py_sum_cons. unfold py_sum. simpl. lia.
  - destruct (String.eqb q k); simpl; rewrite !py_sum_cons; [lia|].
    rewrite IH. lia.
Qed.

Lemma fold_left_concat {A S} (f : S -> A -> S) (ls : list (list A)) :
  forall s, fold_left (fun s l => fold_left f l s) ls s = fold_left f (concat ls) s.
Proof.
  induction ls as [|l ls IH]; intros s; simpl; [reflexivity|].
  now rewrite fold_left_app, IH.
Qed.

Lemma py_sum_lengths {A} (ls : list (list A)) :
  py_sum (map (fun l => Z.of_nat (length l)) ls) = Z.of_nat (length (concat ls)).
Proof.
  induction ls as [|l ls IH]; simpl; [reflexivity|].
  rewrite py_sum_cons, length_app, IH. lia.
Qed.

Section Tally.
Context {A : Type} (key : A -> string).

Local Abbreviation tally :=
  (fold_left (fun c x => PyDict.setitem c (key x) (PyDict.get_or c (key x) 0 + 1))).

Lemma tally_get (l : list A) :
  forall d k,
    PyDict.get_or (tally l d) k 0
    = PyDict.get_or d k 0
      + Z.of_nat (length (List.filter (fun x => String.eqb (key x) k) l)).
Proof.
  induction l as [|a l IH]; intros d k; simpl; [lia|].
  rewrite IH. unfold PyDict.get_or at 1. rewrite get_setitem.
  destruct (String.eqb (key a) k) eqn:Eak; simpl.
  - apply String.eqb_eq in Eak. rewrite Eak. lia.
  - fold (PyDict.get_or d k 0). lia.
Qed.

Lemma tally_sum (l : list A) :
  forall d, py_sum (PyDict.values (tally l d))
            = py_sum (PyDict.values d) + Z.of_nat (length l).
Proof.
  induction l as [|a l IH]; intros d; simpl length; [simpl; lia|].
  cbn [fold_left]. rewrite IH, py_sum_setitem. lia.
Qed.

Lemma tally_keys (l : list A) :
  forall d k,
    In k (PyDict.keys (tally l d))
    <-> In k (PyDict.keys d) \/ exists x, In x l /\ key x = k.
Proof.
  induction l as [|a l IH]; intros d k; cbn [fold_left].
  - split; [now left | intros [H|(x & [] & _)]; exact H].
  - rewrite IH, keys_setitem. unfold PyDict.contains.
    destruct (PyDict.get d (key a)) eqn:Eget.
    + split.
      * intros [H|(x & Hx & Hk)]; [now left | right; exists x; split; [now right | exact Hk]].
      * intros [H|(x & [Hx|Hx] & Hk)].
        -- now left.
        -- subst x. left. apply get_in_keys. congruence.
        -- right. now exists x.
    + rewrite in_app_iff. simpl. split.
      * intros [[H|[H|[]]]|(x & Hx & Hk)].
        -- now left.
        -- right. exists a. split; [now left | exact H].
        -- right. exists x. split; [now right | exact Hk].
      * intros [H|(x & [Hx|Hx] & Hk)].
        -- left. now left.
        -- subst x. left. right. now left.
        -- right. now exists x.
Qed.

Lemma tally_nodup (l : list A) :
  forall d, NoDup (PyDict.keys d) -> NoDup (PyDict.keys (tally l d)).
Proof.
  induction l as [|a l IH]; intros d Hnd; cbn [fold_left]; [exact Hnd|].
  apply IH, keys_setitem_nodup, Hnd.
Qed.

End Tally.

(** ** The report and its breakdown by severity *)

(** X16.  In the dictionary of [_count_issues_by_severity] every severity
    that occurs has one entry, whose value is the number of issues of that
    severity over all files; the values add up to the [total_issues] that
    [generate_report] computes from the same dictionary of issues. *)
Theorem X16_severity_counts_add_up (issues_by_file : PyDict.t (list CodeIssue)) :
  let counts := ReportGenerator._count_issues_by_severity issues_by_file in
  let every := concat (PyDict.values issues_by_file) in
  NoDup (PyDict.keys counts)
  /\ (forall s, PyDict.get_or counts s 0
                = Z.of_nat (length (List.filter
                                      (fun i => String.eqb (severity i) s) every)))
  /\ (forall s, In s (PyDict.keys counts) <-> exists i, In i every /\ severity i = s)
  /\ forall (float : Type) now files metrics (reviews : list (AIReviewer.AIReview float))
            time,
       py_sum (PyDict.values counts)
       = ReportGenerator.total_issues
           (ReportGenerator.generate_report now files issues_by_file metrics reviews time).
Proof.
  intros counts every.
  assert (Hcounts : counts
                    = fold_left (fun c i => PyDict.setitem c (severity i)
                                              (PyDict.get_or c (severity i) 0 + 1))
                        every []).
  { unfold counts, ReportGenerator._count_issues_by_severity.
    apply fold_left_concat. }
  rewrite Hcounts. split; [|split; [|split]].
  - apply tally_nodup. constructor.
  - intros s. rewrite tally_get. reflexivity.
  - intros s. rewrite tally_keys. simpl. split; [intros [[]|H]; exact H | now right].
  - intros float now files metrics reviews time.
    rewrite tally_sum. cbn [ReportGenerator.total_issues ReportGenerator.generate_report].
    rewrite py_sum_lengths. reflexivity.
Qed.

(** ** Grouping the issues of a run by file *)

Lemma setitem_absent {V} (d : PyDict.t V) (k : string) (v : V) :
  PyDict.get d k = None -> PyDict.setitem d k v = d ++ [(k, v)].
Proof.
  induction d as [|[q w] d IH]; simpl; [reflexivity|].
  destruct (String.eqb q k); [discriminate|].
  intros Hget. now rewrite IH.
Qed.

Lemma comprehension_from {V} (f : string -> V) (ks : list string) :
  forall d : PyDict.t V,
    NoDup ks ->
    (forall k, In k ks -> PyDict.get d k = None) ->
    fold_left (fun d k => PyDict.setitem d k (f k)) ks d
    = d ++ map (fun k => (k, f k)) ks.
Proof.
  induction ks as [|k ks IH]; intros d Hnd Hnew; simpl; [now rewrite app_nil_r|].
  inversion Hnd as [|? ? Hk Hrest]; subst.
  rewrite list_elem_of_In in Hk.
  rewrite IH; [|exact Hrest|].
  - rewrite setitem_absent by (apply Hnew; now left).
    now rewrite <- app_assoc.
  - intros k' Hk'. rewrite get_setitem.
    destruct (String.eqb k k') eqn:Ekk'.
    + apply String.eqb_eq in Ekk'. subst k'. contradiction.
    + apply Hnew. now right.
Qed.

Lemma comprehension_nodup {V} (f : string -> V) (ks : list string) :
  NoDup ks -> PyDict.comprehension f ks = map (fun k => (k, f k)) ks.
Proof.
  intros Hnd. unfold PyDict.comprehension.
  now rewrite comprehension_from.
Qed.

Lemma filter_partition {A} (p q : A -> bool) (l : list A) :
  (forall x, p x = true -> q x = false) ->
  List.filter (fun x => p x || q x) l ≡ₚ List.filter p l ++ List.filter q l.
Proof.
  intros Hpq. induction l as [|x l IH]; simpl; [reflexivity|].
  destruct (p x) eqn:Ep; simpl.
  - rewrite (Hpq x Ep). now constructor.
  - destruct (q x); [|exact IH].
    etransitivity; [apply perm_skip, IH|]. apply Permutation_middle.
Qed.

Lemma filter_everything {A} (p : A -> bool) (l : list A) :
  (forall x, In x l -> p x = true) -> List.filter p l = l.
Proof.
  induction l as [|x l IH]; intros Hall; simpl; [reflexivity|].
  rewrite (Hall x) by now left. f_equal. apply IH. intros y Hy. apply Hall. now right.
Qed.

(** The groups of distinct paths, one after the other, are the issues filed
    under one of these paths. *)
Lemma grouped_by_path (issues : list CodeIssue) (ks : list string) :
  NoDup ks ->
  concat (map (fun fp => List.filter (fun issue => String.eqb (file_path issue) fp) issues)
              ks)
  ≡ₚ List.filter (fun issue => existsb (String.eqb (file_path issue)) ks) issues.
Proof.
  induction ks as [|k ks IH]; intros Hnd; simpl.
  - induction issues as [|i l IHl]; simpl; [reflexivity | exact IHl].
  - inversion Hnd as [|? ? Hk Hrest]; subst.
    rewrite list_elem_of_In in Hk.
    rewrite (IH Hrest). symmetry.
    apply (filter_partition (fun issue => String.eqb (file_path issue) k)
             (fun issue => existsb (String.eqb (file_path issue)) ks)).
    intros i Hi. apply String.eqb_eq in Hi.
    destruct (existsb (String.eqb (file_path i)) ks) eqn:Eex; [|reflexivity].
    apply existsb_exists in Eex as (q & Hq & Hiq). apply String.eqb_eq in Hiq.
    exfalso. apply Hk. congruence.
Qed.

Lemma issues_by_path_shape (issues : list CodeIssue) (ks : list string) :
  NoDup ks ->
  PyDict.keys (Cli.issues_by_path issues ks) = ks
  /\ concat (PyDict.values (Cli.issues_by_path issues ks))
     ≡ₚ List.filter (fun issue => existsb (String.eqb (file_path issue)) ks) issues.
Proof.
  intros Hnd. unfold Cli.issues_by_path.
  rewrite (comprehension_nodup _ ks Hnd). unfold PyDict.keys, PyDict.values.
  rewrite !map_map. simpl. split.
  - apply map_id.
  - apply grouped_by_path, Hnd.
Qed.

Lemma firstn_nodup {A} (n : nat) (l : list A) : NoDup l -> NoDup (firstn n l).
Proof.
  intros Hnd. rewrite <- (firstn_skipn n l) in Hnd.
  apply NoDup_app in Hnd. apply Hnd.
Qed.

Lemma firstn_in {A} (n : nat) (l : list A) (x : A) : In x (firstn n l) -> In x l.
Proof.
  intros Hin. rewrite <- (firstn_skipn n l). apply in_or_app. now left.
Qed.


Lemma slice_to_in {A} (l : list A) (n : Z) (x : A) : In x (slice_to l n) -> In x l.
Proof. unfold slice_to. destruct (n <? 0); apply firstn_in. Qed.



(** A duplicate-free list of the keys of a map is as long as the map. *)
Lemma key_list_length (m : gmap string CodeMetrics) (ks : list string) :
  NoDup ks -> (forall p, In p ks <-> is_Some (m !! p)) ->
  length ks = size m.
Proof.
  intros Hnd Hkeys.
  rewrite <- length_map_to_list, <- (length_fmap fst (map_to_list m)).
  apply Permutation_length, NoDup_Permutation;
    [exact Hnd | apply NoDup_fst_map_to_list |].
  intros p. rewrite list_elem_of_In, Hkeys, list_elem_of_fmap. split.
  - intros [v Hv]. exists (p, v). split; [reflexivity|].
    now apply elem_of_map_to_list.
  - intros ([q v] & -> & Hin). apply elem_of_map_to_list in Hin. now exists v.
Qed.

(** What a directory run that returns has in its report: every issue is
    filed under a path that has a metrics entry. *)
Lemma directory_run_facts open_read ast_parse fnmatchcase self directory_path
    entries include_patterns exclude_patterns :
  Spec.position_in_text open_read ast_parse ->
  Spec.nonempty_patterns
    (CodeAnalyzer.pattern_list include_patterns CodeAnalyzer.default_include) ->
  exists results,
    CodeAnalyzer.analyze_directory open_read ast_parse fnmatchcase self
      directory_path entries include_patterns exclude_patterns = Return results
    /\ (forall i, In i (CodeAnalyzer.issues results) ->
                  is_Some (CodeAnalyzer.metrics results !! file_path i))
    /\ CodeAnalyzer.total_issues results
       = Z.of_nat (length (CodeAnalyzer.issues results))
    /\ CodeAnalyzer.total_files results
       = Z.of_nat (size (CodeAnalyzer.metrics results)).
Proof.
  intros Hpos Hne. eexists. split.
  { apply (directory_report open_read ast_parse fnmatchcase self); assumption. }
  cbn [CodeAnalyzer.issues CodeAnalyzer.metrics CodeAnalyzer.total_files
       CodeAnalyzer.total_issues].
  split; [|split; reflexivity].
  intros i Hi. rewrite collect_issues in Hi. simpl in Hi.
  apply in_flat_map in Hi as (q & Hq & Hi).
  apply result_issue_path in Hi. subst q.
  now apply collect_lookup_iff.
Qed.

(** ** The commands *)

Lemma listed_keys_enumerate (m : gmap string CodeMetrics) :
  NoDup (CliExamples.listed_keys m)
  /\ forall p, In p (CliExamples.listed_keys m) <-> is_Some (m !! p).
Proof.
  unfold CliExamples.listed_keys. split; [apply NoDup_fst_map_to_list|].
  intros p. rewrite <- list_elem_of_In, list_elem_of_fmap. split.
  - intros ([q v] & -> & Hin). apply elem_of_map_to_list in Hin. now exists v.
  - intros [v Hv]. exists (p, v). split; [reflexivity|].
    now apply elem_of_map_to_list.
Qed.

(** X17.  [export] on a directory loses no issue and invents none: the
    report lists the files of the run's metrics, the issues grouped under
    these files are the issues of the run up to their order, and both totals
    are those of the run. *)
Theorem X17_export_keeps_every_issue (float : Type) (default_temperature zero : float)
    (E : Type) getenv int_of_str float_of_str (makedirs : string -> option E)
    open_read ast_parse fnmatchcase now key_order config_exists load_from_file
    path entries config :
  Spec.position_in_text open_read ast_parse ->
  (forall m, NoDup (key_order m) /\ forall p, In p (key_order m) <-> is_Some (m !! p)) ->
  Cli.load float default_temperature E getenv int_of_str float_of_str makedirs
    config_exists load_from_file = Configuration.Done config ->
  Spec.nonempty_patterns (Configuration.include (Configuration.file_patterns config)) ->
  exists results report,
    CodeAnalyzer.analyze_directory open_read ast_parse fnmatchcase CodeAnalyzer.init
      path entries
      (Some (Configuration.include (Configuration.file_patterns config)))
      (Some (Configuration.exclude (Configuration.file_patterns config)))
    = Return results
    /\ Cli.export float default_temperature zero E getenv int_of_str float_of_str
         makedirs open_read ast_parse fnmatchcase now key_order
         config_exists load_from_file false path entries
       = Cli.Reported report
    /\ ReportGenerator.files_analyzed report = key_order (CodeAnalyzer.metrics results)
    /\ concat (PyDict.values (ReportGenerator.issues_by_file report))
       ≡ₚ CodeAnalyzer.issues results
    /\ ReportGenerator.total_issues report = CodeAnalyzer.total_issues results
    /\ ReportGenerator.total_files report = CodeAnalyzer.total_files results.
Proof.
  intros Hpos Hkeys Hload Hne.
  destruct (directory_run_facts open_read ast_parse fnmatchcase CodeAnalyzer.init
              path entries
              (Some (Configuration.include (Configuration.file_patterns config)))
              (Some (Configuration.exclude (Configuration.file_patterns config)))
              Hpos Hne)
    as (results & Hrun & Hfiled & Hissues & Hfiles).
  destruct (Hkeys (CodeAnalyzer.metrics results)) as [Hnd Hin].
  destruct (issues_by_path_shape (CodeAnalyzer.issues results) _ Hnd) as [Hk Hv].
  rewrite (filter_everything _ (CodeAnalyzer.issues results)) in Hv.
  2:{ intros i Hi. apply existsb_exists. exists (file_path i).
      split; [apply Hin, Hfiled, Hi | apply String.eqb_refl]. }
  exists results. eexists. split; [exact Hrun|]. split.
  { unfold Cli.export. rewrite Hload, Hrun. reflexivity. }
  cbn [ReportGenerator.files_analyzed ReportGenerator.issues_by_file
       ReportGenerator.total_issues ReportGenerator.total_files
       ReportGenerator.generate_report].
  split; [exact Hk|]. split; [exact Hv|]. split.
  - rewrite py_sum_lengths, Hissues. f_equal. apply Permutation_length, Hv.
  - rewrite Hk, Hfiles. f_equal. apply key_list_length; assumption.
Qed.

Lemma X17_export_keeps_every_issue_witness :
  exists results report,
    CliExamples.export_ false "proj" Examples.tests_entries = Cli.Reported report
    /\ concat (PyDict.values (ReportGenerator.issues_by_file report))
       ≡ₚ CodeAnalyzer.issues results
    /\ ReportGenerator.total_issues report = CodeAnalyzer.total_issues results
    /\ ReportGenerator.total_files report = CodeAnalyzer.total_files results.
Proof.
  edestruct (X17_export_keeps_every_issue unit tt tt unit CliExamples.getenv_key
               CliExamples.no_int CliExamples.no_float CliExamples.makedirs_ok
               Examples.all_import_os Examples.batch_parse fnmatchcase_plain 0
               CliExamples.listed_keys false CliExamples.no_file "proj"
               Examples.tests_entries)
    as (results & report & _ & Hexport & _ & Hperm & Hissues & Hfiles).
  - apply parses_to_position.
  - apply listed_keys_enumerate.
  - vm_compute. reflexivity.
  - apply nonempty_patterns_check. reflexivity.
  - exists results, report. repeat split; assumption.
Defined.



(** With one file over the limit, its issue is missing from the report and
    its metrics are not. *)
Example analyze_drops_files_over_the_limit :
  exists report full,
    CliExamples.analyze_ (Some 1) false "proj" Examples.tests_entries
    = Cli.Reported report
    /\ ReportGenerator.total_files report = 1
    /\ ReportGenerator.total_issues report = 1
    /\ size (ReportGenerator.metrics_by_file report) = 2%nat
    /\ CliExamples.export_ false "proj" Examples.tests_entries = Cli.Reported full
    /\ ReportGenerator.total_files full = 2
    /\ ReportGenerator.total_issues full = 2.
Proof.
  eexists. eexists. split; [vm_compute; reflexivity|].
  split; [reflexivity|]. split; [reflexivity|]. split; [vm_compute; reflexivity|].
  split; [vm_compute; reflexivity|]. split; reflexivity.
Qed.

(** X19.  On a single file the two commands differ: [export] analyzes the
    file whatever the patterns say, [analyze] skips a file that matches no
    include glob or some exclude glob, and reports it otherwise.  The report
    names the one file, with as many issues as its analysis returned. *)
Theorem X19_single_file_commands (float : Type) (default_temperature zero : float)
    (E : Type) getenv int_of_str float_of_str (makedirs : string -> option E)
    open_read ast_parse fnmatchcase now key_order config_exists load_from_file
    max_files (ai_review : bool)
    (ai_section : result (list (AIReviewer.AIReview float)))
    path entries config :
  Spec.position_in_text open_read ast_parse ->
  Cli.load float default_temperature E getenv int_of_str float_of_str makedirs
    config_exists load_from_file = Configuration.Done config ->
  Spec.nonempty_patterns (Configuration.include (Configuration.file_patterns config)) ->
  Spec.nonempty_patterns (Configuration.exclude (Configuration.file_patterns config)) ->
  exists issues metrics,
    CodeAnalyzer.analyze_file open_read ast_parse CodeAnalyzer.init path
    = Return (issues, metrics)
    /\ (exists report,
          Cli.export float default_temperature zero E getenv int_of_str float_of_str
            makedirs open_read ast_parse fnmatchcase now key_order
            config_exists load_from_file true path entries
          = Cli.Reported report
          /\ ReportGenerator.files_analyzed report = [path]
          /\ ReportGenerator.issues_by_file report = [(path, issues)]
          /\ ReportGenerator.total_files report = 1
          /\ ReportGenerator.total_issues report = Z.of_nat (length issues))
    /\ (Spec.matches_some fnmatchcase
          (Configuration.include (Configuration.file_patterns config)) path
        && negb (Spec.matches_some fnmatchcase
                   (Configuration.exclude (Configuration.file_patterns config)) path)
        = false ->
        Cli.analyze float default_temperature zero E getenv int_of_str float_of_str
          makedirs open_read ast_parse fnmatchcase now key_order
          config_exists load_from_file max_files ai_review ai_section
          true path entries
        = Cli.Skipped)
    /\ (Spec.matches_some fnmatchcase
          (Configuration.include (Configuration.file_patterns config)) path
        && negb (Spec.matches_some fnmatchcase
                   (Configuration.exclude (Configuration.file_patterns config)) path)
        = true ->
        exists report,
          Cli.analyze float default_temperature zero E getenv int_of_str float_of_str
            makedirs open_read ast_parse fnmatchcase now key_order
            config_exists load_from_file max_files ai_review ai_section
            true path entries
          = Cli.Reported report
          /\ ReportGenerator.files_analyzed report = [path]
          /\ ReportGenerator.issues_by_file report = [(path, issues)]
          /\ ReportGenerator.total_files report = 1
          /\ ReportGenerator.total_issues report = Z.of_nat (length issues)).
Proof.
  intros Hpos Hload Hinc Hexc.
  pose proof (analyze_file_returns open_read ast_parse CodeAnalyzer.init Hpos path)
    as Hfile.
  destruct (Spec.result_of open_read ast_parse CodeAnalyzer.init path)
    as [issues metrics].
  assert (Hshould :
            ConfigManager.should_analyze_file fnmatchcase
              (Configuration.include (Configuration.file_patterns config))
              (Configuration.exclude (Configuration.file_patterns config)) path
            = Return (Spec.matches_some fnmatchcase
                        (Configuration.include (Configuration.file_patterns config)) path
                      && negb (Spec.matches_some fnmatchcase
                                 (Configuration.exclude (Configuration.file_patterns config))
                                 path))).
  { unfold ConfigManager.should_analyze_file.
    rewrite (any_match_returns fnmatchcase _ path Hinc). cbn [bind].
    destruct (Spec.matches_some fnmatchcase
                (Configuration.include (Configuration.file_patterns config)) path);
      [|reflexivity].
    cbn [negb]. rewrite (any_match_returns fnmatchcase _ path Hexc). cbn [bind].
    now destruct (Spec.matches_some fnmatchcase
                    (Configuration.exclude (Configuration.file_patterns config)) path). }
  exists issues, metrics. split; [exact Hfile|]. split; [|split].
  - eexists. split.
    + unfold Cli.export. rewrite Hload. cbv beta iota zeta. rewrite Hfile. reflexivity.
    + cbn [ReportGenerator.files_analyzed ReportGenerator.issues_by_file
           ReportGenerator.total_issues ReportGenerator.total_files
           ReportGenerator.generate_report PyDict.keys PyDict.values map fst snd].
      unfold py_sum. cbn [fold_left Z.add]. repeat split.
  - intros Hskip. unfold Cli.analyze. rewrite Hload. cbv beta iota zeta.
    rewrite Hshould, Hskip. reflexivity.
  - intros Hsel. eexists. split.
    + unfold Cli.analyze. rewrite Hload. cbv beta iota zeta.
      rewrite Hshould, Hsel, Hfile. reflexivity.
    + cbn [ReportGenerator.files_analyzed ReportGenerator.issues_by_file
           ReportGenerator.total_issues ReportGenerator.total_files
           ReportGenerator.generate_report PyDict.keys PyDict.values map fst snd].
      unfold py_sum. cbn [fold_left Z.add]. repeat split.
Qed.

Lemma X19_single_file_commands_witness :
  exists issues : list CodeIssue,
    (exists report,
        CliExamples.export_ true "proj/app_test.py" [] = Cli.Reported report
        /\ ReportGenerator.total_issues report = Z.of_nat (length issues))
    /\ CliExamples.analyze_ None true "proj/build/x.py" [] = Cli.Skipped
    /\ exists report,
         CliExamples.export_ true "proj/build/x.py" [] = Cli.Reported report.
Proof.
  edestruct (X19_single_file_commands unit tt tt unit CliExamples.getenv_key
               CliExamples.no_int CliExamples.no_float CliExamples.makedirs_ok
               Examples.all_import_os Examples.batch_parse fnmatchcase_plain 0
               CliExamples.listed_keys false CliExamples.no_file None false
               (Return []) "proj/app_test.py" [])
    as (issues & metrics & _ & (report & Hexport & _ & _ & _ & Htotal) & _ & _).
  - apply parses_to_position.
  - vm_compute. reflexivity.
  - apply nonempty_patterns_check. reflexivity.
  - apply nonempty_patterns_check. reflexivity.
  - exists issues. split; [exists report; split; assumption|].
    split; [vm_compute; reflexivity|].
    eexists. vm_compute. reflexivity.
Defined.

(** ** Loading the configuration *)

Lemma mem_In (x : string) (l : list string) : Configuration.mem x l = true <-> In x l.
Proof.
  unfold Configuration.mem. rewrite existsb_exists. split.
  - intros (y & Hy & Hxy). apply String.eqb_eq in Hxy. now subst y.
  - intros Hx. exists x. split; [exact Hx | apply String.eqb_refl].
Qed.

Lemma missing_severity_none (levels : PyDict.t Z) :
  Configuration.missing_severity levels = None
  <-> forall s, In s Configuration.required_severities ->
                PyDict.contains levels s = true.
Proof.
  unfold Configuration.missing_severity. split.
  - intros Hnone s Hs.
    pose proof (find_none _ _ Hnone s Hs) as H. simpl in H.
    now destruct (PyDict.contains levels s).
  - intros Hall.
    destruct (List.find _ Configuration.required_severities) as [s|] eqn:Efind;
      [|reflexivity].
    apply find_some in Efind as [Hs Hmiss]. rewrite (Hall s Hs) in Hmiss. discriminate.
Qed.

(** X20.  [load_config] returns exactly when the configuration left by the
    file and the environment has an API key, one of the four output formats,
    the five severity levels, and a report directory that can be made when
    reports are saved; what it returns is that configuration, in which a
    non-empty environment variable overrides the file. *)
Theorem X20_load_config_accepts_valid_only (float : Type) (default_temperature : float)
    (E : Type) getenv int_of_str float_of_str (makedirs : string -> option E)
    (config_exists : bool) load_from_file :
  let from_file :=
    if config_exists then load_from_file (Configuration.default float default_temperature)
    else Configuration.default float default_temperature in
  let c := Configuration._load_from_env float getenv int_of_str float_of_str from_file in
  (forall loaded,
      Configuration.load_config float default_temperature E getenv int_of_str
        float_of_str makedirs config_exists load_from_file = Configuration.Done loaded
      <-> loaded = c
          /\ Configuration.api_key (Configuration.openai c) <> ""
          /\ In (Configuration.format (Configuration.output c))
                ["console"; "json"; "html"; "markdown"]
          /\ (forall s, In s ["critical"; "high"; "medium"; "low"; "info"] ->
                        PyDict.contains
                          (Configuration.severity_levels (Configuration.analysis c)) s
                        = true)
          /\ (Configuration.save_report (Configuration.output c) = true ->
              makedirs (Configuration.report_directory (Configuration.output c)) = None))
  /\ (forall k, Configuration.env getenv "OPENAI_API_KEY" = Some k ->
                Configuration.api_key (Configuration.openai c) = k)
  /\ (Configuration.env getenv "OPENAI_API_KEY" = None ->
      Configuration.api_key (Configuration.openai c)
      = Configuration.api_key (Configuration.openai from_file))
  /\ (forall f, Configuration.env getenv "OUTPUT_FORMAT" = Some f ->
                Configuration.format (Configuration.output c) = f)
  /\ Configuration.file_patterns c = Configuration.file_patterns from_file
  /\ Configuration.review c = Configuration.review from_file.
Proof.
  intros from_file c. split; [|split; [|split; [|split; [|split]]]].
  - intros loaded. unfold Configuration.load_config. fold from_file. fold c.
    unfold Configuration._validate_config.
    destruct (String.eqb (Configuration.api_key (Configuration.openai c)) "") eqn:Ekey.
    { apply String.eqb_eq in Ekey. split; [discriminate|]. intros (_ & Hkey & _).
      contradiction. }
    apply String.eqb_neq in Ekey.
    destruct (Configuration.mem (Configuration.format (Configuration.output c))
                Configuration.valid_formats) eqn:Efmt; cbn [negb].
    2:{ split; [discriminate|]. intros (_ & _ & Hfmt & _).
        apply mem_In in Hfmt. unfold Configuration.valid_formats in Efmt. congruence. }
    apply mem_In in Efmt.
    destruct (Configuration.missing_severity
                (Configuration.severity_levels (Configuration.analysis c))) as [s|] eqn:Esev.
    { split; [discriminate|]. intros (_ & _ & _ & Hsev & _).
      apply (proj2 (missing_severity_none _)) in Hsev. congruence. }
    pose proof (proj1 (missing_severity_none _) Esev) as Hsev. clear Esev.
    destruct (Configuration.save_report (Configuration.output c)) eqn:Esave.
    + destruct (makedirs (Configuration.report_directory (Configuration.output c)))
        as [e|] eqn:Edir.
      * split; [discriminate|]. intros (_ & _ & _ & _ & Hdir).
        specialize (Hdir eq_refl). discriminate.
      * split.
        -- intros [= <-]. repeat split; assumption.
        -- intros (-> & _). reflexivity.
    + split.
      * intros [= <-]. repeat split; try assumption. discriminate.
      * intros (-> & _). reflexivity.
  - intros k Hk. unfold c, Configuration._load_from_env. simpl. now rewrite Hk.
  - intros Hk. unfold c, Configuration._load_from_env. simpl. now rewrite Hk.
  - intros f Hf. unfold c, Configuration._load_from_env. simpl. now rewrite Hf.
  - reflexivity.
  - reflexivity.
Qed.



(** ** The most common items of a review summary *)

Lemma get_listed {V} (d : PyDict.t V) (k : string) (v : V) :
  NoDup (PyDict.keys d) -> In (k, v) d -> PyDict.get d k = Some v.
Proof.
  induction d as [|[q w] d IH]; intros Hnd Hin; [destruct Hin|].
  simpl in Hnd. inversion Hnd as [|? ? Hq Hrest]; subst.
  rewrite list_elem_of_In in Hq. simpl.
  destruct Hin as [[= -> ->]|Hin].
  - now rewrite String.eqb_refl.
  - destruct (String.eqb q k) eqn:Eqk.
    + apply String.eqb_eq in Eqk. subst q. exfalso. apply Hq.
      apply in_map_iff. now exists (k, v).
    + now apply IH.
Qed.

Lemma get_listing {V} (d : PyDict.t V) (k : string) (v : V) :
  PyDict.get d k = Some v -> In (k, v) d.
Proof.
  induction d as [|[q w] d IH]; simpl; [discriminate|].
  destruct (String.eqb q k) eqn:Eqk.
  - apply String.eqb_eq in Eqk. intros [= ->]. left. now subst q.
  - intros Hget. right. now apply IH.
Qed.

Lemma insert_by_count_perm (x : string * Z) (l : list (string * Z)) :
  AIReviewer.insert_by_count x l ≡ₚ x :: l.
Proof.
  induction l as [|y l IH]; simpl; [reflexivity|].
  destruct (snd y <=? snd x); [reflexivity|].
  etransitivity; [apply perm_skip, IH | apply perm_swap].
Qed.

Lemma sorted_by_count_perm (c : PyDict.t Z) : AIReviewer.sorted_by_count c ≡ₚ c.
Proof.
  unfold AIReviewer.sorted_by_count.
  induction c as [|x c IH]; simpl; [reflexivity|].
  etransitivity; [apply insert_by_count_perm | now apply perm_skip].
Qed.

Lemma insert_by_count_sorted (x : string * Z) (l : list (string * Z)) :
  StronglySorted (fun a b => snd b <= snd a) l ->
  StronglySorted (fun a b => snd b <= snd a) (AIReviewer.insert_by_count x l).
Proof.
  induction 1 as [|y l Hl IH Hy]; simpl.
  - constructor; constructor.
  - destruct (snd y <=? snd x) eqn:Eyx.
    + apply Z.leb_le in Eyx. constructor; [now constructor|].
      constructor; [exact Eyx|].
      rewrite List.Forall_forall in Hy |- *. intros z Hz. specialize (Hy z Hz). lia.
    + apply Z.leb_gt in Eyx. constructor; [exact IH|].
      rewrite List.Forall_forall in Hy |- *. intros z Hz.
      apply (Permutation_in _ (insert_by_count_perm x l)) in Hz.
      destruct Hz as [<-|Hz]; [lia | now apply Hy].
Qed.

Lemma sorted_by_count_sorted (c : PyDict.t Z) :
  StronglySorted (fun a b => snd b <= snd a) (AIReviewer.sorted_by_count c).
Proof.
  unfold AIReviewer.sorted_by_count.
  induction c as [|x c IH]; simpl; [constructor | now apply insert_by_count_sorted].
Qed.

Lemma sorted_split {A} (R : A -> A -> Prop) (l1 l2 : list A) :
  StronglySorted R (l1 ++ l2) ->
  StronglySorted R l1 /\ forall x y, In x l1 -> In y l2 -> R x y.
Proof.
  induction l1 as [|a l1 IH]; simpl; intros Hs.
  - split; [constructor | intros x y []].
  - inversion Hs as [|? ? Hrest Ha]; subst.
    destruct (IH Hrest) as [Hl1 Hcross]. split.
    + constructor; [exact Hl1|].
      rewrite List.Forall_forall in Ha |- *. intros y Hy. apply Ha, in_or_app. now left.
    + intros x y [<-|Hx] Hy.
      * rewrite List.Forall_forall in Ha. apply Ha, in_or_app. now right.
      * now apply Hcross.
Qed.

Lemma sorted_fst (occ : string -> nat) (k : list (string * Z)) :
  StronglySorted (fun a b => snd b <= snd a) k ->
  (forall p, In p k -> snd p = Z.of_nat (occ (fst p))) ->
  StronglySorted (fun x y => (occ y <= occ x)%nat) (map fst k).
Proof.
  induction 1 as [|p k Hk IH Hp]; intros Hocc; simpl; constructor.
  - apply IH. intros q Hq. apply Hocc. now right.
  - rewrite List.Forall_forall in Hp |- *. intros y Hy.
    apply in_map_iff in Hy as (q & <- & Hq).
    specialize (Hp q Hq).
    rewrite (Hocc p) in Hp by now left.
    rewrite (Hocc q) in Hp by now right. lia.
Qed.

(** What [Counter] holds: one entry per distinct item, with its number of
    occurrences. *)
Lemma counter_entries (items : list string) :
  NoDup (PyDict.keys (AIReviewer.Counter items))
  /\ forall x n,
       In (x, n) (AIReviewer.Counter items)
       <-> In x items /\ n = Z.of_nat (length (List.filter (String.eqb x) items)).
Proof.
  assert (Hnd : NoDup (PyDict.keys (AIReviewer.Counter items))).
  { apply (tally_nodup (fun x : string => x)). constructor. }
  split; [exact Hnd|].
  assert (Hcount : forall x,
             PyDict.get_or (AIReviewer.Counter items) x 0
             = Z.of_nat (length (List.filter (String.eqb x) items))).
  { intros x. unfold AIReviewer.Counter.
    rewrite (tally_get (fun x : string => x)).
    change (PyDict.get_or [] x 0) with 0. rewrite Z.add_0_l. f_equal. f_equal.
    apply filter_ext. intros y. apply String.eqb_sym. }
  assert (Hkeys : forall x, In x (PyDict.keys (AIReviewer.Counter items)) <-> In x items).
  { intros x. unfold AIReviewer.Counter.
    rewrite (tally_keys (fun x : string => x)). simpl. split.
    - intros [[]|(y & Hy & ->)]. exact Hy.
    - intros Hx. right. now exists x. }
  intros x n. split.
  - intros Hin. split.
    + apply Hkeys. apply in_map_iff. now exists (x, n).
    + rewrite <- Hcount. unfold PyDict.get_or.
      now rewrite (get_listed _ x n Hnd Hin).
  - intros [Hx ->]. apply get_listing.
    apply Hkeys, get_in_keys in Hx. rewrite <- Hcount. unfold PyDict.get_or.
    destruct (PyDict.get (AIReviewer.Counter items) x); [reflexivity | contradiction].
Qed.

Lemma setitem_length {V} (d : PyDict.t V) (k : string) (v : V) :
  (length (PyDict.setitem d k v) <= S (length d))%nat.
Proof.
  induction d as [|[q w] d IH]; simpl; [lia|].
  destruct (String.eqb q k); simpl; lia.
Qed.

Lemma counter_length (items : list string) :
  (length (AIReviewer.Counter items) <= length items)%nat.
Proof.
  unfold AIReviewer.Counter.
  assert (H : forall (l : list string) (d : PyDict.t Z),
             (length (fold_left
                        (fun (c : PyDict.t Z) x =>
                           PyDict.setitem c x (PyDict.get_or c x 0 + 1)%Z)
                        l d)
              <= length d + length l)%nat).
  { induction l as [|x l IH]; intros d; simpl; [lia|].
    etransitivity; [apply IH|].
    pose proof (setitem_length d x (PyDict.get_or d x 0 + 1)). lia. }
  apply (H items []).
Qed.

(** X22.  [_get_top_items] returns distinct items of the list, at most
    [limit] of them and all of them when there are no more than [limit];
    they come by decreasing number of occurrences, and no item left out
    occurs more often than an item returned. *)
Theorem X22_top_items_are_the_most_common (items : list string) (limit : Z) :
  let occurrences x := length (List.filter (String.eqb x) items) in
  let top := AIReviewer._get_top_items items limit in
  NoDup top
  /\ Z.of_nat (length top) <= Z.max 0 limit
  /\ (forall x, In x top -> In x items)
  /\ StronglySorted (fun x y => (occurrences y <= occurrences x)%nat) top
  /\ (forall x y, In x top -> In y items -> ~ In y top ->
                  (occurrences y <= occurrences x)%nat)
  /\ (Z.of_nat (length items) <= limit -> forall y, In y items -> In y top).
Proof.
  intros occurrences top.
  destruct (counter_entries items) as [Hnd Hentries].
  pose proof (sorted_by_count_perm (AIReviewer.Counter items)) as Hperm.
  pose proof (sorted_by_count_sorted (AIReviewer.Counter items)) as Hsorted.
  set (l := AIReviewer.sorted_by_count (AIReviewer.Counter items)) in *.
  assert (Hl : forall x n, In (x, n) l <-> In x items /\ n = Z.of_nat (occurrences x)).
  { intros x n. unfold occurrences. rewrite <- Hentries. split; apply Permutation_in;
      [exact Hperm | symmetry; exact Hperm]. }
  assert (Hndl : NoDup (map fst l)).
  { eapply NoDup_Permutation_proper; [apply Permutation_map, Hperm | exact Hnd]. }
  destruct (limit <=? 0) eqn:Elimit.
  { assert (Htop : top = []).
    { unfold top, AIReviewer._get_top_items, AIReviewer.most_common.
      now rewrite Elimit. }
    apply Z.leb_le in Elimit. rewrite Htop. simpl.
    split; [constructor|]. split; [lia|]. split; [intros x []|].
    split; [constructor|]. split; [intros x y []|].
    intros Hlen y Hy. destruct items; [destruct Hy | simpl in Hlen; lia]. }
  apply Z.leb_gt in Elimit.
  set (n := Z.to_nat limit).
  assert (Htop : top = map fst (firstn n l)).
  { unfold top, AIReviewer._get_top_items, AIReviewer.most_common.
    apply Z.leb_gt in Elimit. now rewrite Elimit. }
  pose proof (firstn_skipn n l) as Hparts.
  rewrite <- Hparts in Hsorted. apply sorted_split in Hsorted as [Hfirst Hcross].
  assert (Hmember : forall x, In x top ->
                              In (x, Z.of_nat (occurrences x)) (firstn n l) /\ In x items).
  { intros x Hx. rewrite Htop in Hx. apply in_map_iff in Hx as ([x' m] & <- & Hin).
    simpl. pose proof (firstn_in _ _ _ Hin) as Hin'. apply Hl in Hin' as [Hitems ->].
    split; assumption. }
  split; [|split; [|split; [|split; [|split]]]].
  - rewrite Htop, <- firstn_map. apply firstn_nodup, Hndl.
  - rewrite Htop, length_map, length_firstn. lia.
  - intros x Hx. apply Hmember, Hx.
  - rewrite Htop. apply sorted_fst; [exact Hfirst|].
    intros [x m] Hp. apply firstn_in, Hl in Hp as [_ ->]. reflexivity.
  - intros x y Hx Hy Hout.
    apply Hmember in Hx as [Hx _].
    assert (Hyl : In (y, Z.of_nat (occurrences y)) l) by now apply Hl.
    rewrite <- Hparts in Hyl. apply in_app_or in Hyl as [Hyl|Hyl].
    + exfalso. apply Hout. rewrite Htop. apply in_map_iff.
      now exists (y, Z.of_nat (occurrences y)).
    + specialize (Hcross _ _ Hx Hyl). simpl in Hcross. lia.
  - intros Hlen y Hy. rewrite Htop, firstn_all2.
    + apply in_map_iff. exists (y, Z.of_nat (occurrences y)). split; [reflexivity|].
      now apply Hl.
    + rewrite (Permutation_length Hperm).
      pose proof (counter_length items) as Hkeys.
      unfold n. lia.
Qed.
